(** * LibGenMiner: a shallow embedding of [libgenminer.py]

    The script drives a browser to a book-search site, scrapes the result
    table into [BookData] records, appends to a JSON search history and
    exports the records to a file.  This development embeds the two classes
    of the script, [ConfigManager] and [BookSearcher], as functions in a
    state-and-exception monad and checks the properties stated in the
    specification against them.

    Modelling conventions.
    - Python values that can sit in the configuration are the inductive
      type [pyval]; a [dict] with string keys is a [gmap string pyval].
      [json.dump] writes a tuple as an array, so a tuple that is saved
      comes back as a list ([jsonify]).
    - An exception is a value of [exn]; a method is a function
      [S -> result A * S], so the effects performed before a [raise] stay
      visible to the handler, as in Python.
    - The file system is a flat map from path to file.  The text of a file is
      abstracted to the document it holds ([content]): what [json.load]
      would return for it, or the table a pandas writer put there.  A path
      that names no file can be created or not, depending on its directory
      ([creation]).
    - The browser is a list of sessions, each showing a [Page]; a page is a
      static snapshot of the elements the script looks for.  The only
      element operations that fail are the ones that find nothing, or that
      talk to a session that has been quit.
    - Text is ASCII ([string] of the standard library). *)

From Stdlib Require Import ZArith Ascii String Lia.
From stdpp Require Import base option list gmap strings fin_maps.

#[local] Set Warnings "-register-all".

(** ** Python values, exceptions and results *)

Inductive pyval :=
| PyNone
| PyBool (b : bool)
| PyInt (z : Z)
| PyFloat (mantissa exponent : Z)
| PyStr (s : string)
| PyList (l : list pyval)
| PyTuple (l : list pyval)
| PyDict (d : gmap string pyval).

Inductive exn :=
| FileNotFoundError (path : string)
| PermissionError (path : string)
| JSONDecodeError
| TypeError
| ValueError (msg : string)
| KeyError (key : string)
| IndexError
| AttributeError
| NoSuchElementException
| TimeoutException
| InvalidSessionIdException
| OverflowError.

Inductive result (A : Type) :=
| Ok (a : A)
| Raise (e : exn).
Arguments Ok {A} a.
Arguments Raise {A} e.

(** A method over a mutable state [S]. *)
Definition M (S A : Type) : Type := S -> result A * S.

Definition ret {S A} (a : A) : M S A := fun s => (Ok a, s).
Definition raise {S A} (e : exn) : M S A := fun s => (Raise e, s).
Definition bind {S A B} (m : M S A) (k : A -> M S B) : M S B :=
  fun s => match m s with
           | (Ok a, s') => k a s'
           | (Raise e, s') => (Raise e, s')
           end.
Definition gets {S A} (f : S -> A) : M S A := fun s => (Ok (f s), s).
Definition modify {S} (f : S -> S) : M S unit := fun s => (Ok tt, f s).
Definition lift_result {S A} (r : result A) : M S A := fun s => (r, s).

(** [try: body except Exception as e: handler e] *)
Definition try_except {S A} (body : M S A) (handler : exn -> M S A) : M S A :=
  fun s => match body s with
           | (Ok a, s') => (Ok a, s')
           | (Raise e, s') => handler e s'
           end.

Declare Scope py_scope.
Delimit Scope py_scope with py.
Notation "'let*' x := m 'in' k" := (bind m (fun x => k))
  (at level 10, x name, m at level 100, k at level 200) : py_scope.
Open Scope py_scope.

(** Truth value of an object, as [if x:] tests it. *)
Definition truthy (v : pyval) : bool :=
  match v with
  | PyNone => false
  | PyBool b => b
  | PyInt z => negb (z =? 0)%Z
  | PyFloat m _ => negb (m =? 0)%Z
  | PyStr s => negb (String.eqb s "")
  | PyList l | PyTuple l => negb (Nat.eqb (length l) 0)
  | PyDict d => negb (Nat.eqb (size d) 0)
  end.

(** What [json.dump] makes of a value, read back by [json.load]: a tuple is
    written as an array and so comes back as a list. *)
Fixpoint jsonify (v : pyval) : pyval :=
  match v with
  | PyTuple l => PyList (map jsonify l)
  | PyList l => PyList (map jsonify l)
  | PyDict d => PyDict (jsonify <$> d)
  | _ => v
  end.

(** How deeply the containers of a value are nested. *)
Fixpoint depth (v : pyval) : nat :=
  match v with
  | PyList l | PyTuple l => S (foldr Nat.max 0 (map depth l))
  | PyDict d => S (map_fold (fun _ => Nat.max) 0 (depth <$> d))
  | _ => 0
  end.

(** [l[lo:hi]] with Python's treatment of negative and oversized bounds. *)
Definition slice_index (len i : Z) : Z :=
  if (i <? 0)%Z then Z.max 0 (i + len) else Z.min i len.

Definition py_slice {A} (l : list A) (lo hi : Z) : list A :=
  let len := Z.of_nat (length l) in
  let lo' := slice_index len lo in
  let hi' := slice_index len hi in
  take (Z.to_nat (hi' - lo')) (drop (Z.to_nat lo') l).

(** [str.strip()], [str.lower()] and [a in b] on ASCII text. *)
Definition is_space (c : ascii) : bool :=
  let n := nat_of_ascii c in
  (Nat.leb 9 n && Nat.leb n 13) || (Nat.leb 28 n && Nat.leb n 32).

Fixpoint lstrip (s : string) : string :=
  match s with
  | EmptyString => EmptyString
  | String c s' => if is_space c then lstrip s' else s
  end.

Fixpoint rstrip (s : string) : string :=
  match s with
  | EmptyString => EmptyString
  | String c s' =>
      match rstrip s' with
      | EmptyString => if is_space c then EmptyString else String c EmptyString
      | r => String c r
      end
  end.

Definition strip (s : string) : string := rstrip (lstrip s).

Definition lower_char (c : ascii) : ascii :=
  let n := nat_of_ascii c in
  if Nat.leb 65 n && Nat.leb n 90 then ascii_of_nat (n + 32) else c.

Fixpoint lower (s : string) : string :=
  match s with
  | EmptyString => EmptyString
  | String c s' => String (lower_char c) (lower s')
  end.

Fixpoint contains (needle hay : string) : bool :=
  String.prefix needle hay ||
  match hay with
  | EmptyString => false
  | String _ hay' => contains needle hay'
  end.

(** A decimal digit. *)
Definition is_digit (c : ascii) : bool :=
  Nat.leb 48 (nat_of_ascii c) && Nat.leb (nat_of_ascii c) 57.

(** The rest of [s] after the digits and underscores that continue a digit
    part of which a digit has just been read. *)
Fixpoint after_digits (s : string) : string :=
  match s with
  | String c s' =>
      if is_digit c then after_digits s'
      else if Ascii.eqb c "_" then
        match s' with
        | String d s'' => if is_digit d then after_digits s'' else s
        | EmptyString => s
        end
      else s
  | EmptyString => s
  end.

(** The rest of [s] after a digit part, if it starts with one. *)
Definition digit_part (s : string) : option string :=
  match s with
  | String c s' => if is_digit c then Some (after_digits s') else None
  | EmptyString => None
  end.

Definition after_sign (s : string) : string :=
  match s with
  | String c s' => if Ascii.eqb c "+" || Ascii.eqb c "-" then s' else s
  | EmptyString => s
  end.

(** The rest of [s] after an exponent, if it starts with one; [s] itself if it
    does not start with "e"; [None] for an exponent cut short. *)
Definition exponent_part (s : string) : option string :=
  match s with
  | String c s' => if Ascii.eqb c "e" then digit_part (after_sign s') else Some s
  | EmptyString => Some s
  end.

(** The rest of [s] after a number: digits with an optional point and
    fraction, or a point and a fraction. *)
Definition number_part (s : string) : option string :=
  match digit_part s with
  | Some (String c r) =>
      if Ascii.eqb c "." then Some (default r (digit_part r)) else Some (String c r)
  | Some EmptyString => Some EmptyString
  | None =>
      match s with
      | String c r => if Ascii.eqb c "." then digit_part r else None
      | EmptyString => None
      end
  end.

(** [float(s)] accepts a string when its text, stripped, is a float
    literal: an optional sign, then "inf", "infinity" or "nan" in any case,
    or a decimal number with an optional exponent; digits may be grouped
    with single underscores. *)
Definition is_float_literal (s : string) : bool :=
  let body := after_sign (lower (strip s)) in
  if String.eqb body "inf" || String.eqb body "infinity" || String.eqb body "nan" then true
  else match number_part body with
       | Some r => match exponent_part r with
                   | Some EmptyString => true
                   | _ => false
                   end
       | None => false
       end.

(** [float(v)]: a number converts (an [int] too large for a double
    overflows), a string must be a float literal, anything else is a
    [TypeError].  The message of the [ValueError] quotes the string the way
    [repr] does for a text without quotes or escapes. *)
Definition py_float (v : pyval) : result unit :=
  match v with
  | PyInt z =>
      if (2 ^ 1024 - 2 ^ 970 <=? Z.abs z)%Z then Raise OverflowError else Ok tt
  | PyFloat _ _ | PyBool _ => Ok tt
  | PyStr s =>
      if is_float_literal s then Ok tt
      else Raise (ValueError ("could not convert string to float: '" +:+ s +:+ "'"))
  | _ => Raise TypeError
  end.

(** [os.path.splitext(path)[-1][1:]]: what follows the last dot of a file
    name (the names built here hold no directory part). *)
Fixpoint after_last_dot (s : string) (found : option string) : option string :=
  match s with
  | String c s' =>
      if Ascii.eqb c "." then after_last_dot s' (Some s') else after_last_dot s' found
  | EmptyString => found
  end.

Definition extension (path : string) : string :=
  default "" (after_last_dot path None).

(** ** The clock: [datetime.now()] *)

Record datetime := {
  dt_year : nat; dt_month : nat; dt_day : nat;
  dt_hour : nat; dt_minute : nat; dt_second : nat; dt_microsecond : nat
}.

Definition digit (n : nat) : ascii := ascii_of_nat (48 + n mod 10).

(** The last [w] decimal digits of [n], zero padded: [%02d], [%04d], [%06d]
    for the field ranges of a [datetime]. *)
Fixpoint zero_padded (w n : nat) : string :=
  match w with
  | O => EmptyString
  | S w' => zero_padded w' (n / 10) +:+ String (digit n) EmptyString
  end.

(** [str(n)] for a number that is not negative; a number has no more
    digits than its value plus one. *)
Fixpoint decimal_from (fuel n : nat) : string :=
  match fuel with
  | O => EmptyString
  | S fuel' =>
      (if Nat.ltb n 10 then EmptyString else decimal_from fuel' (n / 10))
      +:+ String (digit n) EmptyString
  end.

Definition decimal (n : nat) : string := decimal_from (S n) n.

(** [strftime("%Y%m%d_%H%M%S")]; the year of [datetime.now()] has four
    digits. *)
Definition strftime_compact (t : datetime) : string :=
  zero_padded 4 (dt_year t) +:+ zero_padded 2 (dt_month t) +:+ zero_padded 2 (dt_day t)
  +:+ "_" +:+
  zero_padded 2 (dt_hour t) +:+ zero_padded 2 (dt_minute t) +:+ zero_padded 2 (dt_second t).

(** [isoformat()]: the fraction is left out when it is zero. *)
Definition isoformat (t : datetime) : string :=
  zero_padded 4 (dt_year t) +:+ "-" +:+ zero_padded 2 (dt_month t) +:+ "-" +:+
  zero_padded 2 (dt_day t) +:+ "T" +:+ zero_padded 2 (dt_hour t) +:+ ":" +:+
  zero_padded 2 (dt_minute t) +:+ ":" +:+ zero_padded 2 (dt_second t) +:+
  (if Nat.eqb (dt_microsecond t) 0 then "" else "." +:+ zero_padded 6 (dt_microsecond t)).

(** ** Records scraped from the page *)

(** [download_link] holds what [get_attribute("href")] returned, which is
    [None] for an anchor without that attribute. *)
Module BookData.
Record t := {
  title : string;
  author : string;
  year : string;
  format : string;
  size : string;
  language : string;
  pages : string;
  publisher : string;
  isbn : string;
  download_link : option string
}.
End BookData.

(** A [pandas.DataFrame] built from a list of records: one row per record. *)
Definition DataFrame : Type := list BookData.t.

(** ** The world outside the process *)

Inductive content :=
| Garbage (raw : string)           (* text that is not a JSON document *)
| JsonDoc (v : pyval)              (* text that [json.load] reads as [v] *)
| CsvDoc (rows : DataFrame)
| ExcelDoc (rows : DataFrame).

(** A path is absent from the map, or names a file the process may not open
    ([Denied]), or names a file it can read and overwrite. *)
Inductive file :=
| Denied
| Readable (c : content).

(** An element of the page: its visible text and the [href]s of the anchors
    below it, in document order. *)
Record Cell := { text : string; anchors : list (option string) }.

(** A table row is the list of its [td] cells. *)
Definition Row : Type := list Cell.

Record Page := {
  query_input : bool;                   (* an element named "req" *)
  type_options : option (list string);  (* texts of the options of "column" *)
  submit_button : bool;                 (* //input[@type='submit'] *)
  table_c : option (list Row)           (* the [tr]s of the element of class "c" *)
}.

Definition blank_page : Page :=
  {| query_input := false; type_options := None;
     submit_button := false; table_c := None |}.

(** The site: its front page, and the page a submitted query leads to, given
    the text typed and the option clicked (if any). *)
Record Site := {
  home : Page;
  submit : string -> option nat -> Page
}.

Record ChromeOptions := {
  opt_headless : bool;
  opt_images_disabled : bool;
  opt_user_agent : pyval
}.

Record Session := {
  live : bool;
  options : ChromeOptions;
  page : Page
}.

Inductive log_record :=
| LogError (prefix : string) (e : exn).

(** Whether a path that names no file can be given one: its directory is
    there and can be written to, or is missing, or is read-only. *)
Inductive creation :=
| Creatable
| NoDirectory
| ReadOnlyDirectory.

Record World := {
  fs : gmap string file;
  log : list log_record;          (* book_searcher.log *)
  sessions : list Session;        (* browser sessions, by handle *)
  now : datetime;
  site : Site;
  place : string -> creation      (* for the paths that name no file *)
}.

Definition set_fs (f : gmap string file -> gmap string file) (w : World) : World :=
  {| fs := f (fs w); log := log w; sessions := sessions w; now := now w; site := site w;
     place := place w |}.
Definition set_log (f : list log_record -> list log_record) (w : World) : World :=
  {| fs := fs w; log := f (log w); sessions := sessions w; now := now w; site := site w;
     place := place w |}.
Definition set_sessions (f : list Session -> list Session) (w : World) : World :=
  {| fs := fs w; log := log w; sessions := f (sessions w); now := now w; site := site w;
     place := place w |}.

(** [open(path, 'r')] followed by reading the whole file. *)
Definition read_file (path : string) : M World content :=
  fun w => match fs w !! path with
           | None => (Raise (FileNotFoundError path), w)
           | Some Denied => (Raise (PermissionError path), w)
           | Some (Readable c) => (Ok c, w)
           end.

(** [open(path, 'w')] followed by writing the whole document: an existing
    file is overwritten if the process may open it; a new file is created
    if its directory allows it. *)
Definition write_file (path : string) (c : content) : M World unit :=
  fun w => match fs w !! path with
           | Some Denied => (Raise (PermissionError path), w)
           | Some (Readable _) => (Ok tt, set_fs (insert path (Readable c)) w)
           | None =>
               match place w path with
               | Creatable => (Ok tt, set_fs (insert path (Readable c)) w)
               | NoDirectory => (Raise (FileNotFoundError path), w)
               | ReadOnlyDirectory => (Raise (PermissionError path), w)
               end
           end.

(** Whether [open(path, 'w')] succeeds: the file is there and may be
    opened, or it is not there and its directory lets it be created. *)
Definition can_write (path : string) (w : World) : bool :=
  match fs w !! path with
  | Some Denied => false
  | Some (Readable _) => true
  | None => match place w path with
            | Creatable => true
            | _ => false
            end
  end.

(** [Path(path).exists()] *)
Definition path_exists (path : string) (w : World) : bool :=
  match fs w !! path with
  | None => false
  | Some _ => true
  end.

(** [json.load] *)
Definition json_load (c : content) : result pyval :=
  match c with
  | JsonDoc v => Ok v
  | _ => Raise JSONDecodeError
  end.

(** [json.dump] *)
Definition json_dump (v : pyval) : content := JsonDoc (jsonify v).

(** ** class ConfigManager *)

Module ConfigManager.

Definition browser_defaults : gmap string pyval :=
  <["headless" := PyBool false]> (
  <["disable_images" := PyBool true]> (
  <["user_agent" :=
      PyStr "Mozilla/5.0 (Windows NT 10.0; Win64; x64) AppleWebKit/537.36"]> ∅)).

Definition DEFAULT_CONFIG : gmap string pyval :=
  <["max_results" := PyInt 20]> (
  <["timeout" := PyInt 10]> (
  <["download_path" := PyStr "downloads"]> (
  <["search_history_file" := PyStr "search_history.json"]> (
  <["max_retries" := PyInt 3]> (
  <["wait_time" := PyTuple [PyInt 1; PyInt 3]]> (
  <["browser_options" := PyDict browser_defaults]> ∅)))))).

Record t := {
  config_file : string;
  config : gmap string pyval
}.

Definition _save_config (path : string) (cfg : gmap string pyval) : M World unit :=
  write_file path (json_dump (PyDict cfg)).

(** [{**DEFAULT_CONFIG, **v}]: [v] must be a mapping; its keys win. *)
Definition overlay (v : pyval) : result (gmap string pyval) :=
  match v with
  | PyDict d => Ok (d ∪ DEFAULT_CONFIG)
  | _ => Raise TypeError
  end.

Definition _load_config (path : string) : M World (gmap string pyval) :=
  try_except
    (let* c := read_file path in
     let* v := lift_result (json_load c) in
     lift_result (overlay v))
    (fun e =>
       match e with
       | FileNotFoundError _ =>
           let* _ := _save_config path DEFAULT_CONFIG in
           ret DEFAULT_CONFIG
       | _ => raise e
       end).

Definition __init__ (path : string) : M World t :=
  let* cfg := _load_config path in
  ret {| config_file := path; config := cfg |}.

(** [dict.get]: [None] for a missing key. *)
Definition get (self : t) (key : string) : pyval :=
  default PyNone (config self !! key).

End ConfigManager.

(** ** class BookSearcher *)

Module BookSearcher.

(** The object's fields.  [driver] is the handle of a browser session, an
    index into [sessions]; [wait] is the [WebDriverWait] built for it,
    together with the timeout it was given.  How long a wait lasts is not
    modelled: an element is on the page or it is not. *)
Record t := {
  config : ConfigManager.t;
  driver : option nat;
  wait : option (nat * pyval)
}.

Record state := { self : t; world : World }.

Definition in_world {A} (m : M World A) : M state A :=
  fun s => let (r, w) := m (world s) in (r, {| self := self s; world := w |}).

Definition config_get (key : string) : M state pyval :=
  gets (fun s => ConfigManager.get (config (self s)) key).

(** [self.logger.error(f"<prefix>: {str(e)}")] *)
Definition log_error (prefix : string) (e : exn) : M state unit :=
  in_world (modify (set_log (fun l => l ++ [LogError prefix e]))).

(** The logger set-up and the creation of the download directory are
    outside the model. *)
Definition __init__ (config_manager : ConfigManager.t) : t :=
  {| config := config_manager; driver := None; wait := None |}.

(** [v[key]] for a string key: only a [dict] can be subscripted so. *)
Definition subscript (v : pyval) (key : string) : result pyval :=
  match v with
  | PyDict d =>
      match d !! key with
      | Some x => Ok x
      | None => Raise (KeyError key)
      end
  | _ => Raise TypeError
  end.

(** [webdriver.Chrome(service=service, options=options)] *)
Definition launch (opts : ChromeOptions) : M state nat :=
  fun s =>
    let sid := length (sessions (world s)) in
    let new := {| live := true; options := opts; page := blank_page |} in
    (Ok sid,
     {| self := self s;
        world := set_sessions (fun l => l ++ [new]) (world s) |}).

(** [self.driver = ...] and [self.wait = ...] *)
Definition set_driver (d : option nat) (s : state) : state :=
  {| self := {| config := config (self s); driver := d; wait := wait (self s) |};
     world := world s |}.

Definition set_wait (w : option (nat * pyval)) (s : state) : state :=
  {| self := {| config := config (self s); driver := driver (self s); wait := w |};
     world := world s |}.

(** [WebDriverWait(driver, timeout)] stores [float(timeout)]. *)
Definition WebDriverWait (sid : nat) (timeout : pyval) : result (nat * pyval) :=
  match py_float timeout with
  | Ok _ => Ok (sid, timeout)
  | Raise e => Raise e
  end.

(** The handle is assigned as soon as Chrome is up, before the wait is
    built: a timeout that is no number leaves the object with a browser
    and no wait. *)
Definition _initialize_driver : M state unit :=
  let* browser_options := config_get "browser_options" in
  let* headless := lift_result (subscript browser_options "headless") in
  let* disable_images := lift_result (subscript browser_options "disable_images") in
  let* user_agent := lift_result (subscript browser_options "user_agent") in
  let opts := {| opt_headless := truthy headless;
                 opt_images_disabled := truthy disable_images;
                 opt_user_agent := user_agent |} in
  let* sid := launch opts in
  let* _ := modify (set_driver (Some sid)) in
  let* timeout := config_get "timeout" in
  let* w := lift_result (WebDriverWait sid timeout) in
  modify (set_wait (Some w)).

Definition is_number (v : pyval) : bool :=
  match v with
  | PyInt _ | PyFloat _ _ | PyBool _ => true
  | _ => false
  end.

(** [min_time, max_time = v]: unpacking wants an iterable of exactly two
    items; [random.uniform] then wants two numbers (the two characters of
    a string and the two keys of a dict are not). *)
Definition delay_bounds (v : pyval) : result (pyval * pyval) :=
  match v with
  | PyList [a; b] | PyTuple [a; b] =>
      if is_number a && is_number b then Ok (a, b) else Raise TypeError
  | PyList _ | PyTuple _ => Raise (ValueError "unpack")
  | PyStr s => if Nat.eqb (String.length s) 2 then Raise TypeError
               else Raise (ValueError "unpack")
  | PyDict d => if Nat.eqb (size d) 2 then Raise TypeError
                else Raise (ValueError "unpack")
  | _ => Raise TypeError
  end.

(** The sleep itself leaves the modelled state alone.  [time.sleep]
    rejects a negative duration; whether negative bounds lead to one
    depends on the random draw, which is left out. *)
Definition _random_delay : M state unit :=
  let* wait_time := config_get "wait_time" in
  let* _ := lift_result (delay_bounds wait_time) in
  ret tt.

(** Run [f] on the page shown by session [sid], which must be live. *)
Definition on_page {A} (sid : nat) (f : Page -> result A) : M state A :=
  fun s =>
    match sessions (world s) !! sid with
    | Some ses => if live ses then (f (page ses), s)
                  else (Raise InvalidSessionIdException, s)
    | None => (Raise InvalidSessionIdException, s)
    end.

(** Make session [sid], which must be live, show page [p]. *)
Definition navigate (sid : nat) (p : Site -> Page) : M state unit :=
  fun s =>
    match sessions (world s) !! sid with
    | Some ses =>
        if live ses then
          let ses' := {| live := true; options := options ses;
                         page := p (site (world s)) |} in
          (Ok tt, {| self := self s;
                     world := set_sessions (fun l => <[sid := ses']> l) (world s) |})
        else (Raise InvalidSessionIdException, s)
    | None => (Raise InvalidSessionIdException, s)
    end.

(** [self.driver.<method>]: the attribute of [None] does not exist. *)
Definition the_driver : M state nat :=
  fun s => match driver (self s) with
           | Some sid => (Ok sid, s)
           | None => (Raise AttributeError, s)
           end.

(** [self.wait.until(condition)]: a condition that never comes true
    ends in a [TimeoutException]. *)
Definition wait_until {A} (condition : Page -> option A) : M state A :=
  fun s => match wait (self s) with
           | Some (sid, _) =>
               on_page sid (fun p => match condition p with
                                     | Some a => Ok a
                                     | None => Raise TimeoutException
                                     end) s
           | None => (Raise AttributeError, s)
           end.

Definition present (b : bool) : option unit := if b then Some tt else None.

(** The first option whose text contains the search type, both in lower
    case; its index in the list, or [None] when the loop finds none. *)
Fixpoint first_match (search_type : string) (option_texts : list string) (i : nat)
  : option nat :=
  match option_texts with
  | [] => None
  | txt :: rest =>
      if contains (lower search_type) (lower txt) then Some i
      else first_match search_type rest (S i)
  end.

(** ** Row parsing

    The cells of a row are read through [cell], which records the index
    it was asked for in the state of the monad and raises [IndexError]
    when the row is shorter. *)
Definition cell (cols : list Cell) (i : nat) : M (list nat) Cell :=
  fun reads =>
    (match cols !! i with
     | Some c => Ok c
     | None => Raise IndexError
     end, reads ++ [i]).

(** [c.find_element(By.TAG_NAME, "a").get_attribute("href")] *)
Definition first_href (c : Cell) : result (option string) :=
  match anchors c with
  | href :: _ => Ok href
  | [] => Raise NoSuchElementException
  end.

(** The body of the loop for one row: [Some book] when a record is
    appended, [None] when the row is passed over.  The keyword arguments
    of [BookData(...)] are evaluated in the order they are written. *)
Definition row_body (cols : list Cell) : M (list nat) (option BookData.t) :=
  if Nat.leb 9 (length cols) then
    let* c_title := cell cols 2 in
    let* c_author := cell cols 1 in
    let* c_year := cell cols 4 in
    let* c_format := cell cols 8 in
    let* c_size := cell cols 7 in
    let* c_language := cell cols 6 in
    let* c_pages := cell cols 5 in
    let* c_publisher := cell cols 3 in
    let* isbn_text :=
      (if Nat.ltb 9 (length cols)
       then let* c_isbn := cell cols 9 in ret (strip (text c_isbn))
       else ret "") in
    let* c_link := cell cols 2 in
    let* href := lift_result (first_href c_link) in
    ret (Some {| BookData.title := strip (text c_title);
                 BookData.author := strip (text c_author);
                 BookData.year := strip (text c_year);
                 BookData.format := strip (text c_format);
                 BookData.size := strip (text c_size);
                 BookData.language := strip (text c_language);
                 BookData.pages := strip (text c_pages);
                 BookData.publisher := strip (text c_publisher);
                 BookData.isbn := isbn_text;
                 BookData.download_link := href |})
  else ret None.

Definition parse_row (cols : list Cell) : result (option BookData.t) :=
  fst (row_body cols []).

(** The indices of [cols] read while parsing it, in order. *)
Definition cells_read (cols : list Cell) : list nat :=
  snd (row_body cols []).

(** The [for] loop: [books] is the list built so far; an exception leaves
    the loop with the list as it stands. *)
Fixpoint parse_rows (rows : list Row) (books : list BookData.t)
  : list BookData.t * option exn :=
  match rows with
  | [] => (books, None)
  | row :: rest =>
      match parse_row row with
      | Ok (Some book) => parse_rows rest (books ++ [book])
      | Ok None => parse_rows rest books
      | Raise e => (books, Some e)
      end
  end.

(** [max_results + 1] as the stop of a slice: an [int] (or a [bool], which
    is one).  A float plus one is a float, which a slice refuses, and the
    other types refuse the addition: a [TypeError] either way. *)
Definition slice_stop (max_results : pyval) : result Z :=
  match max_results with
  | PyInt z => Ok (z + 1)%Z
  | PyBool b => Ok (Z.b2z b + 1)%Z
  | _ => Raise TypeError
  end.

Definition _extract_book_data : M state (list BookData.t) :=
  try_except
    (let* table := wait_until table_c in
     let* max_results := config_get "max_results" in
     let* stop := lift_result (slice_stop max_results) in
     let rows := py_slice table 1 stop in
     match parse_rows rows [] with
     | (books, None) => ret books
     | (books, Some e) =>
         let* _ := log_error "Data extraction error" e in
         ret books
     end)
    (fun e =>
       let* _ := log_error "Data extraction error" e in
       ret []).

Definition _create_dataframe (books : list BookData.t) : DataFrame := books.

(** [Path(v)] and [open(v, ...)] want a string. *)
Definition as_path (v : pyval) : result string :=
  match v with
  | PyStr s => Ok s
  | _ => Raise TypeError
  end.

(** [history.append(entry)]: only a list has the method. *)
Definition append (history entry : pyval) : result pyval :=
  match history with
  | PyList l => Ok (PyList (l ++ [entry]))
  | _ => Raise AttributeError
  end.

Definition history_entry (t : datetime) (search_term : string) (results_count : nat)
  : pyval :=
  PyDict (<["timestamp" := PyStr (isoformat t)]> (
          <["search_term" := PyStr search_term]> (
          <["results_count" := PyInt (Z.of_nat results_count)]> ∅))).

Definition _save_search_history (search_term : string) (results_count : nat)
  : M state unit :=
  let* history_file := config_get "search_history_file" in
  try_except
    (let* path := lift_result (as_path history_file) in
     let* there := gets (fun s => path_exists path (world s)) in
     let* history :=
       (if there : bool
        then let* c := in_world (read_file path) in lift_result (json_load c)
        else ret (PyList [])) in
     let* t := gets (fun s => now (world s)) in
     let* history' :=
       lift_result (append history (history_entry t search_term results_count)) in
     in_world (write_file path (json_dump history')))
    (fun e => log_error "Error saving search history" e).

(** [vars(book)], the row of the data frame for [book]. *)
Definition record_of (b : BookData.t) : pyval :=
  PyDict (<["title" := PyStr (BookData.title b)]> (
          <["author" := PyStr (BookData.author b)]> (
          <["year" := PyStr (BookData.year b)]> (
          <["format" := PyStr (BookData.format b)]> (
          <["size" := PyStr (BookData.size b)]> (
          <["language" := PyStr (BookData.language b)]> (
          <["pages" := PyStr (BookData.pages b)]> (
          <["publisher" := PyStr (BookData.publisher b)]> (
          <["isbn" := PyStr (BookData.isbn b)]> (
          <["download_link" :=
              match BookData.download_link b with
              | Some href => PyStr href
              | None => PyNone
              end]> ∅)))))))))).

(** The file types pandas has an Excel writer for. *)
Definition excel_writers : list string := ["xlsx"; "xlsm"; "ods"].

(** [df.to_excel(filename, index=False)]: a frame with more rows than a
    sheet can hold is refused; then the writer is chosen by the extension of
    the file name, and a name with any other extension is refused, both with
    a [ValueError] before anything is opened.  (A frame of records has ten
    columns.) *)
Definition to_excel (filename : string) (df : DataFrame) : M state unit :=
  let ext := extension filename in
  if (1048576 <? Z.of_nat (length df))%Z then
    raise (ValueError ("This sheet is too large! Your sheet size is: "
                       +:+ decimal (length df)
                       +:+ ", 10 Max sheet size is: 1048576, 16384"))
  else if existsb (String.eqb ext) excel_writers then
    in_world (write_file filename (ExcelDoc df))
  else
    raise (ValueError ("No engine for filetype: '" +:+ ext +:+ "'")).

(** The pandas writers put the table at [filename]; they fail when the
    file cannot be opened for writing. *)
Definition export_results (df : DataFrame) (format : string) : M state string :=
  let* t := gets (fun s => now (world s)) in
  let timestamp := strftime_compact t in
  let filename := "search_results_" +:+ timestamp +:+ "." +:+ format in
  try_except
    (let* _ :=
       (if String.eqb format "csv" then
          in_world (write_file filename (CsvDoc df))
        else if String.eqb format "excel" then
          to_excel filename df
        else if String.eqb format "json" then
          in_world (write_file filename (JsonDoc (PyList (map record_of df))))
        else
          raise (ValueError ("Unsupported export format: " +:+ format))) in
     ret filename)
    (fun e =>
       let* _ := log_error "Export error" e in
       raise e).

(** Clearing the query field and typing the term into it change nothing
    that is looked at later, except that the term is what gets submitted;
    [clicked] is the option the loop clicked, if any. *)
Definition search_books (search_term search_type : string) : M state DataFrame :=
  try_except
    (let* d := gets (fun s => driver (self s)) in
     let* _ := (if d is None then _initialize_driver else ret tt) in
     let* sid := the_driver in
     let* _ := navigate sid home in
     let* _ := _random_delay in
     let* _ := wait_until (fun p => present (query_input p)) in
     let* option_texts :=
       on_page sid (fun p => match type_options p with
                             | Some texts => Ok texts
                             | None => Raise NoSuchElementException
                             end) in
     let clicked := first_match search_type option_texts 0 in
     let* _ := wait_until (fun p => present (submit_button p)) in
     let* _ := navigate sid (fun site => submit site search_term clicked) in
     let* _ := _random_delay in
     let* books := _extract_book_data in
     let* _ := _save_search_history search_term (length books) in
     ret (_create_dataframe books))
    (fun e =>
       let* _ := log_error "Search error" e in
       raise e).

(** The sessions once session [sid] has ended. *)
Definition without_session (sid : nat) (l : list Session) : list Session :=
  match l !! sid with
  | Some ses => <[sid := {| live := false; options := options ses;
                            page := page ses |}]> l
  | None => l
  end.

(** [self.driver.quit()] ends the session; the field keeps the handle. *)
Definition quit (sid : nat) : M state unit :=
  in_world (modify (set_sessions (without_session sid))).

Definition close : M state unit :=
  let* d := gets (fun s => driver (self s)) in
  match d with
  | Some sid => quit sid
  | None => ret tt
  end.

End BookSearcher.

(** ** Notions of the specification *)

(** The records of the rows that parse, each row taken on its own: what an
    extraction that catches and skips at row granularity returns. *)
Definition successfully_parsed (rows : list Row) : list BookData.t :=
  omap (fun row => match BookSearcher.parse_row row with
                   | Ok (Some book) => Some book
                   | _ => None
                   end) rows.

(** A row whose parsing raises nothing: it gives a record or is passed over. *)
Definition parses (row : Row) : Prop :=
  match BookSearcher.parse_row row with
  | Ok _ => True
  | Raise _ => False
  end.

(** The stripped text of the cell at a position; empty when the row has no
    such position. *)
Definition field_at (cols : list Cell) (i : nat) : string :=
  match cols !! i with
  | Some c => strip (text c)
  | None => ""
  end.

(** The fixed column mapping of the specification: positions 1 to 9 are
    author, title, publisher, year, page count, language, size, format and
    isbn. *)
Definition column_mapping (cols : list Cell) (href : option string) : BookData.t :=
  {| BookData.author := field_at cols 1;
     BookData.title := field_at cols 2;
     BookData.publisher := field_at cols 3;
     BookData.year := field_at cols 4;
     BookData.pages := field_at cols 5;
     BookData.language := field_at cols 6;
     BookData.size := field_at cols 7;
     BookData.format := field_at cols 8;
     BookData.isbn := field_at cols 9;
     BookData.download_link := href |}.

(** The formats [export_results] has a branch for. *)
Definition supported_format (format : string) : bool :=
  String.eqb format "csv" || String.eqb format "excel" || String.eqb format "json".

(** The file extension the specification gives each format. *)
Definition spec_extension (format : string) : string :=
  if String.eqb format "excel" then "xlsx" else format.

(** ** Relations between the state before and after a method *)

(** A method preserves a relation between the state before and the state
    after when every run of it does, however it ends. *)
Definition preserves {S A} (R : S -> S -> Prop) (m : M S A) : Prop :=
  forall s r s', m s = (r, s') -> R s s'.

(** The searcher's fields are as they were and no session has been added. *)
Definition same_searcher (s s' : BookSearcher.state) : Prop :=
  BookSearcher.self s' = BookSearcher.self s /\
  length (sessions (BookSearcher.world s')) = length (sessions (BookSearcher.world s)).

(** The configuration is as it was. *)
Definition same_config (s s' : BookSearcher.state) : Prop :=
  BookSearcher.config (BookSearcher.self s') = BookSearcher.config (BookSearcher.self s).

(** The state [s] after document [c] has been written to [path]. *)
Definition with_file (s : BookSearcher.state) (path : string) (c : content)
  : BookSearcher.state :=
  {| BookSearcher.self := BookSearcher.self s;
     BookSearcher.world := set_fs (insert path (Readable c)) (BookSearcher.world s) |}.

(** The state [s] after an error has been logged. *)
Definition with_error (s : BookSearcher.state) (prefix : string) (e : exn)
  : BookSearcher.state :=
  {| BookSearcher.self := BookSearcher.self s;
     BookSearcher.world :=
       set_log (fun l => l ++ [LogError prefix e]) (BookSearcher.world s) |}.

(** The name [export_results] gives its file. *)
Definition export_filename (t : datetime) (format : string) : string :=
  "search_results_" +:+ strftime_compact t +:+ "." +:+ format.

(** ** Sample data *)

Definition a_cell (txt : string) : Cell := {| text := txt; anchors := [] |}.

Definition a_title_cell (txt href : string) : Cell :=
  {| text := txt; anchors := [Some href] |}.

(** A row of the result table as the site lays it out: id, author, title,
    publisher, year, pages, language, size, extension, and the mirror
    columns after them. *)
Definition dune_row : Row :=
  [ a_cell "101"; a_cell " Frank Herbert "; a_title_cell "Dune" "book/index.php?md5=AA";
    a_cell "Chilton"; a_cell "1965"; a_cell "412"; a_cell "English";
    a_cell "2 Mb"; a_cell "epub"; a_cell "[1]"; a_cell "[2]" ].

Definition emma_row : Row :=
  [ a_cell "102"; a_cell "Jane Austen"; a_title_cell "Emma" "book/index.php?md5=BB";
    a_cell "Murray"; a_cell "1815"; a_cell "474"; a_cell "English";
    a_cell "1 Mb"; a_cell "pdf"; a_cell "[1]" ].

(** Ten cells, but the title is plain text with no link. *)
Definition unlinked_row : Row :=
  [ a_cell "103"; a_cell "Anonymous"; a_cell "Beowulf";
    a_cell "Folio"; a_cell "1000"; a_cell "120"; a_cell "English";
    a_cell "1 Mb"; a_cell "txt"; a_cell "[1]" ].

(** Exactly nine cells: no position 9. *)
Definition nine_cell_row : Row :=
  [ a_cell "104"; a_cell "Homer"; a_title_cell "Iliad" "book/index.php?md5=CC";
    a_cell "Penguin"; a_cell "1950"; a_cell "500"; a_cell "Greek";
    a_cell "3 Mb"; a_cell "djvu" ].

(** Exactly nine cells and no link in the title cell. *)
Definition nine_cell_unlinked_row : Row :=
  [ a_cell "105"; a_cell "Virgil"; a_cell "Aeneid";
    a_cell "Penguin"; a_cell "1956"; a_cell "400"; a_cell "Latin";
    a_cell "2 Mb"; a_cell "pdf" ].

Definition short_row : Row :=
  [ a_cell "106"; a_cell "x"; a_cell "y"; a_cell "z"; a_cell "w" ].

Definition header_row : Row :=
  [ a_cell "ID"; a_cell "Author(s)"; a_cell "Title"; a_cell "Publisher";
    a_cell "Year"; a_cell "Pages"; a_cell "Language"; a_cell "Size";
    a_cell "Extension"; a_cell "Mirrors" ].

Definition front_page : Page :=
  {| query_input := true;
     type_options := Some ["Title"; "Author(s)"; "Series"; "ISBN"];
     submit_button := true;
     table_c := None |}.

Definition results_page (rows : list Row) : Page :=
  {| query_input := true;
     type_options := Some ["Title"; "Author(s)"; "Series"; "ISBN"];
     submit_button := true;
     table_c := Some (header_row :: rows) |}.

(** A site that answers every query with the same table. *)
Definition site_with (rows : list Row) : Site :=
  {| home := front_page; submit := fun _ _ => results_page rows |}.

Definition a_clock : datetime :=
  {| dt_year := 2026; dt_month := 11; dt_day := 3;
     dt_hour := 10; dt_minute := 15; dt_second := 30; dt_microsecond := 0 |}.

Definition world_with (files : gmap string file) (rows : list Row) : World :=
  {| fs := files; log := []; sessions := []; now := a_clock; site := site_with rows;
     place := fun _ => Creatable |}.

(** A working directory with no subdirectories: a path with a slash in it
    names a file in a directory that is not there. *)
Definition flat_directory (path : string) : creation :=
  if contains "/" path then NoDirectory else Creatable.

Definition flat_world (files : gmap string file) : World :=
  {| fs := files; log := []; sessions := []; now := a_clock; site := site_with [];
     place := flat_directory |}.

(** A working directory the process may not write to. *)
Definition read_only_world (files : gmap string file) : World :=
  {| fs := files; log := []; sessions := []; now := a_clock; site := site_with [];
     place := fun _ => ReadOnlyDirectory |}.

Definition default_manager : ConfigManager.t :=
  {| ConfigManager.config_file := "config.json";
     ConfigManager.config := ConfigManager.DEFAULT_CONFIG |}.

(** A searcher that has not searched yet, in front of a site. *)
Definition fresh_state (rows : list Row) : BookSearcher.state :=
  {| BookSearcher.self := BookSearcher.__init__ default_manager;
     BookSearcher.world := world_with ∅ rows |}.

(** A searcher looking at a result page in a live session. *)
Definition on_results (cm : ConfigManager.t) (rows : list Row) : BookSearcher.state :=
  {| BookSearcher.self :=
       {| BookSearcher.config := cm;
          BookSearcher.driver := Some 0;
          BookSearcher.wait := Some (0, ConfigManager.get cm "timeout") |};
     BookSearcher.world :=
       {| fs := ∅; log := [];
          sessions := [ {| live := true;
                           options := {| opt_headless := false;
                                         opt_images_disabled := true;
                                         opt_user_agent := PyStr "Mozilla/5.0" |};
                           page := results_page rows |} ];
          now := a_clock; site := site_with rows;
          place := fun _ => Creatable |} |}.

(** A searcher whose history file holds the given entries. *)
Definition with_history (entries : list pyval) : BookSearcher.state :=
  {| BookSearcher.self := BookSearcher.__init__ default_manager;
     BookSearcher.world :=
       world_with {[ "search_history.json" := Readable (JsonDoc (PyList entries)) ]} [] |}.

Definition partial_override : gmap string pyval :=
  <["max_results" := PyInt 5]> (
  <["browser_options" := PyDict (<["headless" := PyBool true]> ∅)]> ∅).


(** ** Further notions used below *)

(** The document [export_results] writes in the "csv" and in the "json"
    format: the table itself, or the array of its records. *)
Definition export_document (df : DataFrame) (format : string) : content :=
  if String.eqb format "csv" then CsvDoc df
  else JsonDoc (PyList (map BookSearcher.record_of df)).

(** The browser options [_initialize_driver] reads are all there:
    ["browser_options"] is a dict with the three keys. *)
Definition complete_options (v : pyval) : Prop :=
  exists (sub : gmap string pyval) (headless images agent : pyval),
    v = PyDict sub /\
    sub !! "headless" = Some headless /\
    sub !! "disable_images" = Some images /\
    sub !! "user_agent" = Some agent.

(** Between two states: the files, the log, the clock, the site, the
    configuration and the directories are the same (the sessions and the
    handle may differ). *)
Definition same_outside (s s' : BookSearcher.state) : Prop :=
  fs (BookSearcher.world s') = fs (BookSearcher.world s) /\
  log (BookSearcher.world s') = log (BookSearcher.world s) /\
  now (BookSearcher.world s') = now (BookSearcher.world s) /\
  site (BookSearcher.world s') = site (BookSearcher.world s) /\
  BookSearcher.config (BookSearcher.self s') = BookSearcher.config (BookSearcher.self s) /\
  place (BookSearcher.world s') = place (BookSearcher.world s).

(** Between two states: the files, the clock, the configuration and the
    directories are the same (the log, the sessions and the handle may
    differ). *)
Definition same_disk (s s' : BookSearcher.state) : Prop :=
  fs (BookSearcher.world s') = fs (BookSearcher.world s) /\
  now (BookSearcher.world s') = now (BookSearcher.world s) /\
  BookSearcher.config (BookSearcher.self s') = BookSearcher.config (BookSearcher.self s) /\
  place (BookSearcher.world s') = place (BookSearcher.world s).

(** A method whose exceptions leave the states related by [R]. *)
Definition raises_within {S A} (R : S -> S -> Prop) (m : M S A) : Prop :=
  forall s e s', m s = (Raise e, s') -> R s s'.

(** A searcher with a live session, in front of a site whose front page
    has no search form. *)
Definition formless_state : BookSearcher.state :=
  {| BookSearcher.self := BookSearcher.self (on_results default_manager []);
     BookSearcher.world :=
       {| fs := ∅; log := [];
          sessions := sessions (BookSearcher.world (on_results default_manager []));
          now := a_clock;
          site := {| home := blank_page; submit := fun _ _ => blank_page |};
          place := fun _ => Creatable |} |}.

(** ** The interactive loop: [main]

    The keyboard is a list of events, one per call of [input()]: a line
    typed, or an interrupt (Ctrl-C) at the prompt; when the list is used up
    the input is at its end and [input()] raises [EOFError].  What is
    printed is kept as a list, with the prompts of [input()] among it; the
    rendering of the result table by pandas and of an exception by [str]
    are kept as the data frame and the exception themselves. *)

Inductive keyboard :=
| Line (s : string)
| Interrupt.

(** What can end the [try] block of [main]: an exception of the searcher,
    the end of the input, or an interrupt. *)
Inductive signal :=
| Exception (e : exn)
| EOFError
| KeyboardInterrupt.

Inductive printed :=
| Text (s : string)
| Prompt (s : string)
| Table (df : DataFrame)
| Failure (sig : signal).

Record process := {
  searcher : BookSearcher.state;
  stdin : list keyboard;
  stdout : list printed
}.

Definition nl : string := String (ascii_of_nat 10) EmptyString.

Definition print (x : printed) (p : process) : process :=
  {| searcher := searcher p; stdin := stdin p; stdout := stdout p ++ [x] |}.

(** [input(prompt)] *)
Definition input (prompt : string) (p : process) : (string + signal) * process :=
  let p := print (Prompt prompt) p in
  match stdin p with
  | [] => (inr EOFError, p)
  | Interrupt :: rest =>
      (inr KeyboardInterrupt,
       {| searcher := searcher p; stdin := rest; stdout := stdout p |})
  | Line s :: rest =>
      (inl s, {| searcher := searcher p; stdin := rest; stdout := stdout p |})
  end.

(** A method of the searcher, run by the process. *)
Definition call {A} (m : M BookSearcher.state A) (p : process) : result A * process :=
  let (r, s') := m (searcher p) in
  (r, {| searcher := s'; stdin := stdin p; stdout := stdout p |}).

Definition print_menu (p : process) : process :=
  print (Text "5. Exit") (
  print (Text "4. Export Last Results") (
  print (Text "3. Search by ISBN") (
  print (Text "2. Search by Author") (
  print (Text "1. Search by Title") (
  print (Text (nl +:+ "=== Book Search Tool ===")) p))))).

(** [{"1": "title", "2": "author", "3": "isbn"}] *)
Definition search_types : gmap string string :=
  <["1" := "title"]> (<["2" := "author"]> (<["3" := "isbn"]> ∅)).

(** How the [while True] loop is left: by [break], or by an exception. *)
Inductive loop_end :=
| Break
| Stop (sig : signal).

(** The two places that ask for a format and export: [results] is the data
    frame to write.  [Some p] when the loop goes on. *)
Definition ask_and_export (results : DataFrame) (p : process)
  : (process + signal * process) :=
  match input "Enter export format (csv/excel/json): " p with
  | (inr sig, p) => inr (sig, p)
  | (inl format_choice, p) =>
      match call (BookSearcher.export_results results format_choice) p with
      | (Raise e, p) => inr (Exception e, p)
      | (Ok filename, p) => inl (print (Text ("Results exported to " +:+ filename)) p)
      end
  end.

(** The loop, with [results] the local variable of that name ([None] while
    it is unbound).  Every turn reads from the keyboard, so [fuel] turns are
    enough for a keyboard of fewer than [fuel] events; [None] means the fuel
    ran out. *)
Fixpoint menu_loop (fuel : nat) (results : option DataFrame) (p : process)
  : option (loop_end * process) :=
  match fuel with
  | O => None
  | S fuel =>
      let p := print_menu p in
      match input (nl +:+ "Enter your choice (1-5): ") p with
      | (inr sig, p) => Some (Stop sig, p)
      | (inl choice, p) =>
          if String.eqb choice "5" then Some (Break, p)
          else if existsb (String.eqb choice) ["1"; "2"; "3"] then
            match input "Enter search term: " p with
            | (inr sig, p) => Some (Stop sig, p)
            | (inl search_term, p) =>
                match search_types !! choice with
                | None => Some (Stop (Exception (KeyError choice)), p)
                | Some search_type =>
                    let p := print (Text (nl +:+ "Searching... Please wait..." +:+ nl)) p in
                    match call (BookSearcher.search_books search_term search_type) p with
                    | (Raise e, p) => Some (Stop (Exception e), p)
                    | (Ok df, p) =>
                        match df with
                        | [] =>
                            menu_loop fuel (Some df) (print (Text "No results found.") p)
                        | _ :: _ =>
                            let p := print (Text (nl +:+ "Search Results:")) p in
                            let p := print (Table df) p in
                            match input (nl +:+ "Would you like to export results? (y/n): ") p with
                            | (inr sig, p) => Some (Stop sig, p)
                            | (inl export, p) =>
                                if String.eqb (lower export) "y" then
                                  match ask_and_export df p with
                                  | inr (sig, p) => Some (Stop sig, p)
                                  | inl p => menu_loop fuel (Some df) p
                                  end
                                else menu_loop fuel (Some df) p
                            end
                        end
                    end
                end
            end
          else if String.eqb choice "4" then
            match results with
            | Some df =>
                match ask_and_export df p with
                | inr (sig, p) => Some (Stop sig, p)
                | inl p => menu_loop fuel results p
                end
            | None =>
                menu_loop fuel results (print (Text "No results available to export.") p)
            end
          else menu_loop fuel results p
      end
  end.

(** How [main] ends: the construction of the configuration manager raised
    before the [try] block was entered, or [main] returned. *)
Inductive main_end :=
| Crashed (e : exn) (w : World)
| Finished (p : process).

(** The handlers and the [finally] clause of [main]. *)
Definition leave (how : loop_end) (p : process) : process :=
  let p := match how with
           | Break => p
           | Stop KeyboardInterrupt => print (Text (nl +:+ "Program terminated by user.")) p
           | Stop sig => print (Failure sig) p
           end in
  snd (call BookSearcher.close p).

(** [main()], started in world [w] with [keys] waiting on the keyboard. *)
Definition main (w : World) (keys : list keyboard) : option main_end :=
  match ConfigManager.__init__ "config.json" w with
  | (Raise e, w') => Some (Crashed e w')
  | (Ok config_manager, w') =>
      let p := {| searcher := {| BookSearcher.self := BookSearcher.__init__ config_manager;
                                 BookSearcher.world := w' |};
                  stdin := keys; stdout := [] |} in
      match menu_loop (S (length keys)) None p with
      | None => None
      | Some (how, p) => Some (Finished (leave how p))
      end
  end.

(** The searcher has launched no session, or it holds the handle of the one
    session there is. *)
Definition one_session (s : BookSearcher.state) : Prop :=
  (BookSearcher.driver (BookSearcher.self s) = None /\
   sessions (BookSearcher.world s) = []) \/
  (BookSearcher.driver (BookSearcher.self s) = Some 0 /\
   length (sessions (BookSearcher.world s)) = 1).
(** ** Properties of [ConfigManager] *)

Section ConfigLoad.

Variable path : string.

Lemma load_config_object (w : World) (d : gmap string pyval) :
  fs w !! path = Some (Readable (JsonDoc (PyDict d))) ->
  ConfigManager._load_config path w = (Ok (d ∪ ConfigManager.DEFAULT_CONFIG), w).
Proof.
  intros Hfile.
  unfold ConfigManager._load_config, try_except, bind, read_file.
  rewrite Hfile. reflexivity.
Qed.

Lemma write_file_can (c : content) (w : World) :
  can_write path w = true ->
  write_file path c w = (Ok tt, set_fs (insert path (Readable c)) w).
Proof.
  unfold can_write, write_file.
  destruct (fs w !! path) as [ [ | c0 ] | ]; try discriminate; try reflexivity.
  destruct (place w path); try discriminate; reflexivity.
Qed.

Lemma write_file_cannot (c : content) (w : World) :
  can_write path w = false ->
  exists e, write_file path c w = (Raise e, w) /\
            (e = PermissionError path \/ e = FileNotFoundError path).
Proof.
  unfold can_write, write_file.
  destruct (fs w !! path) as [ [ | c0 ] | ]; try discriminate.
  - intros _. exists (PermissionError path). split; [ reflexivity | now left ].
  - destruct (place w path); try discriminate; intros _.
    + exists (FileNotFoundError path). split; [ reflexivity | now right ].
    + exists (PermissionError path). split; [ reflexivity | now left ].
Qed.

Lemma load_config_absent (w : World) :
  fs w !! path = None ->
  place w path = Creatable ->
  ConfigManager._load_config path w =
    (Ok ConfigManager.DEFAULT_CONFIG,
     set_fs (insert path (Readable (json_dump (PyDict ConfigManager.DEFAULT_CONFIG)))) w).
Proof.
  intros Hfile Hplace.
  unfold ConfigManager._load_config, try_except, bind, read_file.
  rewrite Hfile.
  unfold ConfigManager._save_config.
  rewrite write_file_can by (unfold can_write; now rewrite Hfile, Hplace).
  reflexivity.
Qed.

Lemma load_config_uncreatable (w : World) :
  fs w !! path = None ->
  place w path <> Creatable ->
  exists e, ConfigManager._load_config path w = (Raise e, w) /\
            (e = PermissionError path \/ e = FileNotFoundError path).
Proof.
  intros Hfile Hplace.
  unfold ConfigManager._load_config, try_except, bind, read_file.
  rewrite Hfile.
  unfold ConfigManager._save_config.
  destruct (write_file_cannot (json_dump (PyDict ConfigManager.DEFAULT_CONFIG)) w)
    as (e & -> & He).
  - unfold can_write. rewrite Hfile.
    destruct (place w path); [ now contradict Hplace | reflexivity | reflexivity ].
  - now exists e.
Qed.

Lemma load_config_denied (w : World) :
  fs w !! path = Some Denied ->
  ConfigManager._load_config path w = (Raise (PermissionError path), w).
Proof.
  intros Hfile.
  unfold ConfigManager._load_config, try_except, bind, read_file.
  rewrite Hfile. reflexivity.
Qed.

Lemma load_config_not_json (w : World) (c : content) :
  fs w !! path = Some (Readable c) ->
  (forall v, c <> JsonDoc v) ->
  ConfigManager._load_config path w = (Raise JSONDecodeError, w).
Proof.
  intros Hfile Hc.
  unfold ConfigManager._load_config, try_except, bind, read_file.
  rewrite Hfile.
  destruct c; try reflexivity.
  exfalso. eapply Hc. reflexivity.
Qed.

Lemma load_config_not_object (w : World) (v : pyval) :
  fs w !! path = Some (Readable (JsonDoc v)) ->
  (forall d, v <> PyDict d) ->
  ConfigManager._load_config path w = (Raise TypeError, w).
Proof.
  intros Hfile Hv.
  unfold ConfigManager._load_config, try_except, bind, read_file.
  rewrite Hfile.
  destruct v; try reflexivity.
  exfalso. eapply Hv. reflexivity.
Qed.

End ConfigLoad.

(** C3. For a configuration file that holds a JSON object, [_load_config]
    returns the defaults overlaid by the object: every top-level key of the
    override has the override's value, every other key has its default.  The
    overlay is shallow: the value loaded for ["browser_options"] is the
    override's object as it stands, so a key the override's object leaves
    out is missing from the loaded one, whatever the default had there. *)
Theorem load_config_overlays_defaults
    (path : string) (w : World) (override : gmap string pyval) :
  fs w !! path = Some (Readable (JsonDoc (PyDict override))) ->
  exists cfg : gmap string pyval,
    ConfigManager._load_config path w = (Ok cfg, w) /\
    (forall k v, override !! k = Some v -> cfg !! k = Some v) /\
    (forall k, override !! k = None ->
               cfg !! k = ConfigManager.DEFAULT_CONFIG !! k) /\
    (forall sub : gmap string pyval,
        override !! "browser_options" = Some (PyDict sub) ->
        cfg !! "browser_options" = Some (PyDict sub) /\
        forall key, sub !! key = None ->
                    BookSearcher.subscript (PyDict sub) key = Raise (KeyError key)).
Proof.
  intros Hfile.
  exists (override ∪ ConfigManager.DEFAULT_CONFIG).
  split; [ now apply load_config_object | ].
  split; [ | split ].
  - intros k v Hk. now apply lookup_union_Some_l.
  - intros k Hk. now apply lookup_union_r.
  - intros sub Hsub. split.
    + now apply lookup_union_Some_l.
    + intros key Hkey. simpl. now rewrite Hkey.
Qed.

(** An override that caps the results at 5 and gives a one-key
    ["browser_options"]: the loaded configuration keeps the default timeout
    and has lost ["disable_images"] and ["user_agent"]. *)
Lemma load_config_overlays_defaults_witness :
  exists cfg : gmap string pyval,
    ConfigManager._load_config "config.json"
      (world_with {[ "config.json" := Readable (JsonDoc (PyDict partial_override)) ]} [])
    = (Ok cfg,
       world_with {[ "config.json" := Readable (JsonDoc (PyDict partial_override)) ]} [])
    /\ (forall k v, partial_override !! k = Some v -> cfg !! k = Some v)
    /\ (forall k, partial_override !! k = None ->
                  cfg !! k = ConfigManager.DEFAULT_CONFIG !! k)
    /\ (forall sub : gmap string pyval,
          partial_override !! "browser_options" = Some (PyDict sub) ->
          cfg !! "browser_options" = Some (PyDict sub) /\
          forall key, sub !! key = None ->
                      BookSearcher.subscript (PyDict sub) key = Raise (KeyError key)).
Proof.
  apply (load_config_overlays_defaults "config.json"
           (world_with {[ "config.json" := Readable (JsonDoc (PyDict partial_override)) ]} [])
           partial_override).
  reflexivity.
Defined.

(** What [json.dump] writes for the defaults and [json.load] reads back:
    the defaults, with the tuple of ["wait_time"] turned into a list. *)
Lemma jsonify_defaults :
  jsonify (PyDict ConfigManager.DEFAULT_CONFIG)
  = PyDict (<["wait_time" := PyList [PyInt 1; PyInt 3]]> ConfigManager.DEFAULT_CONFIG).
Proof. vm_compute. reflexivity. Qed.

(** C4, as the code has it.  When the configuration file does not exist and
    its directory lets it be created, [_load_config] creates it holding the
    default configuration (as JSON) and returns the defaults; when it
    cannot be created, the error of opening it for writing propagates and
    nothing is written.  When the file exists but cannot be opened, or its
    text is not JSON, the error is not caught: the caller gets the
    [PermissionError] or the [JSONDecodeError] and no configuration, and
    nothing is written; likewise the [TypeError] for a JSON document that is
    not an object. *)
Theorem load_config_missing_or_unreadable (path : string) :
  (forall w, fs w !! path = None -> place w path = Creatable ->
     ConfigManager._load_config path w =
       (Ok ConfigManager.DEFAULT_CONFIG,
        set_fs (insert path
                  (Readable (JsonDoc (PyDict (<["wait_time" := PyList [PyInt 1; PyInt 3]]>
                                                ConfigManager.DEFAULT_CONFIG))))) w))
  /\
  (forall w, fs w !! path = None -> place w path <> Creatable ->
     exists e, ConfigManager._load_config path w = (Raise e, w) /\
               (e = PermissionError path \/ e = FileNotFoundError path))
  /\
  (forall w, fs w !! path = Some Denied ->
     ConfigManager._load_config path w = (Raise (PermissionError path), w))
  /\
  (forall w c, fs w !! path = Some (Readable c) ->
     (forall v, c <> JsonDoc v) ->
     ConfigManager._load_config path w = (Raise JSONDecodeError, w))
  /\
  (forall w v, fs w !! path = Some (Readable (JsonDoc v)) ->
     (forall d, v <> PyDict d) ->
     ConfigManager._load_config path w = (Raise TypeError, w)).
Proof.
  split; [ | split; [ | split; [ | split ] ] ].
  - intros w Hfile Hplace.
    rewrite load_config_absent by assumption.
    unfold json_dump. now rewrite jsonify_defaults.
  - intros w Hfile Hplace. now apply load_config_uncreatable.
  - intros w Hfile. now apply load_config_denied.
  - intros w c Hfile Hc. now apply (load_config_not_json path w c).
  - intros w v Hfile Hv. now apply (load_config_not_object path w v).
Qed.

(** A first run in an empty directory, a configuration file the process
    may not read, and one that holds text that is not JSON. *)
Lemma load_config_missing_or_unreadable_witness :
  ConfigManager._load_config "config.json" (world_with ∅ []) =
    (Ok ConfigManager.DEFAULT_CONFIG,
     set_fs (insert "config.json"
               (Readable (JsonDoc (PyDict (<["wait_time" := PyList [PyInt 1; PyInt 3]]>
                                             ConfigManager.DEFAULT_CONFIG)))))
            (world_with ∅ []))
  /\
  ConfigManager._load_config "config.json"
    (world_with {[ "config.json" := Denied ]} []) =
    (Raise (PermissionError "config.json"),
     world_with {[ "config.json" := Denied ]} [])
  /\
  ConfigManager._load_config "config.json"
    (world_with {[ "config.json" := Readable (Garbage "{max_results: ") ]} []) =
    (Raise JSONDecodeError,
     world_with {[ "config.json" := Readable (Garbage "{max_results: ") ]} []).
Proof.
  destruct (load_config_missing_or_unreadable "config.json")
    as (Habsent & _ & Hdenied & Hgarbage & _).
  split; [ | split ].
  - apply Habsent; reflexivity.
  - apply Hdenied. reflexivity.
  - apply (Hgarbage _ (Garbage "{max_results: ")); [ reflexivity | discriminate ].
Defined.

(** The claim as it is written fails when the file cannot be created: with
    no directory [nodir], loading [nodir/config.json] raises the
    [FileNotFoundError] of the write, returns no defaults and creates no
    file. *)
Lemma missing_directory_gives_no_config :
  fs (flat_world ∅) !! "nodir/config.json" = None /\
  ConfigManager._load_config "nodir/config.json" (flat_world ∅)
  = (Raise (FileNotFoundError "nodir/config.json"), flat_world ∅).
Proof. split; reflexivity. Qed.

(** ** Properties of row parsing *)

(** A row of nine cells or more, cell by cell. *)
Lemma long_row_shape (cols : list Cell) :
  9 <= length cols ->
  exists c0 c1 c2 c3 c4 c5 c6 c7 c8 rest,
    cols = c0 :: c1 :: c2 :: c3 :: c4 :: c5 :: c6 :: c7 :: c8 :: rest.
Proof.
  intros Hlen.
  do 9 (destruct cols as [ | ? cols ]; [ simpl in Hlen; lia | ]).
  repeat eexists.
Qed.

Lemma parse_row_short (cols : list Cell) :
  length cols < 9 -> BookSearcher.parse_row cols = Ok None.
Proof.
  intros Hlen.
  unfold BookSearcher.parse_row, BookSearcher.row_body.
  destruct (Nat.leb_spec 9 (length cols)) as [ Hge | _ ]; [ lia | reflexivity ].
Qed.

Lemma parse_row_linked (cols : list Cell) (title_cell : Cell)
    (href : option string) (more : list (option string)) :
  9 <= length cols ->
  cols !! 2 = Some title_cell ->
  anchors title_cell = href :: more ->
  BookSearcher.parse_row cols = Ok (Some (column_mapping cols href)).
Proof.
  intros Hlen Htitle Hanchor.
  destruct (long_row_shape cols Hlen)
    as (c0 & c1 & c2 & c3 & c4 & c5 & c6 & c7 & c8 & rest & ->).
  simpl in Htitle. injection Htitle as ->.
  unfold BookSearcher.parse_row, BookSearcher.row_body, column_mapping, field_at.
  destruct rest as [ | c9 rest ]; cbn;
    unfold BookSearcher.first_href; rewrite Hanchor; reflexivity.
Qed.

Lemma parse_row_unlinked (cols : list Cell) (title_cell : Cell) :
  9 <= length cols ->
  cols !! 2 = Some title_cell ->
  anchors title_cell = [] ->
  BookSearcher.parse_row cols = Raise NoSuchElementException.
Proof.
  intros Hlen Htitle Hanchor.
  destruct (long_row_shape cols Hlen)
    as (c0 & c1 & c2 & c3 & c4 & c5 & c6 & c7 & c8 & rest & ->).
  simpl in Htitle. injection Htitle as ->.
  unfold BookSearcher.parse_row, BookSearcher.row_body.
  destruct rest as [ | c9 rest ]; cbn;
    unfold BookSearcher.first_href; rewrite Hanchor; reflexivity.
Qed.

(** Parsing never reads past the end of a row. *)
Lemma parse_row_no_index_error (cols : list Cell) :
  BookSearcher.parse_row cols <> Raise IndexError.
Proof.
  destruct (Nat.lt_ge_cases (length cols) 9) as [ Hshort | Hlong ].
  - rewrite parse_row_short by exact Hshort. discriminate.
  - destruct (long_row_shape cols Hlong)
      as (c0 & c1 & c2 & c3 & c4 & c5 & c6 & c7 & c8 & rest & ->).
    destruct (anchors c2) as [ | href more ] eqn:Hanchor.
    + erewrite parse_row_unlinked; [ discriminate | exact Hlong | reflexivity | exact Hanchor ].
    + erewrite parse_row_linked; [ discriminate | exact Hlong | reflexivity | exact Hanchor ].
Qed.

(** C2, as amended.  A row with fewer than 9 cells is passed over without
    an exception, and the loop goes on with the list of records unchanged.
    A row with at least 9 cells whose title cell holds an anchor gives the
    record of the fixed column mapping: positions 1 to 9 are author, title,
    publisher, year, pages, language, size, format and isbn (each the
    stripped text of its cell, the isbn empty when the row has no position
    9), and the download link is the [href] of the first anchor of the title
    cell. *)
Theorem parse_row_column_mapping (cols : list Cell) :
  (length cols < 9 ->
     BookSearcher.parse_row cols = Ok None /\
     forall rest books,
       BookSearcher.parse_rows (cols :: rest) books = BookSearcher.parse_rows rest books)
  /\
  (9 <= length cols ->
     forall title_cell href more,
       cols !! 2 = Some title_cell ->
       anchors title_cell = href :: more ->
       BookSearcher.parse_row cols = Ok (Some (column_mapping cols href)) /\
       forall rest books,
         BookSearcher.parse_rows (cols :: rest) books =
         BookSearcher.parse_rows rest (books ++ [column_mapping cols href])).
Proof.
  split.
  - intros Hlen. split; [ now apply parse_row_short | ].
    intros rest books. simpl. now rewrite parse_row_short.
  - intros Hlen title_cell href more Htitle Hanchor.
    pose proof (parse_row_linked cols title_cell href more Hlen Htitle Hanchor) as Hrow.
    split; [ exact Hrow | ].
    intros rest books. simpl. now rewrite Hrow.
Qed.

(** A five-cell row is passed over; a ten-cell row with a linked title is
    mapped column by column. *)
Lemma parse_row_column_mapping_witness :
  (BookSearcher.parse_row short_row = Ok None /\
   forall rest books,
     BookSearcher.parse_rows (short_row :: rest) books = BookSearcher.parse_rows rest books)
  /\
  (BookSearcher.parse_row emma_row =
     Ok (Some (column_mapping emma_row (Some "book/index.php?md5=BB"))) /\
   forall rest books,
     BookSearcher.parse_rows (emma_row :: rest) books =
     BookSearcher.parse_rows rest
       (books ++ [column_mapping emma_row (Some "book/index.php?md5=BB")])).
Proof.
  split.
  - apply (proj1 (parse_row_column_mapping short_row)). simpl. lia.
  - apply (proj2 (parse_row_column_mapping emma_row)) with
      (title_cell := a_title_cell "Emma" "book/index.php?md5=BB") (more := []).
    + simpl. lia.
    + reflexivity.
    + reflexivity.
Defined.

(** C2, as stated, fails: this row has ten cells, yet parsing it raises
    [NoSuchElementException] and no record comes out of it, because its
    title cell holds no anchor. *)
Lemma unlinked_row_gives_no_record :
  9 <= length unlinked_row /\
  BookSearcher.parse_row unlinked_row = Raise NoSuchElementException /\
  ~ (exists book, BookSearcher.parse_row unlinked_row = Ok (Some book)).
Proof.
  split; [ simpl; lia | ].
  split; [ reflexivity | ].
  intros [ book Hbook ]. vm_compute in Hbook. discriminate Hbook.
Qed.

(** C9, as amended.  Parsing a row of exactly 9 cells reads positions
    2, 1, 4, 8, 7, 6, 5, 3 and 2 again, all of them in bounds; position 9 is
    not read and no [IndexError] is raised.  When the title cell holds an
    anchor a record is built, and its isbn is the empty string. *)
Theorem nine_cells_read_in_bounds (cols : list Cell) :
  length cols = 9 ->
  BookSearcher.cells_read cols = [2; 1; 4; 8; 7; 6; 5; 3; 2] /\
  Forall (fun i => (1 <= i <= 8) /\ is_Some (cols !! i)) (BookSearcher.cells_read cols) /\
  (forall i, 1 <= i <= 8 -> i ∈ BookSearcher.cells_read cols) /\
  (9 ∉ BookSearcher.cells_read cols) /\
  BookSearcher.parse_row cols <> Raise IndexError /\
  (forall title_cell href more,
     cols !! 2 = Some title_cell ->
     anchors title_cell = href :: more ->
     exists book,
       BookSearcher.parse_row cols = Ok (Some book) /\
       BookData.isbn book = "" /\
       BookData.download_link book = href).
Proof.
  intros Hlen.
  assert (Hshape : exists c0 c1 c2 c3 c4 c5 c6 c7 c8,
             cols = [c0; c1; c2; c3; c4; c5; c6; c7; c8]).
  { destruct (long_row_shape cols) as (c0 & c1 & c2 & c3 & c4 & c5 & c6 & c7 & c8 & rest & ->);
      [ lia | ].
    destruct rest; [ | simpl in Hlen; lia ].
    repeat eexists. }
  destruct Hshape as (c0 & c1 & c2 & c3 & c4 & c5 & c6 & c7 & c8 & ->).
  assert (Hreads : BookSearcher.cells_read [c0; c1; c2; c3; c4; c5; c6; c7; c8]
                   = [2; 1; 4; 8; 7; 6; 5; 3; 2]).
  { unfold BookSearcher.cells_read, BookSearcher.row_body. cbn.
    destruct (BookSearcher.first_href c2); reflexivity. }
  split; [ exact Hreads | ].
  rewrite Hreads.
  split; [ | split; [ | split; [ | split ] ] ].
  - repeat constructor; simpl; eauto.
  - intros i Hi. rewrite !elem_of_cons. lia.
  - rewrite !elem_of_cons, elem_of_nil. lia.
  - apply parse_row_no_index_error.
  - intros title_cell href more Htitle Hanchor.
    exists (column_mapping [c0; c1; c2; c3; c4; c5; c6; c7; c8] href).
    split; [ | split; reflexivity ].
    eapply parse_row_linked; [ simpl; lia | exact Htitle | exact Hanchor ].
Qed.

Lemma nine_cells_read_in_bounds_witness :
  BookSearcher.cells_read nine_cell_row = [2; 1; 4; 8; 7; 6; 5; 3; 2] /\
  Forall (fun i => (1 <= i <= 8) /\ is_Some (nine_cell_row !! i))
         (BookSearcher.cells_read nine_cell_row) /\
  (forall i, 1 <= i <= 8 -> i ∈ BookSearcher.cells_read nine_cell_row) /\
  (9 ∉ BookSearcher.cells_read nine_cell_row) /\
  BookSearcher.parse_row nine_cell_row <> Raise IndexError /\
  (forall title_cell href more,
     nine_cell_row !! 2 = Some title_cell ->
     anchors title_cell = href :: more ->
     exists book,
       BookSearcher.parse_row nine_cell_row = Ok (Some book) /\
       BookData.isbn book = "" /\
       BookData.download_link book = href).
Proof.
  apply (nine_cells_read_in_bounds nine_cell_row). reflexivity.
Defined.

(** C9, as stated, fails: this row has exactly nine cells and no record is
    built from it, because its title cell holds no anchor.  (No read is out
    of bounds all the same.) *)
Lemma nine_cell_unlinked_row_gives_no_record :
  length nine_cell_unlinked_row = 9 /\
  BookSearcher.parse_row nine_cell_unlinked_row = Raise NoSuchElementException /\
  ~ (exists book, BookSearcher.parse_row nine_cell_unlinked_row = Ok (Some book)).
Proof.
  split; [ reflexivity | ].
  split; [ reflexivity | ].
  intros [ book Hbook ]. vm_compute in Hbook. discriminate Hbook.
Qed.

(** ** Properties of extraction *)

Lemma parse_rows_clean (rows : list Row) (books : list BookData.t) :
  Forall parses rows ->
  BookSearcher.parse_rows rows books = (books ++ successfully_parsed rows, None).
Proof.
  intros Hrows. revert books.
  induction Hrows as [ | row rows Hrow _ IH ]; intros books.
  - simpl. now rewrite app_nil_r.
  - unfold parses in Hrow. unfold successfully_parsed. simpl.
    destruct (BookSearcher.parse_row row) as [ [ book | ] | e ]; [ | | contradiction ].
    + rewrite IH. unfold successfully_parsed. now rewrite <- app_assoc.
    + apply IH.
Qed.

Lemma parse_rows_failure (before after : list Row) (bad : Row)
    (books : list BookData.t) (e : exn) :
  Forall parses before ->
  BookSearcher.parse_row bad = Raise e ->
  BookSearcher.parse_rows (before ++ bad :: after) books
  = (books ++ successfully_parsed before, Some e).
Proof.
  intros Hbefore Hbad. revert books.
  induction Hbefore as [ | row rows Hrow _ IH ]; intros books.
  - simpl. rewrite Hbad. now rewrite app_nil_r.
  - unfold parses in Hrow. unfold successfully_parsed. simpl.
    destruct (BookSearcher.parse_row row) as [ [ book | ] | e' ]; [ | | contradiction ].
    + rewrite IH. unfold successfully_parsed. now rewrite <- app_assoc.
    + apply IH.
Qed.



Section Extraction.

Variable s : BookSearcher.state.

(** What extraction does when the session shows a result table. *)
Lemma extract_on_table (sid : nat) (timeout : pyval) (ses : Session)
    (table : list Row) (stop : Z) :
  BookSearcher.wait (BookSearcher.self s) = Some (sid, timeout) ->
  sessions (BookSearcher.world s) !! sid = Some ses ->
  live ses = true ->
  table_c (page ses) = Some table ->
  BookSearcher.slice_stop
    (ConfigManager.get (BookSearcher.config (BookSearcher.self s)) "max_results")
  = Ok stop ->
  BookSearcher._extract_book_data s =
    match BookSearcher.parse_rows (py_slice table 1 stop) [] with
    | (books, None) => (Ok books, s)
    | (books, Some e) =>
        (Ok books,
         {| BookSearcher.self := BookSearcher.self s;
            BookSearcher.world :=
              set_log (fun l => l ++ [LogError "Data extraction error" e])
                      (BookSearcher.world s) |})
    end.
Proof.
  intros Hwait Hses Hlive Htable Hstop.
  unfold BookSearcher._extract_book_data, try_except, bind,
    BookSearcher.wait_until, BookSearcher.on_page.
  rewrite Hwait, Hses, Hlive, Htable.
  unfold BookSearcher.config_get, gets, lift_result.
  rewrite Hstop.
  destruct (BookSearcher.parse_rows (py_slice table 1 stop) []) as [ books [ e | ] ].
  - reflexivity.
  - destruct s; reflexivity.
Qed.

(** Extraction always returns a list; it changes nothing but the log, and
    the list comes from the capped slice of a table whenever it is not
    empty. *)
Lemma extract_total :
  exists books s',
    BookSearcher._extract_book_data s = (Ok books, s') /\
    BookSearcher.self s' = BookSearcher.self s /\
    fs (BookSearcher.world s') = fs (BookSearcher.world s) /\
    sessions (BookSearcher.world s') = sessions (BookSearcher.world s) /\
    (books = [] \/
     exists table stop,
       BookSearcher.slice_stop
         (ConfigManager.get (BookSearcher.config (BookSearcher.self s)) "max_results")
       = Ok stop /\
       books = fst (BookSearcher.parse_rows (py_slice table 1 stop) [])).
Proof.
  unfold BookSearcher._extract_book_data, try_except, bind,
    BookSearcher.wait_until, BookSearcher.on_page.
  destruct (BookSearcher.wait (BookSearcher.self s)) as [ [ sid timeout ] | ];
    [ | eexists _, _; repeat split; eauto ].
  destruct (sessions (BookSearcher.world s) !! sid) as [ ses | ];
    [ | eexists _, _; repeat split; eauto ].
  destruct (live ses); [ | eexists _, _; repeat split; eauto ].
  destruct (table_c (page ses)) as [ table | ];
    [ | eexists _, _; repeat split; eauto ].
  unfold BookSearcher.config_get, gets, lift_result.
  destruct (BookSearcher.slice_stop _) as [ stop | e ] eqn:Hstop;
    [ | eexists _, _; repeat split; eauto ].
  destruct (BookSearcher.parse_rows (py_slice table 1 stop) [])
    as [ books [ e | ] ] eqn:Hrows.
  - eexists _, _. split; [ reflexivity | ].
    repeat split. right. exists table, stop. now rewrite Hrows.
  - eexists _, _. split; [ reflexivity | ].
    repeat split; try (destruct s; reflexivity).
    right. exists table, stop. now rewrite Hrows.
Qed.


End Extraction.

(** C1, as amended.  When the parsing of a row raises, the exception is
    caught and logged and extraction returns without raising; the row and
    all the rows after it are left out, and the result is the records of the
    rows before it. *)
Theorem extraction_stops_at_failing_row
    (s : BookSearcher.state) (sid : nat) (timeout : pyval) (ses : Session)
    (table : list Row) (stop : Z)
    (before after : list Row) (bad : Row) (e : exn) :
  BookSearcher.wait (BookSearcher.self s) = Some (sid, timeout) ->
  sessions (BookSearcher.world s) !! sid = Some ses ->
  live ses = true ->
  table_c (page ses) = Some table ->
  BookSearcher.slice_stop
    (ConfigManager.get (BookSearcher.config (BookSearcher.self s)) "max_results")
  = Ok stop ->
  py_slice table 1 stop = before ++ bad :: after ->
  Forall parses before ->
  BookSearcher.parse_row bad = Raise e ->
  BookSearcher._extract_book_data s =
    (Ok (successfully_parsed before),
     {| BookSearcher.self := BookSearcher.self s;
        BookSearcher.world :=
          set_log (fun l => l ++ [LogError "Data extraction error" e])
                  (BookSearcher.world s) |}).
Proof.
  intros Hwait Hses Hlive Htable Hstop Hrows Hbefore Hbad.
  rewrite (extract_on_table s sid timeout ses table stop) by assumption.
  rewrite Hrows.
  rewrite (parse_rows_failure before after bad [] e) by assumption.
  reflexivity.
Qed.

(** Three rows, the second with an unlinked title: the first row's record
    is returned, the third row is never looked at. *)
Lemma extraction_stops_at_failing_row_witness :
  BookSearcher._extract_book_data
    (on_results default_manager [dune_row; unlinked_row; emma_row]) =
    (Ok (successfully_parsed [dune_row]),
     {| BookSearcher.self :=
          BookSearcher.self (on_results default_manager [dune_row; unlinked_row; emma_row]);
        BookSearcher.world :=
          set_log (fun l => l ++ [LogError "Data extraction error" NoSuchElementException])
            (BookSearcher.world
               (on_results default_manager [dune_row; unlinked_row; emma_row])) |}).
Proof.
  apply (extraction_stops_at_failing_row
           (on_results default_manager [dune_row; unlinked_row; emma_row])
           0 (PyInt 10)
           {| live := true;
              options := {| opt_headless := false;
                            opt_images_disabled := true;
                            opt_user_agent := PyStr "Mozilla/5.0" |};
              page := results_page [dune_row; unlinked_row; emma_row] |}
           (header_row :: [dune_row; unlinked_row; emma_row]) 21
           [dune_row] [emma_row] unlinked_row NoSuchElementException).
  - reflexivity.
  - reflexivity.
  - reflexivity.
  - reflexivity.
  - reflexivity.
  - reflexivity.
  - constructor; [ exact I | constructor ].
  - reflexivity.
Defined.

(** C1, as stated, fails: of these three rows the first and the third
    parse, each on its own, but extraction returns the first record only;
    the failure of the second row ends the batch. *)
Lemma row_failure_ends_the_batch :
  BookSearcher.parse_row dune_row
    = Ok (Some (column_mapping dune_row (Some "book/index.php?md5=AA"))) /\
  BookSearcher.parse_row unlinked_row = Raise NoSuchElementException /\
  BookSearcher.parse_row emma_row
    = Ok (Some (column_mapping emma_row (Some "book/index.php?md5=BB"))) /\
  successfully_parsed [dune_row; unlinked_row; emma_row]
    = [ column_mapping dune_row (Some "book/index.php?md5=AA");
        column_mapping emma_row (Some "book/index.php?md5=BB") ] /\
  fst (BookSearcher._extract_book_data
         (on_results default_manager [dune_row; unlinked_row; emma_row]))
    = Ok [ column_mapping dune_row (Some "book/index.php?md5=AA") ] /\
  fst (BookSearcher._extract_book_data
         (on_results default_manager [dune_row; unlinked_row; emma_row]))
    <> Ok (successfully_parsed [dune_row; unlinked_row; emma_row]).
Proof.
  repeat split; try reflexivity.
  vm_compute. discriminate.
Qed.

(** ** Reasoning about methods *)

Lemma bind_ok {S A B} (m : M S A) (k : A -> M S B) (s s' : S) (b : B) :
  bind m k s = (Ok b, s') ->
  exists a s1, m s = (Ok a, s1) /\ k a s1 = (Ok b, s').
Proof.
  unfold bind. destruct (m s) as [ [ a | e ] s1 ]; intros Hrun.
  - now exists a, s1.
  - discriminate Hrun.
Qed.

Lemma try_except_ok {S A} (body : M S A) (handler : exn -> M S A) (s s' : S) (a : A) :
  (forall e s1, fst (handler e s1) = Raise e) ->
  try_except body handler s = (Ok a, s') ->
  body s = (Ok a, s').
Proof.
  intros Hhandler. unfold try_except.
  destruct (body s) as [ [ a' | e ] s1 ]; intros Hrun.
  - exact Hrun.
  - specialize (Hhandler e s1). rewrite Hrun in Hhandler. discriminate Hhandler.
Qed.

Ltac bind_inv H :=
  repeat (let a := fresh "a" in
          let s1 := fresh "s" in
          let Hm := fresh "Hstep" in
          apply bind_ok in H as (a & s1 & Hm & H); cbv beta in H).

Section Preservation.

Context {S : Type} (R : S -> S -> Prop).
Hypothesis R_refl : forall s, R s s.
Hypothesis R_trans : forall s1 s2 s3, R s1 s2 -> R s2 s3 -> R s1 s3.

Lemma preserves_ret {A} (a : A) : preserves R (ret a).
Proof using R_refl. intros s r s' [= _ <-]. apply R_refl. Qed.

Lemma preserves_raise {A} (e : exn) : preserves R (@raise S A e).
Proof using R_refl. intros s r s' [= _ <-]. apply R_refl. Qed.

Lemma preserves_gets {A} (f : S -> A) : preserves R (gets f).
Proof using R_refl. intros s r s' [= _ <-]. apply R_refl. Qed.

Lemma preserves_lift_result {A} (x : result A) : preserves R (@lift_result S A x).
Proof using R_refl. intros s r s' [= _ <-]. apply R_refl. Qed.

Lemma preserves_bind {A B} (m : M S A) (k : A -> M S B) :
  preserves R m -> (forall a, preserves R (k a)) -> preserves R (bind m k).
Proof using R_trans.
  intros Hm Hk s r s'. unfold bind.
  destruct (m s) as [ [ a | e ] s1 ] eqn:Hrun; intros Hrest.
  - eapply R_trans; [ eapply Hm; exact Hrun | eapply Hk; exact Hrest ].
  - injection Hrest as _ <-. eapply Hm; exact Hrun.
Qed.

Lemma preserves_try_except {A} (body : M S A) (handler : exn -> M S A) :
  preserves R body -> (forall e, preserves R (handler e)) ->
  preserves R (try_except body handler).
Proof using R_trans.
  intros Hbody Hhandler s r s'. unfold try_except.
  destruct (body s) as [ [ a | e ] s1 ] eqn:Hrun; intros Hrest.
  - injection Hrest as _ <-. eapply Hbody; exact Hrun.
  - eapply R_trans; [ eapply Hbody; exact Hrun | eapply Hhandler; exact Hrest ].
Qed.

End Preservation.

Lemma same_searcher_refl s : same_searcher s s.
Proof. now split. Qed.

Lemma same_searcher_trans s1 s2 s3 :
  same_searcher s1 s2 -> same_searcher s2 s3 -> same_searcher s1 s3.
Proof. intros [ H1 H2 ] [ H3 H4 ]. split; congruence. Qed.

Lemma same_config_refl s : same_config s s.
Proof. reflexivity. Qed.



Ltac keeps_core :=
  first
    [ apply (preserves_ret same_searcher same_searcher_refl)
    | apply (preserves_raise same_searcher same_searcher_refl)
    | apply (preserves_gets same_searcher same_searcher_refl)
    | apply (preserves_lift_result same_searcher same_searcher_refl)
    | apply (preserves_bind same_searcher same_searcher_trans)
    | apply (preserves_try_except same_searcher same_searcher_trans) ].

(** A method that acts on the world alone and leaves the sessions be. *)
Lemma in_world_same_searcher {A} (m : M World A) :
  (forall w r w', m w = (r, w') -> sessions w' = sessions w) ->
  preserves same_searcher (BookSearcher.in_world m).
Proof.
  intros Hm s r s'. unfold BookSearcher.in_world.
  destruct (m (BookSearcher.world s)) as [ r' w' ] eqn:Hrun.
  intros [= _ <-]. split; [ reflexivity | ].
  simpl. now rewrite (Hm _ _ _ Hrun).
Qed.

Lemma read_file_sessions path w r w' :
  read_file path w = (r, w') -> sessions w' = sessions w.
Proof.
  unfold read_file. destruct (fs w !! path) as [ [ | c ] | ]; now intros [= _ <-].
Qed.

Lemma write_file_sessions path c w r w' :
  write_file path c w = (r, w') -> sessions w' = sessions w.
Proof.
  unfold write_file.
  destruct (fs w !! path) as [ [ | c' ] | ]; [ | | destruct (place w path) ];
    now intros [= _ <-].
Qed.

Create HintDb keeps discriminated.

Ltac keeps :=
  repeat (intros; cbv beta zeta; first [ solve [ auto with keeps ] | keeps_core ]).

Lemma log_error_same_searcher prefix e :
  preserves same_searcher (BookSearcher.log_error prefix e).
Proof.
  apply in_world_same_searcher. now intros w r w' [= _ <-].
Qed.

Lemma config_get_same_searcher key :
  preserves same_searcher (BookSearcher.config_get key).
Proof. unfold BookSearcher.config_get. keeps. Qed.

Lemma on_page_same_searcher {A} sid (f : Page -> result A) :
  preserves same_searcher (BookSearcher.on_page sid f).
Proof.
  intros s r s'. unfold BookSearcher.on_page.
  destruct (sessions (BookSearcher.world s) !! sid) as [ ses | ];
    [ destruct (live ses) | ]; intros [= _ <-]; apply same_searcher_refl.
Qed.

Lemma wait_until_same_searcher {A} (condition : Page -> option A) :
  preserves same_searcher (BookSearcher.wait_until condition).
Proof.
  intros s r s'. unfold BookSearcher.wait_until.
  destruct (BookSearcher.wait (BookSearcher.self s)) as [ [ sid timeout ] | ].
  - apply on_page_same_searcher.
  - intros [= _ <-]. apply same_searcher_refl.
Qed.

Lemma the_driver_same_searcher : preserves same_searcher BookSearcher.the_driver.
Proof.
  intros s r s'. unfold BookSearcher.the_driver.
  destruct (BookSearcher.driver (BookSearcher.self s));
    intros [= _ <-]; apply same_searcher_refl.
Qed.

Lemma navigate_same_searcher sid p :
  preserves same_searcher (BookSearcher.navigate sid p).
Proof.
  intros s r s'. unfold BookSearcher.navigate.
  destruct (sessions (BookSearcher.world s) !! sid) as [ ses | ];
    [ destruct (live ses) | ]; intros [= _ <-]; try apply same_searcher_refl.
  split; [ reflexivity | ]. simpl. apply length_insert.
Qed.

#[local] Hint Resolve log_error_same_searcher config_get_same_searcher
  on_page_same_searcher wait_until_same_searcher the_driver_same_searcher
  navigate_same_searcher : keeps.

Lemma random_delay_same_searcher : preserves same_searcher BookSearcher._random_delay.
Proof. unfold BookSearcher._random_delay. keeps. Qed.

Lemma extract_same_searcher : preserves same_searcher BookSearcher._extract_book_data.
Proof.
  intros s r s' Hrun.
  destruct (extract_total s) as (books & s1 & Hrun' & Hself & _ & Hses & _).
  rewrite Hrun in Hrun'. injection Hrun' as _ ->.
  split; [ exact Hself | now rewrite Hses ].
Qed.

Lemma save_history_same_searcher term n :
  preserves same_searcher (BookSearcher._save_search_history term n).
Proof.
  unfold BookSearcher._save_search_history. keeps.
  - match goal with b : bool |- _ => destruct b end; keeps.
    apply in_world_same_searcher. apply read_file_sessions.
  - intros history'. apply in_world_same_searcher. apply write_file_sessions.
Qed.

#[local] Hint Resolve random_delay_same_searcher extract_same_searcher
  save_history_same_searcher : keeps.


Lemma try_except_bind_gets {S A B} (f : S -> A) (k : A -> M S B)
    (handler : exn -> M S B) (s : S) :
  try_except (bind (gets f) k) handler s = try_except (k (f s)) handler s.
Proof. reflexivity. Qed.

(** Lazy initialisation: a search made while the handle is set launches no
    session and leaves the searcher's fields as they are, however it ends. *)
Lemma search_books_same_searcher (sid : nat) (term type : string)
    (s s' : BookSearcher.state) (r : result DataFrame) :
  BookSearcher.driver (BookSearcher.self s) = Some sid ->
  BookSearcher.search_books term type s = (r, s') ->
  same_searcher s s'.
Proof.
  intros Hdriver Hrun.
  unfold BookSearcher.search_books in Hrun.
  rewrite try_except_bind_gets in Hrun.
  rewrite Hdriver in Hrun. cbv beta iota in Hrun.
  revert Hrun.
  match goal with
  | |- ?m s = _ -> _ => assert (Hkeeps : preserves same_searcher m) by keeps
  end.
  apply Hkeeps.
Qed.




(** The same scenario, in full: exactly 20 records come back and the history
    file gets one entry, for "Dune" with a count of 20. *)
Example dune_scenario :
  let run := BookSearcher.search_books "Dune" "title" (fresh_state (repeat dune_row 25)) in
  fst run = Ok (repeat (column_mapping dune_row (Some "book/index.php?md5=AA")) 20) /\
  fs (BookSearcher.world (snd run)) !! "search_history.json" =
    Some (Readable (JsonDoc (PyList [BookSearcher.history_entry a_clock "Dune" 20]))) /\
  log (BookSearcher.world (snd run)) = [].
Proof. vm_compute. repeat split. Qed.

(** The cap is a slice bound, and Python counts a negative bound from the end
    of the list: with [max_results] at -3 the slice is [[1:-2]], which of a
    header and five rows keeps three. *)
Example negative_max_results :
  py_slice [header_row; dune_row; dune_row; dune_row; dune_row; dune_row] 1 (-3 + 1)
  = [dune_row; dune_row; dune_row].
Proof. reflexivity. Qed.

(** ** What [json.dump] writes *)

Lemma depth_item (l : list pyval) (u : pyval) :
  In u l -> depth u <= foldr Nat.max 0 (map depth l).
Proof.
  induction l as [ | x l IH ]; simpl; [ tauto | ].
  intros [ -> | Hin ]; [ lia | ]. specialize (IH Hin). lia.
Qed.

Lemma max_fold_bound (m : gmap string nat) (k : string) (n : nat) :
  m !! k = Some n -> n <= map_fold (fun _ => Nat.max) 0 m.
Proof.
  revert k n.
  induction m as [ | j x m Hj IH ] using map_ind; intros k n Hk.
  - now rewrite lookup_empty in Hk.
  - rewrite map_fold_insert_L; [ | intros; lia | exact Hj ].
    destruct (decide (j = k)) as [ -> | Hne ].
    + rewrite lookup_insert_eq in Hk. injection Hk as ->. lia.
    + rewrite lookup_insert_ne in Hk by exact Hne.
      specialize (IH k n Hk). lia.
Qed.

Lemma depth_value (d : gmap string pyval) (k : string) (u : pyval) :
  d !! k = Some u -> depth u < depth (PyDict d).
Proof.
  intros Hk. simpl. apply Nat.lt_succ_r.
  apply (max_fold_bound _ k). now rewrite lookup_fmap, Hk.
Qed.

(** What has been through [json.dump] once goes through it unchanged. *)
Lemma jsonify_twice (v : pyval) : jsonify (jsonify v) = jsonify v.
Proof.
  remember (depth v) as n eqn:Hn.
  revert v Hn.
  induction n as [ n IH ] using lt_wf_ind.
  intros v ->.
  assert (Hlist : forall l, (forall u, In u l -> depth u < depth v) ->
                            map jsonify (map jsonify l) = map jsonify l).
  { intros l Hl. rewrite map_map. apply map_ext_in.
    intros u Hu. now apply (IH (depth u) (Hl u Hu)). }
  destruct v as [ | b | z | m x | s | l | l | d ]; try reflexivity.
  - simpl. f_equal. apply Hlist.
    intros u Hu. simpl. apply Nat.lt_succ_r. now apply depth_item.
  - simpl. f_equal. apply Hlist.
    intros u Hu. simpl. apply Nat.lt_succ_r. now apply depth_item.
  - cbn [jsonify]. f_equal. apply map_eq. intros k.
    rewrite !lookup_fmap.
    destruct (d !! k) as [ u | ] eqn:Hk; [ | reflexivity ].
    simpl. f_equal.
    now apply (IH (depth u) (depth_value d k u Hk)).
Qed.

(** A history entry holds a string, a string and a number: it is written as
    it is. *)
Lemma jsonify_history_entry (t : datetime) (term : string) (n : nat) :
  jsonify (BookSearcher.history_entry t term n) = BookSearcher.history_entry t term n.
Proof.
  unfold BookSearcher.history_entry. cbn [jsonify].
  now rewrite !fmap_insert, fmap_empty.
Qed.

Lemma jsonify_appended (old : list pyval) (t : datetime) (term : string) (n : nat) :
  jsonify (PyList (old ++ [BookSearcher.history_entry t term n]))
  = PyList (map jsonify old ++ [BookSearcher.history_entry t term n]).
Proof.
  cbn [jsonify]. rewrite map_app. cbn [map].
  now rewrite jsonify_history_entry.
Qed.

(** ** Properties of the search history *)

Section History.

Variables (path term : string) (n : nat).
Variable s : BookSearcher.state.

Hypothesis history_file :
  ConfigManager.get (BookSearcher.config (BookSearcher.self s)) "search_history_file"
  = PyStr path.

Lemma save_history_absent :
  fs (BookSearcher.world s) !! path = None ->
  place (BookSearcher.world s) path = Creatable ->
  BookSearcher._save_search_history term n s
  = (Ok tt, with_file s path (JsonDoc (PyList
       [BookSearcher.history_entry (now (BookSearcher.world s)) term n]))).
Proof using history_file.
  intros Hfile Hplace.
  unfold BookSearcher._save_search_history, bind, BookSearcher.config_get, gets.
  rewrite history_file.
  unfold try_except, lift_result, BookSearcher.as_path, path_exists.
  rewrite Hfile.
  unfold ret, BookSearcher.append, BookSearcher.in_world.
  rewrite write_file_can by (unfold can_write; now rewrite Hfile, Hplace).
  unfold json_dump. now rewrite (jsonify_appended []).
Qed.

(** A history file that is not there and cannot be created: the failure of
    opening it for writing is logged and swallowed. *)
Lemma save_history_uncreatable :
  fs (BookSearcher.world s) !! path = None ->
  place (BookSearcher.world s) path <> Creatable ->
  exists e,
    BookSearcher._save_search_history term n s
    = (Ok tt, with_error s "Error saving search history" e) /\
    (e = PermissionError path \/ e = FileNotFoundError path).
Proof using history_file.
  intros Hfile Hplace.
  unfold BookSearcher._save_search_history, bind, BookSearcher.config_get, gets.
  rewrite history_file.
  unfold try_except, lift_result, BookSearcher.as_path, path_exists.
  rewrite Hfile.
  unfold ret, BookSearcher.append, BookSearcher.in_world.
  match goal with
  | |- context [ write_file path ?c (BookSearcher.world s) ] =>
      destruct (write_file_cannot path c (BookSearcher.world s)) as (e & -> & He)
  end.
  - unfold can_write. rewrite Hfile.
    destruct (place (BookSearcher.world s) path);
      [ now contradict Hplace | reflexivity | reflexivity ].
  - now exists e.
Qed.

Lemma save_history_array (old : list pyval) :
  fs (BookSearcher.world s) !! path = Some (Readable (JsonDoc (PyList old))) ->
  BookSearcher._save_search_history term n s
  = (Ok tt, with_file s path (JsonDoc (PyList
       (map jsonify old
        ++ [BookSearcher.history_entry (now (BookSearcher.world s)) term n])))).
Proof using history_file.
  intros Hfile.
  unfold BookSearcher._save_search_history, bind, BookSearcher.config_get, gets.
  rewrite history_file.
  unfold try_except, lift_result, BookSearcher.as_path, path_exists.
  rewrite Hfile.
  unfold BookSearcher.in_world, read_file. rewrite Hfile.
  cbn [json_load BookSearcher.append BookSearcher.world BookSearcher.self].
  rewrite write_file_can by (unfold can_write; now rewrite Hfile).
  unfold json_dump. now rewrite jsonify_appended.
Qed.

(** A history file whose text is not JSON, such as a file of zero bytes,
    is left as it is: the error is logged and swallowed. *)
Lemma save_history_not_json (raw : string) :
  fs (BookSearcher.world s) !! path = Some (Readable (Garbage raw)) ->
  BookSearcher._save_search_history term n s
  = (Ok tt, with_error s "Error saving search history" JSONDecodeError).
Proof using history_file.
  intros Hfile.
  unfold BookSearcher._save_search_history, bind, BookSearcher.config_get, gets.
  rewrite history_file.
  unfold try_except, lift_result, BookSearcher.as_path, path_exists.
  rewrite Hfile.
  unfold BookSearcher.in_world, read_file. rewrite Hfile. reflexivity.
Qed.

End History.




(** ** Properties of export *)

Lemma supported_format_cases (format : string) :
  supported_format format = true ->
  format = "csv" \/ format = "excel" \/ format = "json".
Proof.
  unfold supported_format. intros H.
  apply orb_prop in H as [ H | H ]; [ apply orb_prop in H as [ H | H ] | ];
    apply String.eqb_eq in H; auto.
Qed.

Lemma denied_or_free (o : option file) : o = Some Denied \/ o <> Some Denied.
Proof. destruct o as [ [ | c ] | ]; auto; right; discriminate. Qed.

(** The time stamp in the file name is eight digits, an underscore and six
    digits. *)
Lemma append_cons (c : ascii) (a b : string) : String c a +:+ b = String c (a +:+ b).
Proof. reflexivity. Qed.

Lemma append_length (a b : string) :
  String.length (a +:+ b) = String.length a + String.length b.
Proof.
  induction a as [ | c a IH ]; [ reflexivity | ].
  rewrite append_cons. simpl. now rewrite IH.
Qed.

Lemma append_chars (a b : string) :
  list_ascii_of_string (a +:+ b) = list_ascii_of_string a ++ list_ascii_of_string b.
Proof.
  induction a as [ | c a IH ]; [ reflexivity | ].
  rewrite append_cons. simpl. now rewrite IH.
Qed.

Lemma append_assoc (a b c : string) : (a +:+ b) +:+ c = a +:+ (b +:+ c).
Proof.
  induction a as [ | x a IH ]; [ reflexivity | ].
  rewrite !append_cons. now rewrite IH.
Qed.

Lemma zero_padded_length (w n : nat) : String.length (zero_padded w n) = w.
Proof.
  revert n. induction w as [ | w IH ]; intros n; simpl.
  - reflexivity.
  - rewrite append_length, IH. simpl. lia.
Qed.

Lemma digit_is_digit (n : nat) : is_digit (digit n) = true.
Proof.
  unfold is_digit, digit.
  pose proof (Nat.mod_upper_bound n 10 ltac:(lia)) as Hlt.
  rewrite nat_ascii_embedding by lia.
  apply andb_true_intro. split; apply Nat.leb_le; lia.
Qed.

Lemma zero_padded_digits (w n : nat) :
  forallb is_digit (list_ascii_of_string (zero_padded w n)) = true.
Proof.
  revert n. induction w as [ | w IH ]; intros n; simpl.
  - reflexivity.
  - rewrite append_chars, forallb_app, IH.
    cbn [list_ascii_of_string forallb andb]. now rewrite digit_is_digit.
Qed.

Lemma strftime_compact_shape (t : datetime) :
  exists date time,
    strftime_compact t = date +:+ "_" +:+ time /\
    String.length date = 8 /\ String.length time = 6 /\
    forallb is_digit (list_ascii_of_string date) = true /\
    forallb is_digit (list_ascii_of_string time) = true.
Proof.
  exists (zero_padded 4 (dt_year t) +:+ zero_padded 2 (dt_month t) +:+ zero_padded 2 (dt_day t)),
         (zero_padded 2 (dt_hour t) +:+ zero_padded 2 (dt_minute t)
            +:+ zero_padded 2 (dt_second t)).
  split; [ unfold strftime_compact; now rewrite !append_assoc | ].
  rewrite !append_length, !zero_padded_length.
  rewrite !append_chars, !forallb_app, !zero_padded_digits.
  repeat split.
Qed.

(** The extension of a file name is what follows its last dot. *)
Lemma after_last_dot_append (a b : string) (found : option string) :
  after_last_dot (a +:+ String "." b) found = after_last_dot b (Some b).
Proof.
  revert found. induction a as [ | c a IH ]; intros found.
  - reflexivity.
  - rewrite append_cons. cbn [after_last_dot].
    destruct (Ascii.eqb c "."); apply IH.
Qed.

Lemma export_filename_extension (t : datetime) (format : string) :
  after_last_dot format (Some format) = Some format ->
  extension (export_filename t format) = format.
Proof.
  intros Hformat. unfold extension, export_filename.
  rewrite <- append_assoc.
  change ("." +:+ format) with (String "." format).
  now rewrite after_last_dot_append, Hformat.
Qed.

Section ExportResults.

Variables (df : DataFrame) (s : BookSearcher.state).

Lemma export_unsupported (format : string) :
  supported_format format = false ->
  BookSearcher.export_results df format s =
    (Raise (ValueError ("Unsupported export format: " +:+ format)),
     with_error s "Export error" (ValueError ("Unsupported export format: " +:+ format))).
Proof.
  unfold supported_format. intros H.
  apply orb_false_elim in H as [ H Hjson ].
  apply orb_false_elim in H as [ Hcsv Hexcel ].
  unfold BookSearcher.export_results, bind, gets, try_except.
  rewrite Hcsv, Hexcel, Hjson. reflexivity.
Qed.

(** The name built for the "excel" format ends in [.excel], which no Excel
    writer takes: the export raises before it opens anything. *)
Lemma export_excel :
  exists msg,
    BookSearcher.export_results df "excel" s =
      (Raise (ValueError msg), with_error s "Export error" (ValueError msg)) /\
    ((Z.of_nat (length df) <= 1048576)%Z -> msg = "No engine for filetype: 'excel'") /\
    msg <> "Unsupported export format: excel".
Proof.
  unfold BookSearcher.export_results, bind, gets, try_except.
  cbn [String.eqb Ascii.eqb Bool.eqb].
  fold (export_filename (now (BookSearcher.world s)) "excel").
  unfold BookSearcher.to_excel.
  rewrite export_filename_extension by reflexivity.
  destruct (1048576 <? Z.of_nat (length df))%Z eqn:Hsize.
  - eexists. split; [ reflexivity | ].
    split; [ intros Hle; apply Z.ltb_lt in Hsize; lia | ].
    rewrite append_cons. discriminate.
  - eexists. split; [ reflexivity | ].
    split; [ reflexivity | discriminate ].
Qed.

Lemma export_writes_document (format : string) :
  format = "csv" \/ format = "json" ->
  can_write (export_filename (now (BookSearcher.world s)) format) (BookSearcher.world s)
    = true ->
  BookSearcher.export_results df format s =
    (Ok (export_filename (now (BookSearcher.world s)) format),
     with_file s (export_filename (now (BookSearcher.world s)) format)
       (export_document df format)).
Proof.
  intros Hformat Hcan.
  unfold BookSearcher.export_results, bind, gets, try_except.
  fold (export_filename (now (BookSearcher.world s)) format).
  destruct Hformat as [ -> | -> ];
    cbn [String.eqb Ascii.eqb Bool.eqb];
    unfold BookSearcher.in_world;
    rewrite write_file_can by exact Hcan; reflexivity.
Qed.

Lemma export_cannot_write (format : string) :
  format = "csv" \/ format = "json" ->
  can_write (export_filename (now (BookSearcher.world s)) format) (BookSearcher.world s)
    = false ->
  exists e,
    BookSearcher.export_results df format s = (Raise e, with_error s "Export error" e) /\
    (e = PermissionError (export_filename (now (BookSearcher.world s)) format) \/
     e = FileNotFoundError (export_filename (now (BookSearcher.world s)) format)).
Proof.
  intros Hformat Hcan.
  unfold BookSearcher.export_results, bind, gets, try_except.
  fold (export_filename (now (BookSearcher.world s)) format).
  destruct Hformat as [ -> | -> ];
    cbn [String.eqb Ascii.eqb Bool.eqb];
    unfold BookSearcher.in_world;
    match goal with
    | |- context [ write_file ?p ?c (BookSearcher.world s) ] =>
        destruct (write_file_cannot p c (BookSearcher.world s) Hcan) as (e & -> & He)
    end;
    now exists e.
Qed.

(** However an export ends, it ends in one of these ways. *)
Lemma export_outcome (format : string) :
  (exists e, BookSearcher.export_results df format s
             = (Raise e, with_error s "Export error" e)) \/
  ((format = "csv" \/ format = "json") /\
   BookSearcher.export_results df format s =
     (Ok (export_filename (now (BookSearcher.world s)) format),
      with_file s (export_filename (now (BookSearcher.world s)) format)
        (export_document df format))).
Proof.
  destruct (supported_format format) eqn:Hformat.
  - apply supported_format_cases in Hformat as [ -> | [ -> | -> ] ].
    + destruct (can_write (export_filename (now (BookSearcher.world s)) "csv")
                  (BookSearcher.world s)) eqn:Hcan.
      * right. split; [ now left | ]. apply export_writes_document; auto.
      * left. destruct (export_cannot_write "csv" (or_introl eq_refl) Hcan) as (e & Hrun & _).
        now exists e.
    + left. destruct export_excel as (msg & Hrun & _ & _).
      exists (ValueError msg). exact Hrun.
    + destruct (can_write (export_filename (now (BookSearcher.world s)) "json")
                  (BookSearcher.world s)) eqn:Hcan.
      * right. split; [ now right | ]. apply export_writes_document; auto.
      * left. destruct (export_cannot_write "json" (or_intror eq_refl) Hcan) as (e & Hrun & _).
        now exists e.
  - left. eexists. now apply export_unsupported.
Qed.

End ExportResults.

(** C7.  The claim fails for the "excel" format, which is one of the three
    [export_results] has a branch for: the file name it builds ends in
    [.excel], the Excel writer refuses it, and the export raises a
    [ValueError], logs it and writes no file, whatever the data frame and
    the state.  So a supported format does not always write its file. *)
Theorem excel_export_always_fails (df : DataFrame) (s : BookSearcher.state) :
  supported_format "excel" = true /\
  exists msg s',
    BookSearcher.export_results df "excel" s = (Raise (ValueError msg), s') /\
    ((Z.of_nat (length df) <= 1048576)%Z -> msg = "No engine for filetype: 'excel'") /\
    fs (BookSearcher.world s') = fs (BookSearcher.world s) /\
    log (BookSearcher.world s')
    = log (BookSearcher.world s) ++ [LogError "Export error" (ValueError msg)].
Proof.
  split; [ reflexivity | ].
  destruct (export_excel df s) as (msg & Hrun & Hmsg & _).
  exists msg. eexists. split; [ exact Hrun | ].
  split; [ exact Hmsg | split; reflexivity ].
Qed.

(** C6.  The path an export returns is [search_results_], eight digits (the
    date), an underscore, six digits (the time), a dot and the extension the
    specification gives the format.  An export returns in the "csv" and in
    the "json" format only. *)
Theorem export_path_form (df : DataFrame) (format : string)
    (s s' : BookSearcher.state) (p : string) :
  BookSearcher.export_results df format s = (Ok p, s') ->
  exists date time,
    p = "search_results_" +:+ date +:+ "_" +:+ time +:+ "." +:+ spec_extension format /\
    date +:+ "_" +:+ time = strftime_compact (now (BookSearcher.world s)) /\
    String.length date = 8 /\ String.length time = 6 /\
    forallb is_digit (list_ascii_of_string date) = true /\
    forallb is_digit (list_ascii_of_string time) = true /\
    (spec_extension format = "csv" \/ spec_extension format = "xlsx" \/
     spec_extension format = "json") /\
    (format = "csv" \/ format = "json").
Proof.
  intros Hrun.
  destruct (export_outcome df s format) as [ (e & Hraise) | (Hformat & Hok) ];
    [ rewrite Hraise in Hrun; discriminate Hrun | ].
  rewrite Hok in Hrun. injection Hrun as <- _.
  destruct (strftime_compact_shape (now (BookSearcher.world s)))
    as (date & time & Hstamp & Hdate & Htime & Hd & Ht).
  exists date, time.
  assert (Hext : spec_extension format = format)
    by (destruct Hformat as [ -> | -> ]; reflexivity).
  rewrite Hext. unfold export_filename. rewrite Hstamp.
  split; [ now rewrite !append_assoc | ].
  split; [ reflexivity | ].
  split; [ exact Hdate | ]. split; [ exact Htime | ].
  split; [ exact Hd | ]. split; [ exact Ht | ].
  split; [ destruct Hformat as [ -> | -> ]; auto | exact Hformat ].
Qed.

Lemma export_path_form_witness :
  exists date time,
    "search_results_20261103_101530.csv"
    = "search_results_" +:+ date +:+ "_" +:+ time +:+ "." +:+ spec_extension "csv" /\
    date +:+ "_" +:+ time = strftime_compact (now (BookSearcher.world (fresh_state []))) /\
    String.length date = 8 /\ String.length time = 6 /\
    forallb is_digit (list_ascii_of_string date) = true /\
    forallb is_digit (list_ascii_of_string time) = true /\
    (spec_extension "csv" = "csv" \/ spec_extension "csv" = "xlsx" \/
     spec_extension "csv" = "json") /\
    ("csv" = "csv" \/ "csv" = "json").
Proof.
  apply (export_path_form [column_mapping dune_row None] "csv" (fresh_state [])
           (with_file (fresh_state []) "search_results_20261103_101530.csv"
              (CsvDoc [column_mapping dune_row None]))).
  reflexivity.
Defined.

(** ** Properties of [close] *)


Lemma bind_returns {S A B} (m : M S A) (k : A -> M S B) (s s' : S) (a : A) :
  m s = (Ok a, s') -> bind m k s = k a s'.
Proof. unfold bind. now intros ->. Qed.



Section Close.

Variable sid : nat.

Lemma close_run (s : BookSearcher.state) :
  BookSearcher.driver (BookSearcher.self s) = Some sid ->
  BookSearcher.close s =
    (Ok tt,
     {| BookSearcher.self := BookSearcher.self s;
        BookSearcher.world :=
          set_sessions (BookSearcher.without_session sid) (BookSearcher.world s) |}).
Proof.
  intros handle.
  unfold BookSearcher.close, bind, gets. rewrite handle. reflexivity.
Qed.




Lemma without_session_there (l : list Session) (old : Session) :
  l !! sid = Some old ->
  BookSearcher.without_session sid l !! sid =
    Some {| live := false; options := options old; page := page old |}.
Proof.
  intros Hold. unfold BookSearcher.without_session. rewrite Hold.
  apply list_lookup_insert_eq. eapply lookup_lt_Some. exact Hold.
Qed.

End Close.



(** The first search of a fresh searcher is the one that launches the
    session: the handle goes from [None] to session 0. *)
Example first_search_launches :
  let run := BookSearcher.search_books "Dune" "title" (fresh_state [dune_row]) in
  BookSearcher.driver (BookSearcher.self (fresh_state [dune_row])) = None /\
  BookSearcher.driver (BookSearcher.self (snd run)) = Some 0 /\
  map live (sessions (BookSearcher.world (snd run))) = [true].
Proof. vm_compute. repeat split. Qed.

(** ** More on [ConfigManager] *)

Lemma insert_over_itself (m : gmap string pyval) (key : string) (v : pyval) :
  <[key := v]> m ∪ m = <[key := v]> m.
Proof.
  apply map_eq. intros k. rewrite lookup_union.
  destruct (decide (key = k)) as [ -> | Hne ].
  - rewrite lookup_insert_eq. now destruct (m !! k).
  - rewrite lookup_insert_ne by exact Hne. now destruct (m !! k).
Qed.

Lemma save_config_run (path : string) (cfg : gmap string pyval) (w : World) :
  can_write path w = true ->
  ConfigManager._save_config path cfg w
  = (Ok tt, set_fs (insert path (Readable (JsonDoc (PyDict (jsonify <$> cfg))))) w).
Proof.
  intros Hcan. unfold ConfigManager._save_config.
  now rewrite write_file_can by exact Hcan.
Qed.

(** X1.  The first load of a missing file that can be created creates it
    and returns the defaults, where ["wait_time"] is the tuple [(1, 3)]; a
    second load returns what the file holds, the defaults with
    ["wait_time"] the list [[1, 3]], and changes nothing more. *)
Theorem first_run_then_reload (path : string) (w : World) :
  fs w !! path = None ->
  place w path = Creatable ->
  exists w1,
    ConfigManager._load_config path w = (Ok ConfigManager.DEFAULT_CONFIG, w1) /\
    ConfigManager.DEFAULT_CONFIG !! "wait_time" = Some (PyTuple [PyInt 1; PyInt 3]) /\
    ConfigManager._load_config path w1
    = (Ok (<["wait_time" := PyList [PyInt 1; PyInt 3]]> ConfigManager.DEFAULT_CONFIG), w1).
Proof.
  intros Hfile Hplace. eexists.
  split; [ now apply load_config_absent | ].
  split; [ reflexivity | ].
  unfold json_dump. rewrite jsonify_defaults.
  erewrite load_config_object by (simpl; apply lookup_insert_eq).
  now rewrite insert_over_itself.
Qed.

Lemma first_run_then_reload_witness :
  exists w1,
    ConfigManager._load_config "config.json" (world_with ∅ [])
      = (Ok ConfigManager.DEFAULT_CONFIG, w1) /\
    ConfigManager.DEFAULT_CONFIG !! "wait_time" = Some (PyTuple [PyInt 1; PyInt 3]) /\
    ConfigManager._load_config "config.json" w1
    = (Ok (<["wait_time" := PyList [PyInt 1; PyInt 3]]> ConfigManager.DEFAULT_CONFIG), w1).
Proof.
  apply (first_run_then_reload "config.json" (world_with ∅ [])); reflexivity.
Defined.

(** X2.  Saving a configuration to a file that can be written and loading
    the file again gives back every saved key with the value JSON holds
    for it (a tuple comes back as a list) and the default for every other
    key.  A configuration that has every default key and holds no tuple
    comes back as it was. *)
Theorem save_then_load_round_trip
    (path : string) (w : World) (cfg : gmap string pyval) :
  can_write path w = true ->
  exists w1 loaded,
    ConfigManager._save_config path cfg w = (Ok tt, w1) /\
    ConfigManager._load_config path w1 = (Ok loaded, w1) /\
    (forall k v, cfg !! k = Some v -> loaded !! k = Some (jsonify v)) /\
    (forall k, cfg !! k = None -> loaded !! k = ConfigManager.DEFAULT_CONFIG !! k) /\
    ((forall k v, cfg !! k = Some v -> jsonify v = v) ->
     (forall k, cfg !! k = None -> ConfigManager.DEFAULT_CONFIG !! k = None) ->
     loaded = cfg).
Proof.
  intros Hcan.
  exists (set_fs (insert path (Readable (JsonDoc (PyDict (jsonify <$> cfg))))) w),
         ((jsonify <$> cfg) ∪ ConfigManager.DEFAULT_CONFIG).
  split; [ now apply save_config_run | ].
  split; [ now erewrite load_config_object by (simpl; apply lookup_insert_eq) | ].
  split; [ | split ].
  - intros k v Hk. apply lookup_union_Some_l. now rewrite lookup_fmap, Hk.
  - intros k Hk. apply lookup_union_r. now rewrite lookup_fmap, Hk.
  - intros Hplain Hkeys. apply map_eq. intros k.
    rewrite lookup_union, lookup_fmap.
    destruct (cfg !! k) as [ v | ] eqn:Hk.
    + simpl. rewrite (Hplain k v Hk).
      now destruct (ConfigManager.DEFAULT_CONFIG !! k).
    + now rewrite (Hkeys k Hk).
Qed.

(** Saving the configuration a first run returned: the tuple of
    ["wait_time"] comes back as a list. *)
Lemma save_then_load_round_trip_witness :
  exists w1 loaded,
    ConfigManager._save_config "config.json" ConfigManager.DEFAULT_CONFIG (world_with ∅ [])
      = (Ok tt, w1) /\
    ConfigManager._load_config "config.json" w1 = (Ok loaded, w1) /\
    (forall k v, ConfigManager.DEFAULT_CONFIG !! k = Some v ->
                 loaded !! k = Some (jsonify v)) /\
    (forall k, ConfigManager.DEFAULT_CONFIG !! k = None ->
               loaded !! k = ConfigManager.DEFAULT_CONFIG !! k) /\
    ((forall k v, ConfigManager.DEFAULT_CONFIG !! k = Some v -> jsonify v = v) ->
     (forall k, ConfigManager.DEFAULT_CONFIG !! k = None ->
                ConfigManager.DEFAULT_CONFIG !! k = None) ->
     loaded = ConfigManager.DEFAULT_CONFIG).
Proof.
  apply (save_then_load_round_trip "config.json" (world_with ∅ [])
           ConfigManager.DEFAULT_CONFIG).
  reflexivity.
Defined.

(** X3.  A configuration file that exists is never written to: whatever it
    holds and however the load ends, the world after the load is the world
    before it. *)
Theorem load_config_keeps_existing_file (path : string) (w : World) (f : file) :
  fs w !! path = Some f ->
  snd (ConfigManager._load_config path w) = w.
Proof.
  intros Hfile.
  destruct f as [ | [ raw | v | rows | rows ] ].
  - now rewrite load_config_denied.
  - erewrite load_config_not_json; [ reflexivity | exact Hfile | discriminate ].
  - destruct v;
      try (erewrite load_config_not_object;
           [ reflexivity | exact Hfile | discriminate ]).
    now erewrite load_config_object by exact Hfile.
  - erewrite load_config_not_json; [ reflexivity | exact Hfile | discriminate ].
  - erewrite load_config_not_json; [ reflexivity | exact Hfile | discriminate ].
Qed.

Lemma load_config_keeps_existing_file_witness :
  snd (ConfigManager._load_config "config.json"
         (world_with {[ "config.json" := Readable (JsonDoc (PyList [PyInt 1])) ]} []))
  = world_with {[ "config.json" := Readable (JsonDoc (PyList [PyInt 1])) ]} [].
Proof.
  apply (load_config_keeps_existing_file "config.json" _
           (Readable (JsonDoc (PyList [PyInt 1])))).
  reflexivity.
Defined.

(** X4.  The keys of a loaded configuration are the keys of the override
    together with the default keys: every default key can be looked up,
    and [get] of a key that is in neither is [None]. *)
Theorem loaded_config_keys (path : string) (w w' : World)
    (override cfg : gmap string pyval) :
  fs w !! path = Some (Readable (JsonDoc (PyDict override))) ->
  ConfigManager._load_config path w = (Ok cfg, w') ->
  (forall k, is_Some (cfg !! k) <->
             is_Some (override !! k) \/ is_Some (ConfigManager.DEFAULT_CONFIG !! k)) /\
  (forall k, k ∈ ["max_results"; "timeout"; "download_path"; "search_history_file";
                  "max_retries"; "wait_time"; "browser_options"] ->
             is_Some (cfg !! k)) /\
  (forall k, override !! k = None -> ConfigManager.DEFAULT_CONFIG !! k = None ->
             ConfigManager.get {| ConfigManager.config_file := path;
                                  ConfigManager.config := cfg |} k = PyNone).
Proof.
  intros Hfile Hload.
  rewrite (load_config_object path w override Hfile) in Hload.
  injection Hload as <- _.
  assert (Hkeys : forall k, is_Some ((override ∪ ConfigManager.DEFAULT_CONFIG) !! k) <->
                            is_Some (override !! k) \/
                            is_Some (ConfigManager.DEFAULT_CONFIG !! k))
    by (intros k; apply lookup_union_is_Some).
  split; [ exact Hkeys | split ].
  - intros k Hk. apply Hkeys. right.
    rewrite !elem_of_cons, elem_of_nil in Hk.
    destruct Hk as [ -> | [ -> | [ -> | [ -> | [ -> | [ -> | [ -> | [] ] ] ] ] ] ] ];
      vm_compute; eauto.
  - intros k Hover Hdef. unfold ConfigManager.get. simpl.
    now rewrite lookup_union_r, Hdef by exact Hover.
Qed.

Lemma loaded_config_keys_witness :
  (forall k, is_Some ((partial_override ∪ ConfigManager.DEFAULT_CONFIG) !! k) <->
             is_Some (partial_override !! k) \/
             is_Some (ConfigManager.DEFAULT_CONFIG !! k)) /\
  (forall k, k ∈ ["max_results"; "timeout"; "download_path"; "search_history_file";
                  "max_retries"; "wait_time"; "browser_options"] ->
             is_Some ((partial_override ∪ ConfigManager.DEFAULT_CONFIG) !! k)) /\
  (forall k, partial_override !! k = None -> ConfigManager.DEFAULT_CONFIG !! k = None ->
             ConfigManager.get
               {| ConfigManager.config_file := "config.json";
                  ConfigManager.config := partial_override ∪ ConfigManager.DEFAULT_CONFIG |} k
             = PyNone).
Proof.
  apply (loaded_config_keys "config.json"
           (world_with {[ "config.json" := Readable (JsonDoc (PyDict partial_override)) ]} [])
           (world_with {[ "config.json" := Readable (JsonDoc (PyDict partial_override)) ]} [])
           partial_override).
  - reflexivity.
  - reflexivity.
Defined.

(** ** More on the browser session *)

Lemma subscript_ok (v x : pyval) (key : string) :
  BookSearcher.subscript v key = Ok x <->
  exists d, v = PyDict d /\ d !! key = Some x.
Proof.
  split.
  - destruct v; simpl; try discriminate.
    destruct (d !! key) as [ y | ] eqn:Hkey; [ | discriminate ].
    intros [= <-]. now exists d.
  - intros (d & -> & Hkey). simpl. now rewrite Hkey.
Qed.

Section InitializeDriver.

Variable s : BookSearcher.state.

(** A launch that fails on the browser options has changed nothing. *)
Lemma initialize_driver_incomplete :
  ~ complete_options
      (ConfigManager.get (BookSearcher.config (BookSearcher.self s)) "browser_options") ->
  exists e, BookSearcher._initialize_driver s = (Raise e, s).
Proof.
  intros Hnot.
  unfold BookSearcher._initialize_driver, bind, BookSearcher.config_get, gets, lift_result.
  destruct (BookSearcher.subscript _ "headless") as [ headless | e1 ] eqn:H1;
    [ | now exists e1 ].
  destruct (BookSearcher.subscript _ "disable_images") as [ images | e2 ] eqn:H2;
    [ | now exists e2 ].
  destruct (BookSearcher.subscript _ "user_agent") as [ agent | e3 ] eqn:H3;
    [ | now exists e3 ].
  exfalso. apply Hnot.
  apply subscript_ok in H1 as (sub & Hsub & H1).
  apply subscript_ok in H2 as (sub2 & Hsub2 & H2).
  apply subscript_ok in H3 as (sub3 & Hsub3 & H3).
  rewrite Hsub in Hsub2, Hsub3.
  injection Hsub2 as <-. injection Hsub3 as <-.
  now exists sub, headless, images, agent.
Qed.

(** With the browser options there, Chrome is launched and the handle is
    set; the wait is set if the timeout converts to a float, and the
    conversion error is raised if it does not. *)
Lemma initialize_driver_launched :
  complete_options
    (ConfigManager.get (BookSearcher.config (BookSearcher.self s)) "browser_options") ->
  exists ses,
    live ses = true /\ page ses = blank_page /\
    BookSearcher._initialize_driver s =
      (match py_float (ConfigManager.get (BookSearcher.config (BookSearcher.self s))
                         "timeout") with
       | Ok _ => Ok tt
       | Raise e => Raise e
       end,
       {| BookSearcher.self :=
            {| BookSearcher.config := BookSearcher.config (BookSearcher.self s);
               BookSearcher.driver := Some (length (sessions (BookSearcher.world s)));
               BookSearcher.wait :=
                 match py_float (ConfigManager.get
                                   (BookSearcher.config (BookSearcher.self s))
                                   "timeout") with
                 | Ok _ => Some (length (sessions (BookSearcher.world s)),
                                 ConfigManager.get
                                   (BookSearcher.config (BookSearcher.self s)) "timeout")
                 | Raise _ => BookSearcher.wait (BookSearcher.self s)
                 end |};
          BookSearcher.world :=
            set_sessions (fun l => l ++ [ses]) (BookSearcher.world s) |}).
Proof.
  intros (sub & headless & images & agent & Hsub & H1 & H2 & H3).
  eexists. split; [ | split ]; cycle 2.
  - unfold BookSearcher._initialize_driver, bind, BookSearcher.config_get, gets,
      lift_result, BookSearcher.launch, modify, BookSearcher.WebDriverWait.
    rewrite Hsub. cbn [BookSearcher.subscript]. rewrite H1, H2, H3.
    cbn [BookSearcher.set_driver BookSearcher.set_wait BookSearcher.self
           BookSearcher.world BookSearcher.config BookSearcher.driver BookSearcher.wait].
    destruct (py_float _); reflexivity.
  - reflexivity.
  - reflexivity.
Qed.

End InitializeDriver.

Lemma complete_or_not (v : pyval) : complete_options v \/ ~ complete_options v.
Proof.
  destruct (BookSearcher.subscript v "headless") as [ headless | e1 ] eqn:H1;
    [ | right; intros (sub & h & i & a & -> & Hh & _);
        simpl in H1; rewrite Hh in H1; discriminate ].
  destruct (BookSearcher.subscript v "disable_images") as [ images | e2 ] eqn:H2;
    [ | right; intros (sub & h & i & a & -> & _ & Hi & _);
        simpl in H2; rewrite Hi in H2; discriminate ].
  destruct (BookSearcher.subscript v "user_agent") as [ agent | e3 ] eqn:H3;
    [ | right; intros (sub & h & i & a & -> & _ & _ & Ha);
        simpl in H3; rewrite Ha in H3; discriminate ].
  left.
  apply subscript_ok in H1 as (sub & Hsub & H1).
  apply subscript_ok in H2 as (sub2 & Hsub2 & H2).
  apply subscript_ok in H3 as (sub3 & Hsub3 & H3).
  rewrite Hsub in Hsub2, Hsub3.
  injection Hsub2 as <-. injection Hsub3 as <-.
  now exists sub, headless, images, agent.
Qed.


(** A configuration whose ["timeout"] is [null]: Chrome is launched and the
    handle set, then [float(None)] raises. *)
Example timeout_none_leaves_browser_running :
  let cm := {| ConfigManager.config_file := "config.json";
               ConfigManager.config :=
                 <["timeout" := PyNone]> ConfigManager.DEFAULT_CONFIG |} in
  let s := {| BookSearcher.self := BookSearcher.__init__ cm;
              BookSearcher.world := world_with ∅ [] |} in
  let run := BookSearcher._initialize_driver s in
  fst run = Raise TypeError /\
  BookSearcher.driver (BookSearcher.self (snd run)) = Some 0 /\
  BookSearcher.wait (BookSearcher.self (snd run)) = None /\
  map live (sessions (BookSearcher.world (snd run))) = [true].
Proof. vm_compute. repeat split. Qed.



(** The loop over the options, started at index [k]. *)
Lemma first_match_from (type : string) (texts : list string) (k : nat) :
  match BookSearcher.first_match type texts k with
  | Some i =>
      k <= i /\
      (exists txt, texts !! (i - k) = Some txt /\
                   contains (lower type) (lower txt) = true) /\
      (forall j txt, j < i - k -> texts !! j = Some txt ->
                     contains (lower type) (lower txt) = false)
  | None =>
      Forall (fun txt => contains (lower type) (lower txt) = false) texts
  end.
Proof.
  revert k. induction texts as [ | txt texts IH ]; intros k; simpl.
  - constructor.
  - destruct (contains (lower type) (lower txt)) eqn:Hhit.
    + split; [ lia | ]. rewrite Nat.sub_diag. split.
      * exists txt. now split.
      * intros j txt' Hj. lia.
    + specialize (IH (S k)).
      destruct (BookSearcher.first_match type texts (S k)) as [ i | ].
      * destruct IH as (Hle & (txt' & Hlook & Hhit') & Hfirst).
        split; [ lia | ].
        replace (i - k) with (S (i - S k)) by lia.
        split.
        -- exists txt'. now split.
        -- intros [ | j ] txt''; simpl.
           ++ intros _ [= <-]. exact Hhit.
           ++ intros Hj Hlook'. apply (Hfirst j txt''); [ lia | exact Hlook' ].
      * now constructor.
Qed.

Lemma contains_empty (hay : string) : contains "" hay = true.
Proof. destruct hay; reflexivity. Qed.

(** X7.  The option clicked is the first one whose text contains the search
    type, compared in lower case; no option is clicked when none does.  An
    empty search type is contained in every text, so it clicks the first
    option. *)
Theorem first_match_is_first (type : string) (texts : list string) :
  match BookSearcher.first_match type texts 0 with
  | Some i =>
      (exists txt, texts !! i = Some txt /\
                   contains (lower type) (lower txt) = true) /\
      (forall j txt, j < i -> texts !! j = Some txt ->
                     contains (lower type) (lower txt) = false)
  | None =>
      Forall (fun txt => contains (lower type) (lower txt) = false) texts
  end /\
  (forall txt rest, BookSearcher.first_match "" (txt :: rest) 0 = Some 0).
Proof.
  split.
  - pose proof (first_match_from type texts 0) as H.
    destruct (BookSearcher.first_match type texts 0) as [ i | ]; [ | exact H ].
    rewrite Nat.sub_0_r in H. now destruct H as (_ & Hhit & Hfirst).
  - intros txt rest. simpl. now rewrite contains_empty.
Qed.

Section CloseTwice.

Variable sid : nat.

Lemma without_session_twice (l : list Session) :
  BookSearcher.without_session sid (BookSearcher.without_session sid l)
  = BookSearcher.without_session sid l.
Proof.
  destruct (l !! sid) as [ old | ] eqn:Hold.
  - unfold BookSearcher.without_session at 1.
    rewrite (without_session_there sid l old Hold).
    unfold BookSearcher.without_session. rewrite Hold. simpl.
    apply list_insert_insert_eq.
  - unfold BookSearcher.without_session. now rewrite !Hold.
Qed.

End CloseTwice.

(** X8.  [close] never raises and can be repeated: a second [close] changes
    nothing.  On a searcher that has launched no session it does nothing at
    all. *)
Theorem close_is_idempotent (s : BookSearcher.state) :
  exists s1,
    BookSearcher.close s = (Ok tt, s1) /\
    BookSearcher.close s1 = (Ok tt, s1) /\
    (BookSearcher.driver (BookSearcher.self s) = None -> s1 = s).
Proof.
  destruct (BookSearcher.driver (BookSearcher.self s)) as [ sid | ] eqn:Hdriver.
  - eexists. split; [ exact (close_run sid s Hdriver) | ].
    split; [ | discriminate ].
    rewrite (close_run sid) by exact Hdriver.
    unfold set_sessions. simpl.
    now rewrite without_session_twice.
  - exists s.
    assert (Hrun : BookSearcher.close s = (Ok tt, s))
      by (unfold BookSearcher.close, bind, gets; now rewrite Hdriver).
    now repeat split.
Qed.

(** ** More on extraction *)

Lemma extract_log (s : BookSearcher.state) :
  let s' := snd (BookSearcher._extract_book_data s) in
  log (BookSearcher.world s') = log (BookSearcher.world s) \/
  exists e, log (BookSearcher.world s')
            = log (BookSearcher.world s) ++ [LogError "Data extraction error" e].
Proof.
  cbv zeta.
  unfold BookSearcher._extract_book_data, try_except, bind,
    BookSearcher.wait_until, BookSearcher.on_page.
  destruct (BookSearcher.wait (BookSearcher.self s)) as [ [ sid timeout ] | ];
    [ | right; eexists; reflexivity ].
  destruct (sessions (BookSearcher.world s) !! sid) as [ ses | ];
    [ | right; eexists; reflexivity ].
  destruct (live ses); [ | right; eexists; reflexivity ].
  destruct (table_c (page ses)) as [ table | ]; [ | right; eexists; reflexivity ].
  unfold BookSearcher.config_get, gets, lift_result.
  destruct (BookSearcher.slice_stop _) as [ stop | e ];
    [ | right; eexists; reflexivity ].
  destruct (BookSearcher.parse_rows (py_slice table 1 stop) []) as [ books [ e | ] ].
  - right. eexists. reflexivity.
  - left. reflexivity.
Qed.

(** X9.  [_extract_book_data] never raises: in every state it returns a
    list.  It leaves the searcher, the files and the sessions as they are,
    and puts at most one record in the log. *)
Theorem extraction_never_raises (s : BookSearcher.state) :
  exists books s',
    BookSearcher._extract_book_data s = (Ok books, s') /\
    BookSearcher.self s' = BookSearcher.self s /\
    fs (BookSearcher.world s') = fs (BookSearcher.world s) /\
    sessions (BookSearcher.world s') = sessions (BookSearcher.world s) /\
    (log (BookSearcher.world s') = log (BookSearcher.world s) \/
     exists e, log (BookSearcher.world s')
               = log (BookSearcher.world s) ++ [LogError "Data extraction error" e]).
Proof.
  destruct (extract_total s) as (books & s' & Hrun & Hself & Hfs & Hses & _).
  exists books, s'. repeat split; try assumption.
  pose proof (extract_log s) as Hlog. cbv zeta in Hlog.
  now rewrite Hrun in Hlog.
Qed.

(** Of a header and the rows under it, the slice keeps the first [N] rows. *)
Lemma py_slice_rows {A} (header : A) (rows : list A) (N : Z) :
  (0 <= N)%Z ->
  py_slice (header :: rows) 1 (N + 1) = take (Z.to_nat N) rows.
Proof.
  intros HN. unfold py_slice, slice_index.
  destruct (Z.ltb_spec 1 0) as [ Habs | _ ]; [ lia | ].
  destruct (Z.ltb_spec (N + 1) 0) as [ Habs | _ ]; [ lia | ].
  cbn [length].
  assert (H1 : Z.to_nat (Z.min 1 (Z.of_nat (S (length rows)))) = 1%nat) by lia.
  rewrite H1. cbn [drop].
  destruct (Z.le_gt_cases (N + 1) (Z.of_nat (S (length rows)))) as [ Hle | Hgt ].
  - f_equal. lia.
  - rewrite (take_ge rows (Z.to_nat N)) by lia.
    apply take_ge. lia.
Qed.

(** X10.  When the rows that fall under the cap all parse, extraction skips
    the header row and returns the records of the first [max_results] rows,
    in the order of the page, and logs nothing; rows beyond the cap are not
    looked at. *)
Theorem extraction_of_clean_table
    (s : BookSearcher.state) (sid : nat) (timeout : pyval) (ses : Session)
    (header : Row) (rows : list Row) (N : Z) :
  BookSearcher.wait (BookSearcher.self s) = Some (sid, timeout) ->
  sessions (BookSearcher.world s) !! sid = Some ses ->
  live ses = true ->
  table_c (page ses) = Some (header :: rows) ->
  ConfigManager.get (BookSearcher.config (BookSearcher.self s)) "max_results" = PyInt N ->
  (0 <= N)%Z ->
  Forall parses (take (Z.to_nat N) rows) ->
  BookSearcher._extract_book_data s
  = (Ok (successfully_parsed (take (Z.to_nat N) rows)), s).
Proof.
  intros Hwait Hses Hlive Htable Hmax HN Hrows.
  rewrite (extract_on_table s sid timeout ses (header :: rows) (N + 1))
    by (try assumption; now rewrite Hmax).
  rewrite py_slice_rows by exact HN.
  now rewrite parse_rows_clean by exact Hrows.
Qed.

(** A cap of 2 over three rows, the third of which would not parse. *)
Lemma extraction_of_clean_table_witness :
  BookSearcher._extract_book_data
    (on_results
       {| ConfigManager.config_file := "config.json";
          ConfigManager.config := <["max_results" := PyInt 2]> ConfigManager.DEFAULT_CONFIG |}
       [dune_row; short_row; unlinked_row])
  = (Ok (successfully_parsed (take (Z.to_nat 2) [dune_row; short_row; unlinked_row])),
     on_results
       {| ConfigManager.config_file := "config.json";
          ConfigManager.config := <["max_results" := PyInt 2]> ConfigManager.DEFAULT_CONFIG |}
       [dune_row; short_row; unlinked_row]).
Proof.
  apply (extraction_of_clean_table _ 0 (PyInt 10)
           {| live := true;
              options := {| opt_headless := false;
                            opt_images_disabled := true;
                            opt_user_agent := PyStr "Mozilla/5.0" |};
              page := results_page [dune_row; short_row; unlinked_row] |}
           header_row [dune_row; short_row; unlinked_row] 2).
  - reflexivity.
  - reflexivity.
  - reflexivity.
  - reflexivity.
  - reflexivity.
  - lia.
  - repeat constructor.
Defined.

(** X11.  A page without a result table, or a session that has been quit,
    gives no records: the exception is logged and the empty list returned. *)
Theorem extraction_without_table
    (s : BookSearcher.state) (sid : nat) (timeout : pyval) (ses : Session) :
  BookSearcher.wait (BookSearcher.self s) = Some (sid, timeout) ->
  sessions (BookSearcher.world s) !! sid = Some ses ->
  live ses = false \/ table_c (page ses) = None ->
  BookSearcher._extract_book_data s
  = (Ok [],
     with_error s "Data extraction error"
       (if live ses then TimeoutException else InvalidSessionIdException)).
Proof.
  intros Hwait Hses Hwhy.
  unfold BookSearcher._extract_book_data, try_except, bind,
    BookSearcher.wait_until, BookSearcher.on_page.
  rewrite Hwait, Hses.
  destruct (live ses); [ | reflexivity ].
  destruct Hwhy as [ Habs | Htable ]; [ discriminate Habs | ].
  rewrite Htable. reflexivity.
Qed.

Lemma extraction_without_table_witness :
  BookSearcher._extract_book_data
    {| BookSearcher.self := BookSearcher.self (on_results default_manager []);
       BookSearcher.world :=
         set_sessions
           (fun _ => [ {| live := true;
                          options := {| opt_headless := false;
                                        opt_images_disabled := true;
                                        opt_user_agent := PyStr "Mozilla/5.0" |};
                          page := front_page |} ])
           (BookSearcher.world (on_results default_manager [])) |}
  = (Ok [],
     with_error
       {| BookSearcher.self := BookSearcher.self (on_results default_manager []);
          BookSearcher.world :=
            set_sessions
              (fun _ => [ {| live := true;
                             options := {| opt_headless := false;
                                           opt_images_disabled := true;
                                           opt_user_agent := PyStr "Mozilla/5.0" |};
                             page := front_page |} ])
              (BookSearcher.world (on_results default_manager [])) |}
       "Data extraction error"
       (if live {| live := true;
                   options := {| opt_headless := false;
                                 opt_images_disabled := true;
                                 opt_user_agent := PyStr "Mozilla/5.0" |};
                   page := front_page |}
        then TimeoutException else InvalidSessionIdException)).
Proof.
  apply (extraction_without_table _ 0 (PyInt 10)
           {| live := true;
              options := {| opt_headless := false;
                            opt_images_disabled := true;
                            opt_user_agent := PyStr "Mozilla/5.0" |};
              page := front_page |}).
  - reflexivity.
  - reflexivity.
  - right. reflexivity.
Defined.

(** X12.  When ["max_results"] is not an integer (a float, a string,
    [null], a list), the slice bound cannot be computed: extraction returns
    no record at all, whatever the table holds, and logs a [TypeError]. *)
Theorem extraction_with_bad_max_results
    (s : BookSearcher.state) (sid : nat) (timeout : pyval) (ses : Session)
    (table : list Row) :
  BookSearcher.wait (BookSearcher.self s) = Some (sid, timeout) ->
  sessions (BookSearcher.world s) !! sid = Some ses ->
  live ses = true ->
  table_c (page ses) = Some table ->
  (forall z, ConfigManager.get (BookSearcher.config (BookSearcher.self s)) "max_results"
             <> PyInt z) ->
  (forall b, ConfigManager.get (BookSearcher.config (BookSearcher.self s)) "max_results"
             <> PyBool b) ->
  BookSearcher._extract_book_data s
  = (Ok [], with_error s "Data extraction error" TypeError).
Proof.
  intros Hwait Hses Hlive Htable Hint Hbool.
  unfold BookSearcher._extract_book_data, try_except, bind,
    BookSearcher.wait_until, BookSearcher.on_page.
  rewrite Hwait, Hses, Hlive, Htable.
  unfold BookSearcher.config_get, gets, lift_result.
  destruct (ConfigManager.get _ "max_results") as [ | b | z | m x | str | l | l | d ];
    try reflexivity.
  - exfalso. now apply (Hbool b).
  - exfalso. now apply (Hint z).
Qed.

Lemma extraction_with_bad_max_results_witness :
  BookSearcher._extract_book_data
    (on_results
       {| ConfigManager.config_file := "config.json";
          ConfigManager.config :=
            <["max_results" := PyStr "20"]> ConfigManager.DEFAULT_CONFIG |}
       [dune_row; emma_row])
  = (Ok [],
     with_error
       (on_results
          {| ConfigManager.config_file := "config.json";
             ConfigManager.config :=
               <["max_results" := PyStr "20"]> ConfigManager.DEFAULT_CONFIG |}
          [dune_row; emma_row])
       "Data extraction error" TypeError).
Proof.
  apply (extraction_with_bad_max_results _ 0 (PyInt 10)
           {| live := true;
              options := {| opt_headless := false;
                            opt_images_disabled := true;
                            opt_user_agent := PyStr "Mozilla/5.0" |};
              page := results_page [dune_row; emma_row] |}
           (header_row :: [dune_row; emma_row])).
  - reflexivity.
  - reflexivity.
  - reflexivity.
  - reflexivity.
  - intros z. vm_compute. discriminate.
  - intros b. vm_compute. discriminate.
Defined.

(** Where a record comes from. *)
Lemma parse_row_record (cols : list Cell) (book : BookData.t) :
  BookSearcher.parse_row cols = Ok (Some book) ->
  9 <= length cols /\
  exists title_cell href more,
    cols !! 2 = Some title_cell /\
    anchors title_cell = href :: more /\
    book = column_mapping cols href.
Proof.
  intros Hrow.
  destruct (Nat.lt_ge_cases (length cols) 9) as [ Hshort | Hlong ].
  - rewrite parse_row_short in Hrow by exact Hshort. discriminate Hrow.
  - split; [ exact Hlong | ].
    destruct (long_row_shape cols Hlong)
      as (c0 & c1 & c2 & c3 & c4 & c5 & c6 & c7 & c8 & rest & Hcols).
    assert (Htitle : cols !! 2 = Some c2) by now rewrite Hcols.
    destruct (anchors c2) as [ | href more ] eqn:Hanchor.
    + rewrite (parse_row_unlinked cols c2 Hlong Htitle Hanchor) in Hrow.
      discriminate Hrow.
    + rewrite (parse_row_linked cols c2 href more Hlong Htitle Hanchor) in Hrow.
      injection Hrow as <-. now exists c2, href, more.
Qed.

Lemma parse_rows_origin (rows : list Row) (books : list BookData.t) (book : BookData.t) :
  book ∈ fst (BookSearcher.parse_rows rows books) ->
  book ∈ books \/
  exists row, row ∈ rows /\ BookSearcher.parse_row row = Ok (Some book).
Proof.
  revert books. induction rows as [ | row rows IH ]; intros books; simpl.
  - now left.
  - destruct (BookSearcher.parse_row row) as [ [ b | ] | e ] eqn:Hrow.
    + intros Hin. apply IH in Hin as [ Hin | (row' & Hin & Hrow') ].
      * apply elem_of_app in Hin as [ Hin | Hin ]; [ now left | ].
        apply list_elem_of_singleton in Hin as ->.
        right. exists row. split; [ apply elem_of_cons; now left | exact Hrow ].
      * right. exists row'. split; [ apply elem_of_cons; now right | exact Hrow' ].
    + intros Hin. apply IH in Hin as [ Hin | (row' & Hin & Hrow') ]; [ now left | ].
      right. exists row'. split; [ apply elem_of_cons; now right | exact Hrow' ].
    + simpl. now left.
Qed.

(** X13.  Every record the loop returns was built from a row of the batch
    that has at least nine cells and an anchor in its title cell, and is the
    column mapping of that row: no record is made up, and none comes from a
    short row. *)
Theorem records_come_from_long_rows (rows : list Row) (book : BookData.t) :
  book ∈ fst (BookSearcher.parse_rows rows []) ->
  exists row title_cell href more,
    row ∈ rows /\
    9 <= length row /\
    row !! 2 = Some title_cell /\
    anchors title_cell = href :: more /\
    book = column_mapping row href.
Proof.
  intros Hin.
  apply parse_rows_origin in Hin as [ Hin | (row & Hin & Hrow) ].
  - now apply elem_of_nil in Hin.
  - apply parse_row_record in Hrow as (Hlen & title_cell & href & more & Ht & Ha & ->).
    now exists row, title_cell, href, more.
Qed.

Lemma records_come_from_long_rows_witness :
  exists row title_cell href more,
    row ∈ [short_row; emma_row] /\
    9 <= length row /\
    row !! 2 = Some title_cell /\
    anchors title_cell = href :: more /\
    column_mapping emma_row (Some "book/index.php?md5=BB") = column_mapping row href.
Proof.
  apply (records_come_from_long_rows [short_row; emma_row]).
  vm_compute. apply elem_of_cons. now left.
Defined.

(** [str.strip()] leaves nothing to strip. *)
Lemma rstrip_twice (s : string) : rstrip (rstrip s) = rstrip s.
Proof.
  induction s as [ | c s IH ]; [ reflexivity | ].
  simpl. destruct (rstrip s) as [ | d r ] eqn:Hr.
  - destruct (is_space c) eqn:Hc; [ reflexivity | ].
    simpl. now rewrite Hc.
  - change (rstrip (String c (String d r)))
      with (match rstrip (String d r) with
            | EmptyString => if is_space c then EmptyString else String c EmptyString
            | r' => String c r'
            end).
    now rewrite IH.
Qed.

Lemma lstrip_head (s : string) :
  lstrip s = EmptyString \/
  exists c r, lstrip s = String c r /\ is_space c = false.
Proof.
  induction s as [ | c s IH ]; [ now left | ].
  simpl. destruct (is_space c) eqn:Hc; [ exact IH | ].
  right. now exists c, s.
Qed.

Lemma rstrip_head (c : ascii) (s : string) :
  is_space c = false -> exists r, rstrip (String c s) = String c r.
Proof.
  intros Hc. simpl. destruct (rstrip s) as [ | d r ].
  - rewrite Hc. now exists EmptyString.
  - now exists (String d r).
Qed.

Lemma strip_twice (s : string) : strip (strip s) = strip s.
Proof.
  unfold strip.
  destruct (lstrip_head s) as [ -> | (c & r & -> & Hc) ]; [ reflexivity | ].
  destruct (rstrip_head c r Hc) as [ r' Hr ].
  rewrite Hr.
  assert (Hl : lstrip (String c r') = String c r') by (simpl; now rewrite Hc).
  rewrite Hl, <- Hr. apply rstrip_twice.
Qed.

Lemma field_at_stripped (cols : list Cell) (i : nat) :
  strip (field_at cols i) = field_at cols i.
Proof.
  unfold field_at. destruct (cols !! i); [ apply strip_twice | reflexivity ].
Qed.

(** X14.  The text fields of a record carry no white space at either end:
    stripping any of them again changes nothing. *)
Theorem record_fields_are_stripped (cols : list Cell) (book : BookData.t) :
  BookSearcher.parse_row cols = Ok (Some book) ->
  strip (BookData.title book) = BookData.title book /\
  strip (BookData.author book) = BookData.author book /\
  strip (BookData.year book) = BookData.year book /\
  strip (BookData.format book) = BookData.format book /\
  strip (BookData.size book) = BookData.size book /\
  strip (BookData.language book) = BookData.language book /\
  strip (BookData.pages book) = BookData.pages book /\
  strip (BookData.publisher book) = BookData.publisher book /\
  strip (BookData.isbn book) = BookData.isbn book.
Proof.
  intros Hrow.
  apply parse_row_record in Hrow as (_ & title_cell & href & more & _ & _ & ->).
  simpl. repeat split; apply field_at_stripped.
Qed.

Lemma record_fields_are_stripped_witness :
  strip (BookData.title (column_mapping dune_row (Some "book/index.php?md5=AA")))
    = BookData.title (column_mapping dune_row (Some "book/index.php?md5=AA")) /\
  strip (BookData.author (column_mapping dune_row (Some "book/index.php?md5=AA")))
    = BookData.author (column_mapping dune_row (Some "book/index.php?md5=AA")) /\
  strip (BookData.year (column_mapping dune_row (Some "book/index.php?md5=AA")))
    = BookData.year (column_mapping dune_row (Some "book/index.php?md5=AA")) /\
  strip (BookData.format (column_mapping dune_row (Some "book/index.php?md5=AA")))
    = BookData.format (column_mapping dune_row (Some "book/index.php?md5=AA")) /\
  strip (BookData.size (column_mapping dune_row (Some "book/index.php?md5=AA")))
    = BookData.size (column_mapping dune_row (Some "book/index.php?md5=AA")) /\
  strip (BookData.language (column_mapping dune_row (Some "book/index.php?md5=AA")))
    = BookData.language (column_mapping dune_row (Some "book/index.php?md5=AA")) /\
  strip (BookData.pages (column_mapping dune_row (Some "book/index.php?md5=AA")))
    = BookData.pages (column_mapping dune_row (Some "book/index.php?md5=AA")) /\
  strip (BookData.publisher (column_mapping dune_row (Some "book/index.php?md5=AA")))
    = BookData.publisher (column_mapping dune_row (Some "book/index.php?md5=AA")) /\
  strip (BookData.isbn (column_mapping dune_row (Some "book/index.php?md5=AA")))
    = BookData.isbn (column_mapping dune_row (Some "book/index.php?md5=AA")).
Proof.
  apply (record_fields_are_stripped dune_row). reflexivity.
Defined.

(** ** More on the search history *)

Section HistoryOutcomes.

Variables (term : string) (n : nat).
Variable s : BookSearcher.state.

Lemma save_history_bad_path :
  (forall path,
     ConfigManager.get (BookSearcher.config (BookSearcher.self s)) "search_history_file"
     <> PyStr path) ->
  BookSearcher._save_search_history term n s
  = (Ok tt, with_error s "Error saving search history" TypeError).
Proof.
  intros Hget.
  unfold BookSearcher._save_search_history, bind, BookSearcher.config_get, gets.
  destruct (ConfigManager.get _ "search_history_file") as [ | b | z | m x | str | l | l | d ];
    try reflexivity.
  exfalso. now apply (Hget str).
Qed.

Variable path : string.
Hypothesis history_file :
  ConfigManager.get (BookSearcher.config (BookSearcher.self s)) "search_history_file"
  = PyStr path.

Lemma save_history_denied :
  fs (BookSearcher.world s) !! path = Some Denied ->
  BookSearcher._save_search_history term n s
  = (Ok tt, with_error s "Error saving search history" (PermissionError path)).
Proof using history_file.
  intros Hfile.
  unfold BookSearcher._save_search_history, bind, BookSearcher.config_get, gets.
  rewrite history_file.
  unfold try_except, lift_result, BookSearcher.as_path, path_exists.
  rewrite Hfile.
  unfold BookSearcher.in_world, read_file. rewrite Hfile. reflexivity.
Qed.

Lemma save_history_not_array (v : pyval) :
  fs (BookSearcher.world s) !! path = Some (Readable (JsonDoc v)) ->
  (forall old, v <> PyList old) ->
  BookSearcher._save_search_history term n s
  = (Ok tt, with_error s "Error saving search history" AttributeError).
Proof using history_file.
  intros Hfile Hv.
  unfold BookSearcher._save_search_history, bind, BookSearcher.config_get, gets.
  rewrite history_file.
  unfold try_except, lift_result, BookSearcher.as_path, path_exists.
  rewrite Hfile.
  unfold BookSearcher.in_world, read_file. rewrite Hfile. simpl.
  destruct v; try reflexivity.
  exfalso. now apply (Hv l).
Qed.

Lemma save_history_unreadable (c : content) :
  fs (BookSearcher.world s) !! path = Some (Readable c) ->
  (forall v, c <> JsonDoc v) ->
  BookSearcher._save_search_history term n s
  = (Ok tt, with_error s "Error saving search history" JSONDecodeError).
Proof using history_file.
  intros Hfile Hc.
  unfold BookSearcher._save_search_history, bind, BookSearcher.config_get, gets.
  rewrite history_file.
  unfold try_except, lift_result, BookSearcher.as_path, path_exists.
  rewrite Hfile.
  unfold BookSearcher.in_world, read_file. rewrite Hfile.
  destruct c; try reflexivity.
  exfalso. now apply (Hc v).
Qed.

End HistoryOutcomes.

Lemma save_history_outcome (s : BookSearcher.state) (term : string) (n : nat) :
  exists s',
    BookSearcher._save_search_history term n s = (Ok tt, s') /\
    BookSearcher.self s' = BookSearcher.self s /\
    sessions (BookSearcher.world s') = sessions (BookSearcher.world s) /\
    ((exists path doc,
        ConfigManager.get (BookSearcher.config (BookSearcher.self s)) "search_history_file"
          = PyStr path /\
        fs (BookSearcher.world s') = <[ path := Readable doc ]> (fs (BookSearcher.world s)) /\
        log (BookSearcher.world s') = log (BookSearcher.world s))
     \/
     (exists e,
        fs (BookSearcher.world s') = fs (BookSearcher.world s) /\
        log (BookSearcher.world s')
          = log (BookSearcher.world s) ++ [LogError "Error saving search history" e])).
Proof.
  destruct (ConfigManager.get (BookSearcher.config (BookSearcher.self s))
              "search_history_file") as [ | b | z | m x | path | l | l | d ] eqn:Hget;
    try (eexists; split;
         [ apply save_history_bad_path; intros p; rewrite Hget; discriminate
         | repeat split; right; eexists; split; reflexivity ]).
  destruct (fs (BookSearcher.world s) !! path) as [ [ | c ] | ] eqn:Hfile.
  - eexists. split; [ eapply save_history_denied; [ exact Hget | exact Hfile ] | ].
    repeat split. right. eexists. split; reflexivity.
  - destruct c as [ raw | v | rows | rows ];
      try (eexists; split;
           [ eapply save_history_unreadable; [ exact Hget | exact Hfile | discriminate ]
           | repeat split; right; eexists; split; reflexivity ]).
    destruct v as [ | b | z | m x | str | old | l | d ];
      try (eexists; split;
           [ eapply save_history_not_array; [ exact Hget | exact Hfile | discriminate ]
           | repeat split; right; eexists; split; reflexivity ]).
    eexists. split; [ eapply save_history_array; [ exact Hget | exact Hfile ] | ].
    repeat split. left. eexists _, _. repeat split.
  - destruct (place (BookSearcher.world s) path) eqn:Hplace.
    + eexists. split;
        [ eapply save_history_absent; [ exact Hget | exact Hfile | exact Hplace ] | ].
      repeat split. left. eexists _, _. repeat split.
    + destruct (save_history_uncreatable path term n s Hget Hfile) as (e & Hrun & _);
        [ rewrite Hplace; discriminate | ].
      eexists. split; [ exact Hrun | ].
      repeat split. right. eexists. split; reflexivity.
    + destruct (save_history_uncreatable path term n s Hget Hfile) as (e & Hrun & _);
        [ rewrite Hplace; discriminate | ].
      eexists. split; [ exact Hrun | ].
      repeat split. right. eexists. split; reflexivity.
Qed.


(** X15.  [_save_search_history] never raises.  Either it rewrites the
    history file, and then no other file is touched and nothing is logged;
    or it logs one error, and then no file is touched at all.  The searcher
    and the sessions are as before in both cases. *)
Theorem save_history_never_raises (s : BookSearcher.state) (term : string) (n : nat) :
  exists s',
    BookSearcher._save_search_history term n s = (Ok tt, s') /\
    BookSearcher.self s' = BookSearcher.self s /\
    sessions (BookSearcher.world s') = sessions (BookSearcher.world s) /\
    ((exists path doc,
        ConfigManager.get (BookSearcher.config (BookSearcher.self s)) "search_history_file"
          = PyStr path /\
        fs (BookSearcher.world s') = <[ path := Readable doc ]> (fs (BookSearcher.world s)) /\
        log (BookSearcher.world s') = log (BookSearcher.world s))
     \/
     (exists e,
        fs (BookSearcher.world s') = fs (BookSearcher.world s) /\
        log (BookSearcher.world s')
          = log (BookSearcher.world s) ++ [LogError "Error saving search history" e])).
Proof. apply save_history_outcome. Qed.

(** X16.  A history file that cannot be used is left as it is: when it
    cannot be opened, holds text that is not JSON, or holds a JSON document
    that is not an array, the matching exception is logged and nothing is
    written. *)
Theorem unusable_history_is_left_alone
    (s : BookSearcher.state) (path term : string) (n : nat) (f : file) :
  ConfigManager.get (BookSearcher.config (BookSearcher.self s)) "search_history_file"
    = PyStr path ->
  fs (BookSearcher.world s) !! path = Some f ->
  (forall old, f <> Readable (JsonDoc (PyList old))) ->
  exists e,
    BookSearcher._save_search_history term n s
      = (Ok tt, with_error s "Error saving search history" e) /\
    fs (BookSearcher.world (with_error s "Error saving search history" e))
      = fs (BookSearcher.world s) /\
    e = match f with
        | Denied => PermissionError path
        | Readable (JsonDoc _) => AttributeError
        | Readable _ => JSONDecodeError
        end.
Proof.
  intros Hget Hfile Hf.
  destruct f as [ | [ raw | v | rows | rows ] ].
  - eexists. split; [ eapply save_history_denied; [ exact Hget | exact Hfile ] | now split ].
  - eexists. split; [ | now split ].
    eapply save_history_unreadable; [ exact Hget | exact Hfile | discriminate ].
  - eexists. split; [ | now split ].
    eapply save_history_not_array; [ exact Hget | exact Hfile | ].
    intros old ->. now apply (Hf old).
  - eexists. split; [ | now split ].
    eapply save_history_unreadable; [ exact Hget | exact Hfile | discriminate ].
  - eexists. split; [ | now split ].
    eapply save_history_unreadable; [ exact Hget | exact Hfile | discriminate ].
Qed.

(** A history file that holds an object instead of an array. *)
Lemma unusable_history_is_left_alone_witness :
  exists e,
    BookSearcher._save_search_history "Dune" 20
      {| BookSearcher.self := BookSearcher.__init__ default_manager;
         BookSearcher.world :=
           world_with {[ "search_history.json" := Readable (JsonDoc (PyDict ∅)) ]} [] |}
    = (Ok tt,
       with_error
         {| BookSearcher.self := BookSearcher.__init__ default_manager;
            BookSearcher.world :=
              world_with {[ "search_history.json" := Readable (JsonDoc (PyDict ∅)) ]} [] |}
         "Error saving search history" e) /\
    fs (BookSearcher.world
          (with_error
             {| BookSearcher.self := BookSearcher.__init__ default_manager;
                BookSearcher.world :=
                  world_with {[ "search_history.json" := Readable (JsonDoc (PyDict ∅)) ]} [] |}
             "Error saving search history" e))
    = fs (world_with {[ "search_history.json" := Readable (JsonDoc (PyDict ∅)) ]} []) /\
    e = AttributeError.
Proof.
  apply (unusable_history_is_left_alone
           {| BookSearcher.self := BookSearcher.__init__ default_manager;
              BookSearcher.world :=
                world_with {[ "search_history.json" := Readable (JsonDoc (PyDict ∅)) ]} [] |}
           "search_history.json" "Dune" 20 (Readable (JsonDoc (PyDict ∅)))).
  - reflexivity.
  - reflexivity.
  - discriminate.
Defined.

(** X17.  Appends compose: after two searches have been recorded, the
    file holds the entries it had (as [json.dump] writes them), then the
    first new entry, then the second.  Earlier entries are neither dropped
    nor reordered. *)
Theorem history_appends_compose
    (s : BookSearcher.state) (path term1 term2 : string) (n1 n2 : nat)
    (old : list pyval) :
  ConfigManager.get (BookSearcher.config (BookSearcher.self s)) "search_history_file"
    = PyStr path ->
  fs (BookSearcher.world s) !! path = Some (Readable (JsonDoc (PyList old))) ->
  exists s1 s2,
    BookSearcher._save_search_history term1 n1 s = (Ok tt, s1) /\
    BookSearcher._save_search_history term2 n2 s1 = (Ok tt, s2) /\
    fs (BookSearcher.world s2) !! path =
      Some (Readable (JsonDoc (PyList
        (map jsonify old
         ++ [BookSearcher.history_entry (now (BookSearcher.world s)) term1 n1;
             BookSearcher.history_entry (now (BookSearcher.world s)) term2 n2])))).
Proof.
  intros Hget Hfile.
  eexists _, _. split; [ eapply save_history_array; [ exact Hget | exact Hfile ] | ].
  split.
  - eapply save_history_array; [ exact Hget | ].
    simpl. apply lookup_insert_eq.
  - simpl. rewrite lookup_insert_eq.
    rewrite map_app, map_map. cbn [map].
    rewrite jsonify_history_entry, <- app_assoc.
    do 4 f_equal. cbn [app]. f_equal.
    apply map_ext. intros v. apply jsonify_twice.
Qed.

Lemma history_appends_compose_witness :
  exists s1 s2,
    BookSearcher._save_search_history "Dune" 20 (with_history []) = (Ok tt, s1) /\
    BookSearcher._save_search_history "Emma" 1 s1 = (Ok tt, s2) /\
    fs (BookSearcher.world s2) !! "search_history.json" =
      Some (Readable (JsonDoc (PyList
        (map jsonify []
         ++ [BookSearcher.history_entry
               (now (BookSearcher.world (with_history []))) "Dune" 20;
             BookSearcher.history_entry
               (now (BookSearcher.world (with_history []))) "Emma" 1])))).
Proof.
  apply (history_appends_compose (with_history []) "search_history.json"
           "Dune" "Emma" 20 1 []);
    reflexivity.
Defined.

(** ** More on export *)

Lemma export_denied (df : DataFrame) (s : BookSearcher.state) (format : string) :
  format = "csv" \/ format = "json" ->
  fs (BookSearcher.world s) !! export_filename (now (BookSearcher.world s)) format
    = Some Denied ->
  BookSearcher.export_results df format s =
    (Raise (PermissionError (export_filename (now (BookSearcher.world s)) format)),
     with_error s "Export error"
       (PermissionError (export_filename (now (BookSearcher.world s)) format))).
Proof.
  intros Hformat Hfile.
  unfold BookSearcher.export_results, bind, gets, try_except.
  fold (export_filename (now (BookSearcher.world s)) format).
  destruct Hformat as [ -> | -> ];
    cbn [String.eqb Ascii.eqb Bool.eqb];
    unfold BookSearcher.in_world, write_file;
    rewrite Hfile; reflexivity.
Qed.

(** X18.  When the file of the "csv" or the "json" format cannot be opened
    for writing, the error of opening it (a [PermissionError] for a file
    that is there, and for a read-only directory; a [FileNotFoundError] for
    a missing directory) is logged once as an export error and raised to the
    caller, and no file is touched. *)
Theorem export_propagates_write_failure
    (df : DataFrame) (s : BookSearcher.state) (format : string) :
  format = "csv" \/ format = "json" ->
  can_write (export_filename (now (BookSearcher.world s)) format) (BookSearcher.world s)
    = false ->
  exists e s',
    BookSearcher.export_results df format s = (Raise e, s') /\
    (e = PermissionError (export_filename (now (BookSearcher.world s)) format) \/
     e = FileNotFoundError (export_filename (now (BookSearcher.world s)) format)) /\
    (fs (BookSearcher.world s) !! export_filename (now (BookSearcher.world s)) format
       = Some Denied ->
     e = PermissionError (export_filename (now (BookSearcher.world s)) format)) /\
    fs (BookSearcher.world s') = fs (BookSearcher.world s) /\
    log (BookSearcher.world s') = log (BookSearcher.world s) ++ [LogError "Export error" e].
Proof.
  intros Hformat Hcan.
  destruct (export_cannot_write df s format Hformat Hcan) as (e & Hrun & He).
  exists e. eexists. split; [ exact Hrun | ].
  split; [ exact He | ].
  split; [ | now split ].
  intros Hfile.
  rewrite (export_denied df s format Hformat Hfile) in Hrun.
  now injection Hrun as <-.
Qed.

Lemma export_propagates_write_failure_witness :
  exists e s',
    BookSearcher.export_results [] "json"
      {| BookSearcher.self := BookSearcher.__init__ default_manager;
         BookSearcher.world :=
           world_with {[ "search_results_20261103_101530.json" := Denied ]} [] |}
      = (Raise e, s') /\
    (e = PermissionError
           (export_filename
              (now (world_with {[ "search_results_20261103_101530.json" := Denied ]} []))
              "json") \/
     e = FileNotFoundError
           (export_filename
              (now (world_with {[ "search_results_20261103_101530.json" := Denied ]} []))
              "json")) /\
    (fs (world_with {[ "search_results_20261103_101530.json" := Denied ]} [])
       !! export_filename
            (now (world_with {[ "search_results_20261103_101530.json" := Denied ]} []))
            "json"
     = Some Denied ->
     e = PermissionError
           (export_filename
              (now (world_with {[ "search_results_20261103_101530.json" := Denied ]} []))
              "json")) /\
    fs (BookSearcher.world s')
      = fs (world_with {[ "search_results_20261103_101530.json" := Denied ]} []) /\
    log (BookSearcher.world s')
      = log (world_with {[ "search_results_20261103_101530.json" := Denied ]} [])
        ++ [LogError "Export error" e].
Proof.
  apply (export_propagates_write_failure []
           {| BookSearcher.self := BookSearcher.__init__ default_manager;
              BookSearcher.world :=
                world_with {[ "search_results_20261103_101530.json" := Denied ]} [] |}
           "json").
  - now right.
  - reflexivity.
Defined.

(** X19.  An export touches at most one file, the one it names: every other
    path is as before, and so are the searcher and the sessions.  When it
    returns, nothing is logged; when it raises, no file has changed and the
    exception is the one record added to the log. *)
Theorem export_touches_one_file (df : DataFrame) (format : string) (s : BookSearcher.state) :
  let r := fst (BookSearcher.export_results df format s) in
  let s' := snd (BookSearcher.export_results df format s) in
  BookSearcher.self s' = BookSearcher.self s /\
  sessions (BookSearcher.world s') = sessions (BookSearcher.world s) /\
  (forall p, p <> export_filename (now (BookSearcher.world s)) format ->
             fs (BookSearcher.world s') !! p = fs (BookSearcher.world s) !! p) /\
  match r with
  | Ok p =>
      p = export_filename (now (BookSearcher.world s)) format /\
      log (BookSearcher.world s') = log (BookSearcher.world s)
  | Raise e =>
      fs (BookSearcher.world s') = fs (BookSearcher.world s) /\
      log (BookSearcher.world s') = log (BookSearcher.world s) ++ [LogError "Export error" e]
  end.
Proof.
  cbv zeta.
  destruct (export_outcome df s format) as [ (e & ->) | (_ & ->) ].
  - simpl. repeat split.
  - simpl. repeat split. intros p Hp. now apply lookup_insert_ne.
Qed.







(** X26.  What an export does is decided by the format.  A format other
    than "csv", "excel" and "json" is refused: the [ValueError] that names
    it is logged and raised and nothing is written, and that error is
    raised for no other format.  In the "csv" and in the "json" format,
    when the file can be opened for writing, the table (or the array of its
    records) is written to the file named after the clock and the format,
    and that name is returned. *)
Theorem export_by_format (df : DataFrame) (format : string) (s : BookSearcher.state) :
  (supported_format format = false ->
   BookSearcher.export_results df format s =
     (Raise (ValueError ("Unsupported export format: " +:+ format)),
      with_error s "Export error" (ValueError ("Unsupported export format: " +:+ format))))
  /\
  (fst (BookSearcher.export_results df format s)
     = Raise (ValueError ("Unsupported export format: " +:+ format)) ->
   supported_format format = false)
  /\
  (format = "csv" \/ format = "json" ->
   can_write (export_filename (now (BookSearcher.world s)) format) (BookSearcher.world s)
     = true ->
   BookSearcher.export_results df format s =
     (Ok (export_filename (now (BookSearcher.world s)) format),
      with_file s (export_filename (now (BookSearcher.world s)) format)
        (if String.eqb format "csv" then CsvDoc df
         else JsonDoc (PyList (map BookSearcher.record_of df))))).
Proof.
  split; [ | split ].
  - intros Hformat. now apply export_unsupported.
  - intros Hraise.
    destruct (supported_format format) eqn:Hformat; [ exfalso | reflexivity ].
    apply supported_format_cases in Hformat as [ -> | [ -> | -> ] ].
    + destruct (can_write (export_filename (now (BookSearcher.world s)) "csv")
                  (BookSearcher.world s)) eqn:Hcan.
      * rewrite export_writes_document in Hraise by auto. discriminate Hraise.
      * destruct (export_cannot_write df s "csv" (or_introl eq_refl) Hcan)
          as (e & Hrun & [ -> | -> ]);
          rewrite Hrun in Hraise; discriminate Hraise.
    + destruct (export_excel df s) as (msg & Hrun & _ & Hmsg).
      rewrite Hrun in Hraise. cbn [fst] in Hraise.
      injection Hraise as Hsame. now apply Hmsg.
    + destruct (can_write (export_filename (now (BookSearcher.world s)) "json")
                  (BookSearcher.world s)) eqn:Hcan.
      * rewrite export_writes_document in Hraise by auto. discriminate Hraise.
      * destruct (export_cannot_write df s "json" (or_intror eq_refl) Hcan)
          as (e & Hrun & [ -> | -> ]);
          rewrite Hrun in Hraise; discriminate Hraise.
  - intros Hformat Hcan. now apply export_writes_document.
Qed.

(** ** More on [search_books] *)

Lemma same_outside_refl s : same_outside s s.
Proof. now repeat split. Qed.

Lemma same_outside_trans s1 s2 s3 :
  same_outside s1 s2 -> same_outside s2 s3 -> same_outside s1 s3.
Proof.
  intros (H1 & H2 & H3 & H4 & H5 & H6) (K1 & K2 & K3 & K4 & K5 & K6).
  repeat split; congruence.
Qed.

Lemma same_disk_refl s : same_disk s s.
Proof. now repeat split. Qed.

Lemma same_disk_trans s1 s2 s3 :
  same_disk s1 s2 -> same_disk s2 s3 -> same_disk s1 s3.
Proof.
  intros (H1 & H2 & H3 & H4) (K1 & K2 & K3 & K4). repeat split; congruence.
Qed.

Lemma same_outside_disk {A} (m : M BookSearcher.state A) :
  preserves same_outside m -> preserves same_disk m.
Proof.
  intros Hm s r s' Hrun.
  destruct (Hm s r s' Hrun) as (H1 & _ & H3 & _ & H5 & H6). now repeat split.
Qed.

Section RaisesWithin.

Context {S : Type} (R : S -> S -> Prop).
Hypothesis R_trans : forall s1 s2 s3, R s1 s2 -> R s2 s3 -> R s1 s3.

Lemma raises_within_bind {A B} (m : M S A) (k : A -> M S B) :
  preserves R m -> (forall a, raises_within R (k a)) -> raises_within R (bind m k).
Proof using R_trans.
  intros Hm Hk s e s'. unfold bind.
  destruct (m s) as [ [ a | e' ] s1 ] eqn:Hrun; intros Hrest.
  - eapply R_trans; [ eapply Hm; exact Hrun | eapply Hk; exact Hrest ].
  - injection Hrest as _ <-. eapply Hm; exact Hrun.
Qed.

Lemma raises_within_never {A} (m : M S A) :
  (forall s, exists a s', m s = (Ok a, s')) -> raises_within R m.
Proof.
  intros Hm s e s' Hrun. destruct (Hm s) as (a & s1 & Hok). congruence.
Qed.

End RaisesWithin.

Create HintDb outside discriminated.

Ltac outside_core :=
  first
    [ apply (preserves_ret same_outside same_outside_refl)
    | apply (preserves_raise same_outside same_outside_refl)
    | apply (preserves_gets same_outside same_outside_refl)
    | apply (preserves_lift_result same_outside same_outside_refl)
    | apply (preserves_bind same_outside same_outside_trans)
    | apply (preserves_try_except same_outside same_outside_trans) ].

Ltac outside :=
  repeat (intros; cbv beta zeta; first [ solve [ auto with outside ] | outside_core ]).

Lemma config_get_outside key : preserves same_outside (BookSearcher.config_get key).
Proof. unfold BookSearcher.config_get. outside. Qed.

Lemma on_page_outside {A} sid (f : Page -> result A) :
  preserves same_outside (BookSearcher.on_page sid f).
Proof.
  intros s r s'. unfold BookSearcher.on_page.
  destruct (sessions (BookSearcher.world s) !! sid) as [ ses | ];
    [ destruct (live ses) | ]; intros [= _ <-]; apply same_outside_refl.
Qed.

Lemma wait_until_outside {A} (condition : Page -> option A) :
  preserves same_outside (BookSearcher.wait_until condition).
Proof.
  intros s r s'. unfold BookSearcher.wait_until.
  destruct (BookSearcher.wait (BookSearcher.self s)) as [ [ sid timeout ] | ].
  - apply on_page_outside.
  - intros [= _ <-]. apply same_outside_refl.
Qed.

Lemma the_driver_outside : preserves same_outside BookSearcher.the_driver.
Proof.
  intros s r s'. unfold BookSearcher.the_driver.
  destruct (BookSearcher.driver (BookSearcher.self s));
    intros [= _ <-]; apply same_outside_refl.
Qed.

Lemma navigate_outside sid p : preserves same_outside (BookSearcher.navigate sid p).
Proof.
  intros s r s'. unfold BookSearcher.navigate.
  destruct (sessions (BookSearcher.world s) !! sid) as [ ses | ];
    [ destruct (live ses) | ]; intros [= _ <-]; try apply same_outside_refl.
  now repeat split.
Qed.

#[local] Hint Resolve config_get_outside on_page_outside wait_until_outside
  the_driver_outside navigate_outside : outside.

Lemma random_delay_outside : preserves same_outside BookSearcher._random_delay.
Proof. unfold BookSearcher._random_delay. outside. Qed.

Lemma initialize_driver_outside : preserves same_outside BookSearcher._initialize_driver.
Proof.
  intros s r s' Hrun.
  destruct (complete_or_not
              (ConfigManager.get (BookSearcher.config (BookSearcher.self s))
                 "browser_options")) as [ Hopts | Hnot ].
  - destruct (initialize_driver_launched s Hopts) as (ses & _ & _ & Hrun').
    rewrite Hrun' in Hrun. injection Hrun as _ <-. now repeat split.
  - destruct (initialize_driver_incomplete s Hnot) as (e & Hrun').
    rewrite Hrun' in Hrun. injection Hrun as _ <-. apply same_outside_refl.
Qed.

#[local] Hint Resolve random_delay_outside initialize_driver_outside : outside.

(** Extraction touches the log at most. *)
Lemma extract_same_disk : preserves same_disk BookSearcher._extract_book_data.
Proof.
  intros s r s'.
  unfold BookSearcher._extract_book_data, try_except, bind,
    BookSearcher.wait_until, BookSearcher.on_page.
  destruct (BookSearcher.wait (BookSearcher.self s)) as [ [ sid timeout ] | ];
    [ | intros [= _ <-]; now repeat split ].
  destruct (sessions (BookSearcher.world s) !! sid) as [ ses | ];
    [ | intros [= _ <-]; now repeat split ].
  destruct (live ses); [ | intros [= _ <-]; now repeat split ].
  destruct (table_c (page ses)) as [ table | ]; [ | intros [= _ <-]; now repeat split ].
  unfold BookSearcher.config_get, gets, lift_result.
  destruct (BookSearcher.slice_stop _) as [ stop | e ];
    [ | intros [= _ <-]; now repeat split ].
  destruct (BookSearcher.parse_rows (py_slice table 1 stop) []) as [ books [ e | ] ];
    intros [= _ <-]; now repeat split.
Qed.

(** What follows the last pause of a search never raises. *)
Lemma search_tail_returns (term : string) (s : BookSearcher.state) :
  exists df s',
    (let* books := BookSearcher._extract_book_data in
     let* _ := BookSearcher._save_search_history term (length books) in
     ret (BookSearcher._create_dataframe books)) s = (Ok df, s').
Proof.
  destruct (extract_total s) as (books & s1 & Hextract & _).
  destruct (save_history_outcome s1 term (length books)) as (s2 & Hsave & _).
  exists books, s2.
  erewrite bind_returns by exact Hextract.
  erewrite bind_returns by exact Hsave.
  reflexivity.
Qed.

Lemma search_body_raises_within (term type : string) (d : option nat) :
  raises_within same_outside
    (let* _ := (if d is None then BookSearcher._initialize_driver else ret tt) in
     let* sid := BookSearcher.the_driver in
     let* _ := BookSearcher.navigate sid home in
     let* _ := BookSearcher._random_delay in
     let* _ := BookSearcher.wait_until (fun p => BookSearcher.present (query_input p)) in
     let* option_texts :=
       BookSearcher.on_page sid (fun p => match type_options p with
                                          | Some texts => Ok texts
                                          | None => Raise NoSuchElementException
                                          end) in
     let clicked := BookSearcher.first_match type option_texts 0 in
     let* _ := BookSearcher.wait_until (fun p => BookSearcher.present (submit_button p)) in
     let* _ := BookSearcher.navigate sid (fun site => submit site term clicked) in
     let* _ := BookSearcher._random_delay in
     let* books := BookSearcher._extract_book_data in
     let* _ := BookSearcher._save_search_history term (length books) in
     ret (BookSearcher._create_dataframe books)).
Proof.
  apply (raises_within_bind same_outside same_outside_trans);
    [ destruct d; outside | intros _ ].
  repeat (apply (raises_within_bind same_outside same_outside_trans);
          [ solve [ outside ] | intros ? ]; cbv beta zeta).
  apply raises_within_never. intros s. apply search_tail_returns.
Qed.

(** X22.  A search that raises has written no file, the history file
    included, and has logged exactly one record: the search error, with the
    exception that is raised. *)
Theorem failed_search_writes_nothing
    (s s' : BookSearcher.state) (term type : string) (e : exn) :
  BookSearcher.search_books term type s = (Raise e, s') ->
  fs (BookSearcher.world s') = fs (BookSearcher.world s) /\
  log (BookSearcher.world s') = log (BookSearcher.world s) ++ [LogError "Search error" e].
Proof.
  unfold BookSearcher.search_books.
  rewrite try_except_bind_gets. cbv beta.
  unfold try_except at 1.
  match goal with
  | |- context [ ?body s ] =>
      match body with
      | bind _ _ => destruct (body s) as [ [ df | e' ] s1 ] eqn:Hbody
      end
  end.
  - discriminate.
  - apply search_body_raises_within in Hbody as (Hfs & Hlog & _).
    unfold bind, BookSearcher.log_error, BookSearcher.in_world, modify, raise.
    intros [= <- <-]. simpl. now rewrite Hfs, Hlog.
Qed.

(** A site whose front page has no search form: the wait for the query
    field times out. *)
Lemma failed_search_writes_nothing_witness :
  fs (BookSearcher.world (snd (BookSearcher.search_books "Dune" "title" formless_state)))
  = fs (BookSearcher.world formless_state) /\
  log (BookSearcher.world (snd (BookSearcher.search_books "Dune" "title" formless_state)))
  = log (BookSearcher.world formless_state) ++ [LogError "Search error" TimeoutException].
Proof.
  apply (failed_search_writes_nothing formless_state _ "Dune" "title" TimeoutException).
  vm_compute. reflexivity.
Defined.

(** The chain of states of a search that returns. *)
Lemma search_books_steps (term type : string)
    (s s' : BookSearcher.state) (df : DataFrame) :
  BookSearcher.search_books term type s = (Ok df, s') ->
  exists s1,
    same_disk s s1 /\
    BookSearcher._save_search_history term (length df) s1 = (Ok tt, s').
Proof.
  intros Hrun.
  unfold BookSearcher.search_books in Hrun.
  apply try_except_ok in Hrun;
    [ | intros e s1; unfold bind, BookSearcher.log_error, BookSearcher.in_world, modify;
        reflexivity ].
  bind_inv Hrun.
  injection Hrun as <- <-.
  match goal with
  | H : BookSearcher._save_search_history _ _ ?s1 = (Ok ?u, _) |- _ =>
      exists s1; destruct u; split; [ | exact H ]; clear H
  end.
  repeat match goal with
         | H : gets _ _ = (Ok _, _) |- _ => injection H as <- <-
         end.
  match goal with
  | H : BookSearcher._extract_book_data ?sa = (Ok _, ?sb) |- same_disk _ ?sb =>
      apply (same_disk_trans _ sa sb); [ | exact (extract_same_disk _ _ _ H) ]; clear H
  end.
  repeat match goal with
         | H : ?m ?sa = (Ok _, ?sb) |- same_disk _ ?sb =>
             let Hc := fresh "Hc" in
             assert (Hc : same_disk sa sb)
               by (eapply same_outside_disk; [ | exact H ]; outside);
             apply (same_disk_trans _ sa sb); [ | exact Hc ];
             clear H Hc
         end.
  match goal with
  | H : _ s = (Ok _, ?sb) |- same_disk s ?sb =>
      destruct (BookSearcher.driver (BookSearcher.self s));
      [ injection H as _ <-; apply same_disk_refl
      | eapply same_outside_disk; [ apply initialize_driver_outside | exact H ] ]
  end.
Qed.

(** X23.  A search that returns has recorded itself: when the history file
    was absent and could be created, or held an array, it now holds the
    earlier entries (as [json.dump] writes them) followed by one entry with
    the search term and the number of records returned, and no other file
    has changed. *)
Theorem search_records_its_count
    (s s' : BookSearcher.state) (term type path : string) (df : DataFrame)
    (old : list pyval) :
  BookSearcher.search_books term type s = (Ok df, s') ->
  ConfigManager.get (BookSearcher.config (BookSearcher.self s)) "search_history_file"
    = PyStr path ->
  (fs (BookSearcher.world s) !! path = None /\
   place (BookSearcher.world s) path = Creatable /\ old = []) \/
  fs (BookSearcher.world s) !! path = Some (Readable (JsonDoc (PyList old))) ->
  fs (BookSearcher.world s') =
    <[ path := Readable (JsonDoc (PyList
         (map jsonify old
          ++ [BookSearcher.history_entry (now (BookSearcher.world s)) term (length df)]))) ]>
      (fs (BookSearcher.world s)).
Proof.
  intros Hrun Hget Hfile.
  apply search_books_steps in Hrun as (s1 & (Hfs & Hnow & Hconfig & Hplace) & Hsave).
  rewrite <- Hconfig in Hget. rewrite <- Hfs, <- Hnow, <- Hplace in *.
  destruct Hfile as [ (Hfile & Hcreate & ->) | Hfile ].
  - rewrite (save_history_absent path term (length df) s1 Hget Hfile Hcreate) in Hsave.
    now injection Hsave as <-.
  - rewrite (save_history_array path term (length df) s1 Hget old Hfile) in Hsave.
    now injection Hsave as <-.
Qed.

Lemma search_records_its_count_witness :
  fs (BookSearcher.world
        (snd (BookSearcher.search_books "Dune" "title" (fresh_state [dune_row; emma_row]))))
  = <[ "search_history.json" := Readable (JsonDoc (PyList
         (map jsonify []
          ++ [BookSearcher.history_entry
                (now (BookSearcher.world (fresh_state [dune_row; emma_row])))
                "Dune"
                (length [column_mapping dune_row (Some "book/index.php?md5=AA");
                         column_mapping emma_row (Some "book/index.php?md5=BB")])]))) ]>
      (fs (BookSearcher.world (fresh_state [dune_row; emma_row]))).
Proof.
  apply (search_records_its_count (fresh_state [dune_row; emma_row]) _
           "Dune" "title" "search_history.json"
           [column_mapping dune_row (Some "book/index.php?md5=AA");
            column_mapping emma_row (Some "book/index.php?md5=BB")] []).
  - vm_compute. reflexivity.
  - reflexivity.
  - left. repeat split; reflexivity.
Defined.

(** ** The interactive loop *)

Lemma print_keeps (x : printed) (p : process) :
  searcher (print x p) = searcher p /\ stdin (print x p) = stdin p.
Proof. now split. Qed.

Lemma print_menu_keeps (p : process) :
  searcher (print_menu p) = searcher p /\ stdin (print_menu p) = stdin p.
Proof. now split. Qed.

Lemma input_line (prompt : string) (p p' : process) (line : string) :
  input prompt p = (inl line, p') ->
  searcher p' = searcher p /\ stdin p = Line line :: stdin p'.
Proof.
  unfold input, print. simpl.
  destruct (stdin p) as [ | [ l | ] rest ] eqn:Hin; intros [= <- <-]; now split.
Qed.

Lemma input_signal (prompt : string) (p p' : process) (sig : signal) :
  input prompt p = (inr sig, p') ->
  searcher p' = searcher p /\ length (stdin p') <= length (stdin p).
Proof.
  unfold input, print. simpl.
  destruct (stdin p) as [ | [ l | ] rest ] eqn:Hin; intros [= <- <-]; split;
    try reflexivity; simpl; rewrite ?Hin; simpl; lia.
Qed.

Lemma call_run {A} (m : M BookSearcher.state A) (p p' : process) (r : result A) :
  call m p = (r, p') ->
  m (searcher p) = (r, searcher p') /\ stdin p' = stdin p.
Proof.
  unfold call. destruct (m (searcher p)) as [ r' s' ]. intros [= <- <-]. now split.
Qed.

Lemma menu_loop_step (fuel : nat) (results : option DataFrame) (p : process) :
  menu_loop (S fuel) results p =
      match input (nl +:+ "Enter your choice (1-5): ") (print_menu p) with
      | (inr sig, p) => Some (Stop sig, p)
      | (inl choice, p) =>
          if String.eqb choice "5" then Some (Break, p)
          else if existsb (String.eqb choice) ["1"; "2"; "3"] then
            match input "Enter search term: " p with
            | (inr sig, p) => Some (Stop sig, p)
            | (inl search_term, p) =>
                match search_types !! choice with
                | None => Some (Stop (Exception (KeyError choice)), p)
                | Some search_type =>
                    match call (BookSearcher.search_books search_term search_type)
                            (print (Text (nl +:+ "Searching... Please wait..." +:+ nl)) p) with
                    | (Raise e, p) => Some (Stop (Exception e), p)
                    | (Ok df, p) =>
                        match df with
                        | [] =>
                            menu_loop fuel (Some df) (print (Text "No results found.") p)
                        | _ :: _ =>
                            match input (nl +:+ "Would you like to export results? (y/n): ")
                                    (print (Table df) (print (Text (nl +:+ "Search Results:")) p)) with
                            | (inr sig, p) => Some (Stop sig, p)
                            | (inl export, p) =>
                                if String.eqb (lower export) "y" then
                                  match ask_and_export df p with
                                  | inr (sig, p) => Some (Stop sig, p)
                                  | inl p => menu_loop fuel (Some df) p
                                  end
                                else menu_loop fuel (Some df) p
                            end
                        end
                    end
                end
            end
          else if String.eqb choice "4" then
            match results with
            | Some df =>
                match ask_and_export df p with
                | inr (sig, p) => Some (Stop sig, p)
                | inl p => menu_loop fuel results p
                end
            | None =>
                menu_loop fuel results (print (Text "No results available to export.") p)
            end
          else menu_loop fuel results p
      end.
Proof. reflexivity. Qed.

Lemma same_searcher_one_session (s s' : BookSearcher.state) :
  same_searcher s s' -> one_session s -> one_session s'.
Proof.
  intros [ Hself Hlen ] [ [ Hd Hs ] | [ Hd Hs ] ].
  - left. rewrite Hself. split; [ exact Hd | ].
    rewrite Hs in Hlen. now apply nil_length_inv.
  - right. rewrite Hself, Hlen. now split.
Qed.

Lemma export_same_searcher (df : DataFrame) (format : string) :
  preserves same_searcher (BookSearcher.export_results df format).
Proof.
  intros s r s' Hrun.
  destruct (export_outcome df s format) as [ (e & Hout) | (_ & Hout) ];
    rewrite Hout in Hrun; injection Hrun as _ <-; split; reflexivity.
Qed.

(** However the initialisation ends, it has changed nothing, or it has
    launched one session and taken its handle. *)
Lemma initialize_driver_run (s s' : BookSearcher.state) (r : result unit) :
  BookSearcher._initialize_driver s = (r, s') ->
  (s' = s /\ exists e, r = Raise e) \/
  (BookSearcher.driver (BookSearcher.self s')
     = Some (length (sessions (BookSearcher.world s))) /\
   length (sessions (BookSearcher.world s')) = S (length (sessions (BookSearcher.world s)))).
Proof.
  intros Hrun.
  destruct (complete_or_not
              (ConfigManager.get (BookSearcher.config (BookSearcher.self s))
                 "browser_options")) as [ Hopts | Hnot ].
  - right.
    destruct (initialize_driver_launched s Hopts) as (ses & _ & _ & Hrun').
    rewrite Hrun' in Hrun. injection Hrun as _ <-.
    split; [ reflexivity | ].
    cbn [BookSearcher.world sessions set_sessions]. rewrite length_app. simpl. lia.
  - left.
    destruct (initialize_driver_incomplete s Hnot) as (e & Hrun').
    rewrite Hrun' in Hrun. injection Hrun as <- <-.
    split; [ reflexivity | now exists e ].
Qed.

(** A search by a searcher without a handle either launches one session
    and takes its handle, or leaves handle and sessions as they are. *)
Lemma search_books_from_none (term type : string)
    (s s' : BookSearcher.state) (r : result DataFrame) :
  BookSearcher.driver (BookSearcher.self s) = None ->
  BookSearcher.search_books term type s = (r, s') ->
  same_searcher s s' \/
  (BookSearcher.driver (BookSearcher.self s')
     = Some (length (sessions (BookSearcher.world s))) /\
   length (sessions (BookSearcher.world s')) = S (length (sessions (BookSearcher.world s)))).
Proof.
  intros Hdriver.
  unfold BookSearcher.search_books.
  rewrite try_except_bind_gets, Hdriver. cbv beta iota.
  match goal with
  | |- try_except (bind _ ?K) ?H s = _ -> _ =>
      assert (HK : forall u, preserves same_searcher (K u)) by keeps;
      assert (HH : forall e, preserves same_searcher (H e)) by keeps;
      generalize dependent K; generalize dependent H
  end.
  intros H HH K HK. unfold try_except, bind.
  destruct (BookSearcher._initialize_driver s) as [ [ [] | e ] s1 ] eqn:Hinit;
    apply initialize_driver_run in Hinit as [ [ -> (e' & He') ] | [ Hd Hlen ] ];
    try discriminate He'.
  - destruct (K tt s1) as [ [ df | e ] s2 ] eqn:Hrest.
    + intros [= <- <-]. right.
      destruct (HK tt s1 _ _ Hrest) as [ Hself Hlen' ]. rewrite Hself, Hlen'. now split.
    + intros Hhandler. right.
      destruct (HK tt s1 _ _ Hrest) as [ Hself Hlen' ].
      destruct (HH e s2 _ _ Hhandler) as [ Hself2 Hlen2 ].
      split; congruence.
  - intros Hhandler. left. exact (HH e s _ _ Hhandler).
  - intros Hhandler. right.
    destruct (HH e s1 _ _ Hhandler) as [ Hself Hlen' ].
    split; congruence.
Qed.

Lemma search_one_session (term type : string)
    (s s' : BookSearcher.state) (r : result DataFrame) :
  one_session s ->
  BookSearcher.search_books term type s = (r, s') ->
  one_session s'.
Proof.
  intros [ [ Hd Hs ] | [ Hd Hs ] ] Hrun.
  - destruct (search_books_from_none term type s s' r Hd Hrun) as [ Hsame | [ Hd' Hlen ] ].
    + apply (same_searcher_one_session s s'); [ exact Hsame | left; now split ].
    + right. rewrite Hs in Hd', Hlen. simpl in Hd', Hlen. now split.
  - apply (same_searcher_one_session s s'); [ | right; now split ].
    exact (search_books_same_searcher 0 term type s s' r Hd Hrun).
Qed.

Lemma ask_and_export_sound (df : DataFrame) (p : process) :
  one_session (searcher p) ->
  match ask_and_export df p with
  | inl p' => one_session (searcher p') /\ length (stdin p') < length (stdin p)
  | inr (sig, p') => one_session (searcher p') /\ length (stdin p') <= length (stdin p)
  end.
Proof.
  intros Hone. unfold ask_and_export.
  destruct (input _ p) as [ [ format_choice | sig ] p1 ] eqn:Hin.
  - apply input_line in Hin as [ Hs Hk ].
    destruct (call _ p1) as [ [ filename | e ] p2 ] eqn:Hcall;
      apply call_run in Hcall as [ Hrun Hk2 ];
      apply export_same_searcher in Hrun;
      rewrite Hs in Hrun;
      (split; [ eapply same_searcher_one_session; [ exact Hrun | exact Hone ] | ]);
      cbn [print stdin]; rewrite Hk2, Hk; simpl; lia.
  - apply input_signal in Hin as [ Hs Hk ]. rewrite Hs. now split.
Qed.

Lemma menu_loop_sound (fuel : nat) :
  forall (results : option DataFrame) (p : process),
    length (stdin p) < fuel ->
    one_session (searcher p) ->
    exists how p',
      menu_loop fuel results p = Some (how, p') /\
      one_session (searcher p') /\
      length (stdin p') <= length (stdin p).
Proof.
  induction fuel as [ | fuel IH ]; intros results p Hfuel Hone; [ lia | ].
  rewrite menu_loop_step.
  destruct (input _ (print_menu p)) as [ [ choice | sig ] p1 ] eqn:Hin1.
  2: { apply input_signal in Hin1 as [ Hs Hk ].
       eexists _, _. split; [ reflexivity | ]. rewrite Hs. now split. }
  apply input_line in Hin1 as [ Hs1 Hk1 ].
  cbn [print_menu print searcher stdin] in Hs1, Hk1.
  assert (Hone1 : one_session (searcher p1)) by now rewrite Hs1.
  assert (Hlen1 : length (stdin p1) < fuel) by (rewrite Hk1 in Hfuel; simpl in Hfuel; lia).
  assert (Hle1 : length (stdin p1) <= length (stdin p)) by (rewrite Hk1; simpl; lia).
  clear Hs1 Hk1 Hfuel Hone.
  destruct (String.eqb choice "5").
  { eexists _, _. split; [ reflexivity | now split ]. }
  destruct (existsb _ _).
  - destruct (input _ p1) as [ [ search_term | sig ] p2 ] eqn:Hin2.
    2: { apply input_signal in Hin2 as [ Hs Hk ].
         eexists _, _. split; [ reflexivity | ]. rewrite Hs. split; [ assumption | lia ]. }
    apply input_line in Hin2 as [ Hs2 Hk2 ].
    destruct (search_types !! choice) as [ search_type | ].
    2: { eexists _, _. split; [ reflexivity | ]. rewrite Hs2.
         split; [ assumption | rewrite Hk2 in Hle1; simpl in Hle1; lia ]. }
    destruct (call _ _) as [ [ df | e ] p3 ] eqn:Hcall;
      apply call_run in Hcall as [ Hrun Hk3 ];
      cbn [print searcher stdin] in Hrun, Hk3;
      rewrite Hs2 in Hrun;
      pose proof (search_one_session _ _ _ _ _ Hone1 Hrun) as Hone3.
    2: { eexists _, _. split; [ reflexivity | ].
         split; [ assumption | rewrite Hk3; rewrite Hk2 in Hle1; simpl in Hle1; lia ]. }
    assert (Hlen3 : length (stdin p3) < fuel)
      by (rewrite Hk3; rewrite Hk2 in Hlen1; simpl in Hlen1; lia).
    assert (Hle3 : length (stdin p3) <= length (stdin p))
      by (rewrite Hk3; rewrite Hk2 in Hle1; simpl in Hle1; lia).
    destruct df as [ | book df ].
    + destruct (IH (Some []) (print (Text "No results found.") p3))
        as (how & p' & Hloop & Hone' & Hle'); [ exact Hlen3 | exact Hone3 | ].
      exists how, p'. split; [ exact Hloop | ].
      split; [ exact Hone' | cbn [print stdin] in Hle'; lia ].
    + destruct (input _ _) as [ [ export | sig ] p4 ] eqn:Hin4.
      2: { apply input_signal in Hin4 as [ Hs Hk ].
           cbn [print searcher stdin] in Hs, Hk.
           eexists _, _. split; [ reflexivity | ]. rewrite Hs. split; [ assumption | lia ]. }
      apply input_line in Hin4 as [ Hs4 Hk4 ].
      cbn [print searcher stdin] in Hs4, Hk4.
      assert (Hone4 : one_session (searcher p4)) by now rewrite Hs4.
      assert (Hlen4 : length (stdin p4) < fuel) by (rewrite Hk4 in Hlen3; simpl in Hlen3; lia).
      assert (Hle4 : length (stdin p4) <= length (stdin p))
        by (rewrite Hk4 in Hle3; simpl in Hle3; lia).
      destruct (String.eqb (lower export) "y").
      * pose proof (ask_and_export_sound (book :: df) p4 Hone4) as Hask.
        destruct (ask_and_export (book :: df) p4) as [ p5 | [ sig p5 ] ].
        -- destruct Hask as [ Hone5 Hlt5 ].
           destruct (IH (Some (book :: df)) p5)
             as (how & p' & Hloop & Hone' & Hle'); [ lia | exact Hone5 | ].
           exists how, p'. split; [ exact Hloop | split; [ exact Hone' | lia ] ].
        -- destruct Hask as [ Hone5 Hle5 ].
           eexists _, _. split; [ reflexivity | split; [ exact Hone5 | lia ] ].
      * destruct (IH (Some (book :: df)) p4)
          as (how & p' & Hloop & Hone' & Hle'); [ exact Hlen4 | exact Hone4 | ].
        exists how, p'. split; [ exact Hloop | split; [ exact Hone' | lia ] ].
  - destruct (String.eqb choice "4").
    + destruct results as [ df | ].
      * pose proof (ask_and_export_sound df p1 Hone1) as Hask.
        destruct (ask_and_export df p1) as [ p5 | [ sig p5 ] ].
        -- destruct Hask as [ Hone5 Hlt5 ].
           destruct (IH (Some df) p5)
             as (how & p' & Hloop & Hone' & Hle'); [ lia | exact Hone5 | ].
           exists how, p'. split; [ exact Hloop | split; [ exact Hone' | lia ] ].
        -- destruct Hask as [ Hone5 Hle5 ].
           eexists _, _. split; [ reflexivity | split; [ exact Hone5 | lia ] ].
      * destruct (IH None (print (Text "No results available to export.") p1))
          as (how & p' & Hloop & Hone' & Hle'); [ exact Hlen1 | exact Hone1 | ].
        exists how, p'. split; [ exact Hloop | ].
        split; [ exact Hone' | cbn [print stdin] in Hle'; lia ].
    + destruct (IH results p1)
        as (how & p' & Hloop & Hone' & Hle'); [ exact Hlen1 | exact Hone1 | ].
      exists how, p'. split; [ exact Hloop | split; [ exact Hone' | lia ] ].
Qed.

Lemma load_config_sessions (path : string) (w w' : World) (r : result (gmap string pyval)) :
  ConfigManager._load_config path w = (r, w') -> sessions w' = sessions w.
Proof.
  destruct (fs w !! path) as [ f | ] eqn:Hfile.
  - destruct f as [ | [ raw | v | rows | rows ] ].
    + rewrite load_config_denied by exact Hfile. now intros [= _ <-].
    + erewrite load_config_not_json; [ | exact Hfile | discriminate ]. now intros [= _ <-].
    + destruct v;
        try (erewrite load_config_not_object; [ | exact Hfile | discriminate ];
             now intros [= _ <-]).
      erewrite load_config_object by exact Hfile. now intros [= _ <-].
    + erewrite load_config_not_json; [ | exact Hfile | discriminate ]. now intros [= _ <-].
    + erewrite load_config_not_json; [ | exact Hfile | discriminate ]. now intros [= _ <-].
  - destruct (place w path) eqn:Hplace.
    + rewrite load_config_absent by assumption. now intros [= _ <-].
    + destruct (load_config_uncreatable path w Hfile) as (e & -> & _);
        [ rewrite Hplace; discriminate | ].
      now intros [= _ <-].
    + destruct (load_config_uncreatable path w Hfile) as (e & -> & _);
        [ rewrite Hplace; discriminate | ].
      now intros [= _ <-].
Qed.

Lemma close_one_session (s : BookSearcher.state) :
  one_session s ->
  Forall (fun ses => live ses = false)
         (sessions (BookSearcher.world (snd (BookSearcher.close s)))) /\
  length (sessions (BookSearcher.world (snd (BookSearcher.close s)))) <= 1.
Proof.
  intros [ [ Hd Hs ] | [ Hd Hs ] ].
  - assert (Hrun : BookSearcher.close s = (Ok tt, s))
      by (unfold BookSearcher.close, bind, gets; now rewrite Hd).
    rewrite Hrun. simpl. rewrite Hs. split; [ constructor | simpl; lia ].
  - rewrite (close_run 0 s Hd). simpl.
    destruct (sessions (BookSearcher.world s)) as [ | ses [ | ses' rest ] ];
      try discriminate Hs.
    split; [ repeat constructor | simpl; lia ].
Qed.

(** X24.  Started without a browser session, [main] ends for every sequence
    of keyboard events, and however it ends (exit from the menu, end of
    input, interrupt, an exception of a search or an export) no session is
    left running: at most one session was ever launched, and it has been
    quit. *)
Theorem main_leaves_no_session (w : World) (keys : list keyboard) :
  sessions w = [] ->
  exists out,
    main w keys = Some out /\
    match out with
    | Crashed e w' => sessions w' = []
    | Finished p =>
        Forall (fun ses => live ses = false) (sessions (BookSearcher.world (searcher p))) /\
        length (sessions (BookSearcher.world (searcher p))) <= 1
    end.
Proof.
  intros Hfresh. unfold main, ConfigManager.__init__, bind.
  destruct (ConfigManager._load_config "config.json" w) as [ [ cfg | e ] w' ] eqn:Hload;
    apply load_config_sessions in Hload; rewrite Hfresh in Hload.
  - cbn [ret].
    match goal with
    | |- context [ menu_loop ?f ?r ?p ] =>
        destruct (menu_loop_sound f r p) as (how & p' & Hloop & Hone & _);
        [ simpl; lia | left; now split | rewrite Hloop ]
    end.
    eexists. split; [ reflexivity | ].
    unfold leave, call.
    match goal with
    | |- context [ BookSearcher.close (searcher ?q) ] =>
        assert (Hq : searcher q = searcher p') by (destruct how as [ | [ | | ] ]; reflexivity);
        pose proof (close_one_session (searcher q)) as Hclose;
        rewrite Hq in Hclose |- *;
        destruct (BookSearcher.close (searcher p')) as [ r s1 ]
    end.
    now apply Hclose.
  - eexists. split; [ reflexivity | exact Hload ].
Qed.

Lemma main_leaves_no_session_witness :
  exists out,
    main (world_with ∅ [dune_row])
         [Line "1"; Line "Dune"; Line "y"; Line "csv"; Interrupt; Line "5"] = Some out /\
    match out with
    | Crashed e w' => sessions w' = []
    | Finished p =>
        Forall (fun ses => live ses = false) (sessions (BookSearcher.world (searcher p))) /\
        length (sessions (BookSearcher.world (searcher p))) <= 1
    end.
Proof.
  apply (main_leaves_no_session (world_with ∅ [dune_row])
           [Line "1"; Line "Dune"; Line "y"; Line "csv"; Interrupt; Line "5"]).
  reflexivity.
Defined.

Lemma search_types_keys (choice search_type : string) :
  search_types !! choice = Some search_type ->
  (choice = "1" /\ search_type = "title") \/
  (choice = "2" /\ search_type = "author") \/
  (choice = "3" /\ search_type = "isbn").
Proof.
  unfold search_types. intros H.
  apply lookup_insert_Some in H as [ [ <- <- ] | [ _ H ] ]; [ now left | ].
  apply lookup_insert_Some in H as [ [ <- <- ] | [ _ H ] ]; [ right; now left | ].
  apply lookup_insert_Some in H as [ [ <- <- ] | [ _ H ] ]; [ right; now right | ].
  now rewrite lookup_empty in H.
Qed.

(** X25.  The [try] of [main] is around the whole loop: a search that
    raises ends the loop.  The exception is reported, the events still
    waiting on the keyboard are never read, and the program goes on to
    [close]. *)
Theorem failed_search_ends_the_program
    (fuel : nat) (results : option DataFrame) (p : process)
    (choice search_type term : string) (rest : list keyboard)
    (e : exn) (s' : BookSearcher.state) :
  stdin p = Line choice :: Line term :: rest ->
  search_types !! choice = Some search_type ->
  BookSearcher.search_books term search_type (searcher p) = (Raise e, s') ->
  exists p',
    menu_loop (S fuel) results p = Some (Stop (Exception e), p') /\
    searcher p' = s' /\
    stdin p' = rest /\
    stdin (leave (Stop (Exception e)) p') = rest /\
    last (stdout (leave (Stop (Exception e)) p')) = Some (Failure (Exception e)).
Proof.
  intros Hkeys Htype Hrun.
  rewrite menu_loop_step.
  unfold input, print_menu, print. cbn [stdin searcher stdout]. rewrite Hkeys.
  assert (Hchoice : String.eqb choice "5" = false /\
                    existsb (String.eqb choice) ["1"; "2"; "3"] = true)
    by (apply search_types_keys in Htype
          as [ [ -> _ ] | [ [ -> _ ] | [ -> _ ] ] ]; now split).
  destruct Hchoice as [ H5 H123 ]. rewrite H5, H123, Htype.
  unfold call. cbn [stdin searcher stdout]. rewrite Hrun.
  eexists. split; [ reflexivity | ].
  cbn [stdin searcher stdout].
  repeat split.
  - unfold leave, call, print. cbn [stdin searcher stdout].
    now destruct (BookSearcher.close s').
  - unfold leave, call, print. cbn [stdin searcher stdout].
    destruct (BookSearcher.close s'). cbn [snd stdout]. apply last_snoc.
Qed.

(** A site without a search form: the second search is never made. *)
Lemma failed_search_ends_the_program_witness :
  exists p',
    menu_loop 5 None
      {| searcher := formless_state;
         stdin := [Line "2"; Line "Herbert"; Line "1"; Line "Dune"; Line "5"];
         stdout := [] |}
    = Some (Stop (Exception TimeoutException), p') /\
    searcher p' = snd (BookSearcher.search_books "Herbert" "author" formless_state) /\
    stdin p' = [Line "1"; Line "Dune"; Line "5"] /\
    stdin (leave (Stop (Exception TimeoutException)) p') = [Line "1"; Line "Dune"; Line "5"] /\
    last (stdout (leave (Stop (Exception TimeoutException)) p'))
      = Some (Failure (Exception TimeoutException)).
Proof.
  apply (failed_search_ends_the_program 4 None
           {| searcher := formless_state;
              stdin := [Line "2"; Line "Herbert"; Line "1"; Line "Dune"; Line "5"];
              stdout := [] |}
           "2" "author" "Herbert" [Line "1"; Line "Dune"; Line "5"]
           TimeoutException
           (snd (BookSearcher.search_books "Herbert" "author" formless_state))).
  - reflexivity.
  - reflexivity.
  - vm_compute. reflexivity.
Defined.
